(** * Expense tracker: storage, service and validation layers

    A shallow embedding of [tracker/models.py], [tracker/validation.py],
    [tracker/storage.py], [tracker/service.py] and [tracker/cli.py], and
    the properties of id generation, filtering, sorting, aggregation,
    deletion, update and of the command line proved about it.

    Conventions of the embedding:
    - a Python [str] is a [string] (a sequence of 8-bit characters; the
      case and whitespace builtins are modelled on the ASCII range);
    - a Python [int] is a [Z];
    - an amount is a Python number: the service only adds and compares
      amounts, so the code is embedded over a class [PyNum] of numbers,
      with binary64 floats ([PrimFloat.float]) and integers as instances;
    - the JSON file is a [file_state]; every operation that touches it is
      a computation in the monad [IO] of file state and exceptions;
    - a command of the command line is a [Handler]: from the parsed
      arguments and the file to what it prints, how it ends and the
      file it leaves. The records of the logger are not modelled. *)

From Stdlib Require Import Bool List Arith ZArith Lia Ascii String.
From Stdlib Require Import Permutation Sorted.
From Stdlib Require Import Floats.
Import ListNotations.

Set Warnings "-inexact-float".

Local Open Scope string_scope.
Local Open Scope list_scope.

(** ** Python string builtins *)

Module PyStr.

(** [c in string.whitespace], and the four separators 0x1c-0x1f that
    [str.isspace] also accepts. *)
Definition is_space (c : ascii) : bool :=
  let n := nat_of_ascii c in
  (((9 <=? n) && (n <=? 13)) || ((28 <=? n) && (n <=? 32)))%nat.

Definition is_digit (c : ascii) : bool :=
  let n := nat_of_ascii c in ((48 <=? n) && (n <=? 57))%nat.

Definition digit_value (c : ascii) : Z := Z.of_nat (nat_of_ascii c - 48).

Definition digit_char (d : Z) : ascii := ascii_of_nat (48 + Z.to_nat d).

(** [s.lower()] on one character. *)
Definition lower_char (c : ascii) : ascii :=
  let n := nat_of_ascii c in
  if ((65 <=? n) && (n <=? 90))%nat then ascii_of_nat (n + 32) else c.

(** [s.lower()] *)
Fixpoint lower (s : string) : string :=
  match s with
  | EmptyString => EmptyString
  | String c r => String (lower_char c) (lower r)
  end.

Fixpoint lstrip_chars (cs : list ascii) : list ascii :=
  match cs with
  | c :: r => if is_space c then lstrip_chars r else cs
  | [] => []
  end.

Definition strip_chars (cs : list ascii) : list ascii :=
  rev (lstrip_chars (rev (lstrip_chars cs))).

(** [s.strip()] *)
Definition strip (s : string) : string :=
  string_of_list_ascii (strip_chars (list_ascii_of_string s)).

(** [s.startswith(p)] *)
Definition startswith (s p : string) : bool := String.prefix p s.

(** [s.replace(c, '')] for a one-character [c]. *)
Fixpoint remove_char (c : ascii) (s : string) : string :=
  match s with
  | EmptyString => EmptyString
  | String x r =>
      if Ascii.eqb x c then remove_char c r else String x (remove_char c r)
  end.

(** [s.split(sep)] for a one-character [sep]: never empty. *)
Fixpoint split (sep : ascii) (s : string) : list string :=
  match s with
  | EmptyString => [EmptyString]
  | String x r =>
      if Ascii.eqb x sep then EmptyString :: split sep r
      else match split sep r with
           | piece :: rest => String x piece :: rest
           | [] => [String x EmptyString]
           end
  end.

(** [needle in s] *)
Fixpoint contains (needle s : string) : bool :=
  String.prefix needle s ||
  match s with
  | EmptyString => false
  | String _ r => contains needle r
  end.

(** The digits of an integer literal, left to right; a single underscore
    may separate two digits. [seen] tells whether the previous character
    was a digit. *)
Fixpoint int_digits (acc : Z) (seen : bool) (cs : list ascii) : option Z :=
  match cs with
  | [] => if seen then Some acc else None
  | c :: r =>
      if is_digit c then int_digits (10 * acc + digit_value c)%Z true r
      else if Ascii.eqb c "_" && seen then int_digits acc false r
      else None
  end.

(** [int(s)]: [None] stands for [ValueError]. Surrounding whitespace and
    one sign are accepted. *)
Definition int (s : string) : option Z :=
  match strip_chars (list_ascii_of_string s) with
  | "+"%char :: r => int_digits 0 false r
  | "-"%char :: r => option_map Z.opp (int_digits 0 false r)
  | cs => int_digits 0 false cs
  end.

(** The decimal digits of a natural number, most significant first.
    The fuel is the number of binary digits, which bounds the number of
    decimal ones. *)
Fixpoint digits_fuel (fuel : nat) (n : Z) : list ascii :=
  match fuel with
  | O => [digit_char n]
  | S f =>
      if (n <? 10)%Z then [digit_char n]
      else digits_fuel f (n / 10)%Z ++ [digit_char (n mod 10)%Z]
  end.

Definition digits (n : Z) : list ascii := digits_fuel (Z.to_nat (Z.log2 n)) n.

(** [format(n, '0{w}d')]: the sign, then zeros up to width [w], then the
    digits. *)
Definition format_0d (w : nat) (n : Z) : string :=
  let ds := digits (Z.abs n) in
  if (n <? 0)%Z then
    String "-" (string_of_list_ascii
                  (repeat "0"%char (w - 1 - List.length ds) ++ ds))
  else string_of_list_ascii (repeat "0"%char (w - List.length ds) ++ ds).

End PyStr.


(** ** Python's [sorted] *)

Module PySort.
Section Sorting.
Context {X : Type} (lt : X -> X -> bool).

(** One step of insertion: [x], which came after every element of [l]
    in the input, goes behind the elements that are not greater. Only
    [<] is used, as in [list.sort]. *)
Fixpoint insort (x : X) (l : list X) : list X :=
  match l with
  | [] => [x]
  | y :: r => if lt x y then x :: y :: r else y :: insort x r
  end.

Definition sort (l : list X) : list X :=
  fold_left (fun acc x => insort x acc) l [].

(** [sorted(l, reverse=reverse)]: with [reverse] the list is reversed,
    sorted and reversed again, which keeps equal elements in their
    original order. The model is [list.sort] on keys that [<] orders
    as a strict weak order (every stable sort agrees on those). *)
Definition sorted (reverse : bool) (l : list X) : list X :=
  if reverse then rev (sort (rev l)) else sort l.
End Sorting.
End PySort.

(** ** Numbers *)

(** What the service layer asks of an amount: a zero to start sums
    from, [+], [<] (sorting) and [<=] (the bounds of the filters). *)
Class PyNum (A : Type) := {
  num_zero : A;
  num_add : A -> A -> A;
  num_ltb : A -> A -> bool;
  num_leb : A -> A -> bool
}.

(** Binary64 floats, the type [format_amount] produces. *)
#[export] Instance float_num : PyNum float := {|
  num_zero := 0%float;
  num_add := PrimFloat.add;
  num_ltb := PrimFloat.ltb;
  num_leb := PrimFloat.leb
|}.

(** Python integers, which is what [json.load] yields for an amount
    written without a fraction. *)
#[export] Instance int_num : PyNum Z := {|
  num_zero := 0%Z;
  num_add := Z.add;
  num_ltb := Z.ltb;
  num_leb := Z.leb
|}.

(** The library functions the validation layer calls: [float(s)] on a
    string ([None] is its [ValueError]), [round(x, 2)], and whether
    [datetime.strptime(s, "%Y-%m-%d")] succeeds. *)
Class Builtins (A : Type) := {
  float_of_str : string -> option A;
  round2 : A -> A;
  strptime_ymd : string -> bool
}.

(** ** models.py *)

Module Expense.
Record t {A : Type} := make {
  id : string;
  date : string;
  category : string;
  amount : A;
  currency : string;
  note : string;
  created_at : string
}.
Arguments t A : clear implicits.
Arguments make {A} id date category amount currency note created_at.
End Expense.
Abbreviation Expense := Expense.t.

(** The [updates] dict of [ExpenseStorage.update], on the seven keys
    [Expense.from_dict] accepts: a field is [Some v] when the key is
    present. (Any other key makes [from_dict] raise [TypeError].) *)
Record Updates {A : Type} := {
  u_id : option string;
  u_date : option string;
  u_category : option string;
  u_amount : option A;
  u_currency : option string;
  u_note : option string;
  u_created_at : option string
}.
Arguments Updates A : clear implicits.

Definition or_else {X : Type} (o : option X) (d : X) : X :=
  match o with Some x => x | None => d end.

(** [d = exp.to_dict(); d.update(updates); Expense.from_dict(d)] *)
Definition apply_updates {A} (exp : Expense A) (updates : Updates A) : Expense A :=
  {| Expense.id := or_else (u_id updates) (Expense.id exp);
     Expense.date := or_else (u_date updates) (Expense.date exp);
     Expense.category := or_else (u_category updates) (Expense.category exp);
     Expense.amount := or_else (u_amount updates) (Expense.amount exp);
     Expense.currency := or_else (u_currency updates) (Expense.currency exp);
     Expense.note := or_else (u_note updates) (Expense.note exp);
     Expense.created_at := or_else (u_created_at updates) (Expense.created_at exp) |}.

(** ** Exceptions, the file and the monad of operations *)

Inductive exn := ValueError (msg : string).

Inductive result (X : Type) :=
| Ok (x : X)
| Raise (e : exn).
Arguments Ok {X} x.
Arguments Raise {X} e.

(** What [open] and [json.load] find at [filepath]. *)
Inductive file_state {A : Type} :=
| Missing                              (* FileNotFoundError *)
| Corrupt (text : string)              (* not JSON: json.JSONDecodeError *)
| Unreadable (why : string)            (* any other exception, with its text *)
| Document (expenses : list (Expense A)). (* {"version": 1, "expenses": [...]} *)
Arguments file_state A : clear implicits.

(** The file and the reading of [datetime.now()], as
    ["%Y-%m-%d %H:%M:%S"]. *)
Record World {A : Type} := {
  file : file_state A;
  clock : string
}.
Arguments World A : clear implicits.

Definition IO (A X : Type) : Type := World A -> result X * World A.

Definition ret {A X} (x : X) : IO A X := fun w => (Ok x, w).

Definition raise {A X} (e : exn) : IO A X := fun w => (Raise e, w).

Definition bind {A X Y} (m : IO A X) (k : X -> IO A Y) : IO A Y :=
  fun w =>
    match m w with
    | (Ok x, w') => k x w'
    | (Raise e, w') => (Raise e, w')
    end.

Definition lift {A X} (r : result X) : IO A X := fun w => (r, w).

Definition read_file {A} : IO A (file_state A) := fun w => (Ok (file w), w).

Definition write_file {A} (f : file_state A) : IO A unit :=
  fun w => (Ok tt, {| file := f; clock := clock w |}).

Definition now {A} : IO A string := fun w => (Ok (clock w), w).

Declare Scope io_scope.
Delimit Scope io_scope with io.
Notation "x <- m ;; k" := (bind m (fun x => k))
  (at level 61, m at next level, right associativity) : io_scope.
Notation "m ;;; k" := (bind m (fun _ => k))
  (at level 61, right associativity) : io_scope.
Local Open Scope io_scope.

(** ** validation.py *)

Section Validation.
Context {A : Type} `{PyNum A} `{Builtins A}.

Definition validate_date (date_str : string) : bool := strptime_ymd date_str.

(** [amount <= 0] fails. *)
Definition validate_amount (amount : A) : bool := negb (num_leb amount num_zero).

Definition validate_category (category : string) : bool :=
  negb (String.eqb category "" || String.eqb (PyStr.strip category) "").

(** [datetime.now().strftime("%Y-%m-%d")] *)
Definition today : IO A string :=
  t <- now ;; ret (substring 0 10 t).

(** [None] and the empty string are both falsy. *)
Definition format_date (date_str : option string) : IO A string :=
  match date_str with
  | None => today
  | Some d =>
      if String.eqb d "" || String.eqb (PyStr.lower d) "today" then today
      else if negb (validate_date d)
      then raise (ValueError "Error: date must be in YYYY-MM-DD format")
      else ret d
  end.

(** What [format_amount] is called with: a number (the command line
    parses [--amount] with [type=float]) or a string. *)
Inductive amount_arg :=
| Num (a : A)
| Str (s : string).

(** [float(amount)] *)
Definition py_float (amount : amount_arg) : result A :=
  match amount with
  | Num a => Ok a
  | Str s =>
      match float_of_str s with
      | Some a => Ok a
      | None => Raise (ValueError ("could not convert string to float: " ++ s))
      end
  end.

(** The body of the [try] of [format_amount]. *)
Definition format_amount_try (amount : amount_arg) : result A :=
  match py_float amount with
  | Raise e => Raise e
  | Ok amount_float =>
      if negb (validate_amount amount_float)
      then Raise (ValueError "Error: amount must be > 0")
      else Ok (round2 amount_float)
  end.

Definition format_amount (amount : amount_arg) : result A :=
  match format_amount_try amount with
  | Raise (ValueError e) =>
      if PyStr.contains "could not convert" e
      then Raise (ValueError "Error: amount must be a valid number")
      else Raise (ValueError e)
  | Ok a => Ok a
  end.

Definition format_category (category : string) : result string :=
  if negb (validate_category category)
  then Raise (ValueError "Error: category cannot be empty")
  else Ok (PyStr.lower (PyStr.strip category)).
End Validation.
Arguments amount_arg A : clear implicits.

(** ** storage.py *)

Record ExpenseStorage := { filepath : string }.

Section Storage.
Context {A : Type}.
Variable self : ExpenseStorage.

Definition _ensure_file_exists : IO A unit :=
  f <- read_file ;;
  match f with
  | Missing => write_file (Document [])
  | _ => ret tt
  end.

Definition load_all : IO A (list (Expense A)) :=
  f <- read_file ;;
  match f with
  | Document expenses => ret expenses
  | Corrupt _ =>
      raise (ValueError ("Error: Data file is corrupted. Please check "
                         ++ filepath self))
  | Missing => _ensure_file_exists ;;; ret []
  | Unreadable e =>
      raise (ValueError ("Error: Could not read data file - " ++ e))
  end.

(** The write is taken to succeed. *)
Definition save_all (expenses : list (Expense A)) : IO A unit :=
  write_file (Document expenses).

Definition add (expense : Expense A) : IO A unit :=
  expenses <- load_all ;;
  save_all (expenses ++ [expense]).

Definition delete (expense_id : string) : IO A bool :=
  expenses <- load_all ;;
  let initial_count := List.length expenses in
  let expenses :=
    filter (fun exp => negb (String.eqb (Expense.id exp) expense_id)) expenses in
  if Nat.ltb (List.length expenses) initial_count
  then save_all expenses ;;; ret true
  else ret false.

(** [expenses[i] = x] *)
Fixpoint set_item (expenses : list (Expense A)) (i : nat) (x : Expense A) :=
  match expenses, i with
  | [], _ => []
  | _ :: r, O => x :: r
  | y :: r, S j => y :: set_item r j x
  end.

(** The position and record at which the loop of [update] stops:
    [rest] is what [enumerate] has left, [i] the next index. *)
Fixpoint first_match (expense_id : string) (i : nat) (rest : list (Expense A))
  : option (nat * Expense A) :=
  match rest with
  | [] => None
  | exp :: r =>
      if String.eqb (Expense.id exp) expense_id then Some (i, exp)
      else first_match expense_id (S i) r
  end.

Definition update (expense_id : string) (updates : Updates A)
  : IO A (option (Expense A)) :=
  expenses <- load_all ;;
  match first_match expense_id 0 expenses with
  | Some (i, exp) =>
      let expenses := set_item expenses i (apply_updates exp updates) in
      save_all expenses ;;;
      ret (nth_error expenses i)
  | None => ret None
  end.
End Storage.

(** ** service.py *)

Record ExpenseService := { storage : ExpenseStorage }.

(** The result of [summary]; [totals_by_category] is a dict, whose keys
    are kept in the order they were first inserted. *)
Module Summary.
Record t {A : Type} := make {
  count : nat;
  grand_total : A;
  totals_by_category : list (string * A);
  currency : string;
  period : string
}.
Arguments t A : clear implicits.
Arguments make {A} count grand_total totals_by_category currency period.
End Summary.
Abbreviation Summary := Summary.t.

Section Dict.
Context {V : Type}.

(** [k in d] *)
Definition dict_mem (k : string) (d : list (string * V)) : bool :=
  existsb (fun kv => String.eqb (fst kv) k) d.

(** [d[k] = v] *)
Fixpoint dict_set (k : string) (v : V) (d : list (string * V)) :=
  match d with
  | [] => [(k, v)]
  | (k', v') :: r =>
      if String.eqb k' k then (k', v) :: r else (k', v') :: dict_set k v r
  end.

(** [d[k]], with [dflt] where Python raises [KeyError]. *)
Fixpoint dict_get (k : string) (dflt : V) (d : list (string * V)) : V :=
  match d with
  | [] => dflt
  | (k', v') :: r => if String.eqb k' k then v' else dict_get k dflt r
  end.
End Dict.

Section Service.
Context {A : Type} `{PyNum A}.

(** Truthiness of an optional string argument: [None] and [""] are
    both false. *)
Definition truthy (o : option string) : option string :=
  match o with
  | Some EmptyString => None
  | _ => o
  end.

Definition _apply_filters (expenses : list (Expense A))
    (month from_date to_date category : option string)
    (min_amount max_amount : option A) : list (Expense A) :=
  let filtered := expenses in
  let filtered :=
    match truthy month with
    | Some month => filter (fun exp => PyStr.startswith (Expense.date exp) month) filtered
    | None => filtered
    end in
  let filtered :=
    match truthy from_date with
    | Some from_date => filter (fun exp => String.leb from_date (Expense.date exp)) filtered
    | None => filtered
    end in
  let filtered :=
    match truthy to_date with
    | Some to_date => filter (fun exp => String.leb (Expense.date exp) to_date) filtered
    | None => filtered
    end in
  let filtered :=
    match truthy category with
    | Some category =>
        let category_lower := PyStr.lower category in
        filter (fun exp => String.eqb (PyStr.lower (Expense.category exp)) category_lower)
               filtered
    | None => filtered
    end in
  let filtered :=
    match min_amount with
    | Some min_amount => filter (fun exp => num_leb min_amount (Expense.amount exp)) filtered
    | None => filtered
    end in
  let filtered :=
    match max_amount with
    | Some max_amount => filter (fun exp => num_leb (Expense.amount exp) max_amount) filtered
    | None => filtered
    end in
  filtered.

Definition _sort_expenses (expenses : list (Expense A)) (sort_by : string)
    (descending : bool) : list (Expense A) :=
  if String.eqb sort_by "amount" then
    PySort.sorted (fun x y => num_ltb (Expense.amount x) (Expense.amount y))
                  descending expenses
  else if String.eqb sort_by "category" then
    PySort.sorted (fun x y => String.ltb (Expense.category x) (Expense.category y))
                  descending expenses
  else
    PySort.sorted (fun x y => String.ltb (Expense.date x) (Expense.date y))
                  descending expenses.

Variable self : ExpenseService.

Definition list_expenses (month from_date to_date category : option string)
    (min_amount max_amount : option A) (sort_by : string) (descending : bool)
    (limit : option Z) : IO A (list (Expense A)) :=
  expenses <- load_all (storage self) ;;
  let filtered :=
    _apply_filters expenses month from_date to_date category
                   min_amount max_amount in
  let sorted_expenses := _sort_expenses filtered sort_by descending in
  let sorted_expenses :=
    match limit with
    | Some n => if Z.ltb 0 n then firstn (Z.to_nat n) sorted_expenses
                else sorted_expenses
    | None => sorted_expenses
    end in
  ret sorted_expenses.

Definition _get_period_description (month from_date to_date : option string)
    : string :=
  match truthy month, truthy from_date, truthy to_date with
  | Some month, _, _ => "(" ++ month ++ ")"
  | None, Some from_date, Some to_date =>
      "(" ++ from_date ++ " to " ++ to_date ++ ")"
  | None, Some from_date, None => "(from " ++ from_date ++ ")"
  | None, None, Some to_date => "(to " ++ to_date ++ ")"
  | None, None, None => "(all time)"
  end.

(** [sum(xs)]: the items are added left to right, starting from zero.
    (From version 3.12 on the interpreter also compensates the rounding
    errors of a sum of floats, which this does not model.) *)
Definition sum (xs : list A) : A := fold_left num_add xs num_zero.

(** One turn of the loop that fills [category_totals]. *)
Definition add_to_category (category_totals : list (string * A))
    (exp : Expense A) : list (string * A) :=
  let category_totals :=
    if negb (dict_mem (Expense.category exp) category_totals)
    then dict_set (Expense.category exp) num_zero category_totals
    else category_totals in
  dict_set (Expense.category exp)
           (num_add (dict_get (Expense.category exp) num_zero category_totals)
                    (Expense.amount exp))
           category_totals.

Definition summary (month from_date to_date category : option string)
    : IO A (Summary A) :=
  expenses <- list_expenses month from_date to_date category
                            None None "date" false None ;;
  match expenses with
  | [] =>
      ret (Summary.make 0 num_zero [] "BDT"
             (_get_period_description month from_date to_date))
  | first :: _ =>
      let grand_total := sum (map Expense.amount expenses) in
      let currency := Expense.currency first in
      let category_totals := fold_left add_to_category expenses [] in
      ret (Summary.make (List.length expenses) grand_total category_totals
             currency (_get_period_description month from_date to_date))
  end.

(** The loop of [generate_id]: one turn for one expense. *)
Definition next_max_seq (date_prefix : string) (max_seq : Z) (exp : Expense A) : Z :=
  if PyStr.startswith (Expense.id exp) date_prefix then
    match PyStr.int (last (PyStr.split "-" (Expense.id exp)) "") with
    | Some seq => Z.max max_seq seq
    | None => max_seq
    end
  else max_seq.

Definition generate_id (date : string) : IO A string :=
  all_expenses <- load_all (storage self) ;;
  let date_prefix := ("EXP-" ++ PyStr.remove_char "-" date)%string in
  let max_seq := fold_left (next_max_seq date_prefix) all_expenses 0%Z in
  let new_seq := (max_seq + 1)%Z in
  ret (date_prefix ++ "-" ++ PyStr.format_0d 4 new_seq)%string.

Definition delete_expense (expense_id : string) : IO A bool :=
  result <- delete (storage self) expense_id ;;
  ret result.

Context `{Builtins A}.

Definition add_expense (date : option string) (category : string)
    (amount : amount_arg A) (note : string) (currency : string)
    : IO A (Expense A) :=
  formatted_date <- format_date date ;;
  formatted_amount <- lift (format_amount amount) ;;
  formatted_category <- lift (format_category category) ;;
  expense_id <- generate_id formatted_date ;;
  created_at <- now ;;
  let expense :=
    Expense.make expense_id formatted_date formatted_category
                 formatted_amount currency (PyStr.strip note) created_at in
  add (storage self) expense ;;;
  ret expense.

(** The value [updates] gets for one optional argument of
    [edit_expense]: formatted when it is given. *)
Definition edit_field {X Y : Type} (arg : option X) (fmt : X -> IO A Y)
    : IO A (option Y) :=
  match arg with
  | Some x => y <- fmt x ;; ret (Some y)
  | None => ret None
  end.

Definition edit_expense (expense_id : string) (date category : option string)
    (amount : option (amount_arg A)) (note currency : option string)
    : IO A (option (Expense A)) :=
  date' <- edit_field date (fun d => format_date (Some d)) ;;
  category' <- edit_field category (fun c => lift (format_category c)) ;;
  amount' <- edit_field amount (fun a => lift (format_amount a)) ;;
  let updates :=
    {| u_id := None;
       u_date := date';
       u_category := category';
       u_amount := amount';
       u_currency := currency;
       u_note := option_map PyStr.strip note;
       u_created_at := None |} in
  result <- update (storage self) expense_id updates ;;
  ret result.
End Service.

(** ** The builtins on binary64 floats

    [float(s)], [round(x, 2)] and [strptime] as the interpreter computes
    them, written over the exact value of a float ([Prim2SF]) with
    integer arithmetic. *)

Module CPython.

(** The float nearest to [p / q] (ties to even), signed. *)
Definition nearest (sign : bool) (p q : Z) : float :=
  if Z.eqb p 0 then (if sign then (-0)%float else 0%float)
  else
    let '(mz, ez, lz) := SFdiv_core_binary prec emax p 0 q 0 in
    SF2Prim (binary_round_aux prec emax sign mz ez lz).

(** [num / den] rounded to an integer, ties to even. *)
Definition half_even (num den : Z) : Z :=
  let q := (num / den)%Z in
  let r := (num mod den)%Z in
  if Z.ltb den (2 * r) || (Z.eqb den (2 * r) && Z.odd q) then (q + 1)%Z else q.

(** [round(x, 2)]: the decimal with two fractional digits nearest to the
    exact value of [x] (ties to even), read back as a float. *)
Definition round2 (x : float) : float :=
  match Prim2SF x with
  | S754_finite s m e =>
      let n := if Z.leb 0 e then (Z.pos m * 2 ^ e * 100)%Z
               else half_even (Z.pos m * 100) (2 ^ (- e)) in
      nearest s n 100
  | _ => x
  end.

(** A run of digits; one underscore may stand between two digits. *)
Fixpoint take_digits (seen : bool) (cs : list ascii) : list ascii * list ascii :=
  match cs with
  | c :: r =>
      if PyStr.is_digit c then
        let '(ds, rest) := take_digits true r in (c :: ds, rest)
      else if Ascii.eqb c "_" && seen
              && match r with d :: _ => PyStr.is_digit d | [] => false end
      then take_digits false r
      else ([], cs)
  | [] => ([], [])
  end.

Definition digits_value (ds : list ascii) : Z :=
  fold_left (fun acc c => (10 * acc + PyStr.digit_value c)%Z) ds 0%Z.

Definition take_sign (cs : list ascii) : bool * list ascii :=
  match cs with
  | "+"%char :: r => (false, r)
  | "-"%char :: r => (true, r)
  | _ => (false, cs)
  end.

(** The exponent part: empty, or [e] with an optional sign and digits. *)
Definition exponent (cs : list ascii) : option Z :=
  match cs with
  | [] => Some 0%Z
  | c :: r =>
      if Ascii.eqb (PyStr.lower_char c) "e" then
        let '(neg, r) := take_sign r in
        match take_digits false r with
        | (d :: ds, []) =>
            let v := digits_value (d :: ds) in Some (if neg then (- v)%Z else v)
        | _ => None
        end
      else None
  end.

(** [float(s)] on a string: whitespace, a sign, then [inf], [infinity],
    [nan] or a decimal literal. *)
Definition float_of_str (s : string) : option float :=
  let '(neg, cs) := take_sign (PyStr.strip_chars (list_ascii_of_string s)) in
  let word := string_of_list_ascii (map PyStr.lower_char cs) in
  if String.eqb word "inf" || String.eqb word "infinity"
  then Some (if neg then neg_infinity else infinity)
  else if String.eqb word "nan" then Some nan
  else
    let '(ip, r1) := take_digits false cs in
    let '(fp, r2) :=
      match r1 with
      | "."%char :: r => take_digits false r
      | _ => ([], r1)
      end in
    match ip ++ fp, exponent r2 with
    | _ :: _, Some e =>
        let m := digits_value (ip ++ fp) in
        let e := (e - Z.of_nat (List.length fp))%Z in
        Some (if Z.leb 0 e then nearest neg (m * 10 ^ e) 1
              else nearest neg m (10 ^ (- e)))
    | _, _ => None
    end.

(** Four digits. *)
Definition year_of (s : string) : option Z :=
  let cs := list_ascii_of_string s in
  if Nat.eqb (List.length cs) 4 && forallb PyStr.is_digit cs
  then Some (digits_value cs) else None.

(** [1[0-2]|0[1-9]|[1-9]] *)
Definition month_of (s : string) : option Z :=
  let cs := list_ascii_of_string s in
  let v := digits_value cs in
  if forallb PyStr.is_digit cs
     && (Nat.eqb (List.length cs) 1 || Nat.eqb (List.length cs) 2)
     && Z.leb 1 v && Z.leb v 12
  then Some v else None.

(** [3[0-1]|[1-2]\d|0[1-9]|[1-9]| [1-9]] *)
Definition day_of (s : string) : option Z :=
  let cs := match list_ascii_of_string s with
            | " "%char :: c :: [] => [c]
            | cs => cs
            end in
  let v := digits_value cs in
  if forallb PyStr.is_digit cs
     && (Nat.eqb (List.length cs) 1 || Nat.eqb (List.length cs) 2)
     && Z.leb 1 v && Z.leb v 31
  then Some v else None.

Definition is_leap (y : Z) : bool :=
  (Z.eqb (y mod 4) 0 && negb (Z.eqb (y mod 100) 0)) || Z.eqb (y mod 400) 0.

Definition days_in_month (y m : Z) : Z :=
  if Z.eqb m 2 then (if is_leap y then 29 else 28)%Z
  else if Z.eqb m 4 || Z.eqb m 6 || Z.eqb m 9 || Z.eqb m 11 then 30%Z
  else 31%Z.

(** Whether [datetime.strptime(s, "%Y-%m-%d")] returns. *)
Definition strptime_ymd (s : string) : bool :=
  match PyStr.split "-" s with
  | [y; m; d] =>
      match year_of y, month_of m, day_of d with
      | Some y, Some m, Some d => Z.leb 1 y && Z.leb d (days_in_month y m)
      | _, _, _ => false
      end
  | _ => false
  end.

End CPython.

#[export] Instance float_builtins : Builtins float := {|
  float_of_str := CPython.float_of_str;
  round2 := CPython.round2;
  strptime_ymd := CPython.strptime_ymd
|}.

(** ** Notions the statements below are written with *)

Section Notions.
Context {A : Type} `{PyNum A} `{Builtins A}.

(** [id.split('-')[-1]] read as an integer: the sequence number of an id. *)
Definition id_suffix (s : string) : option Z :=
  PyStr.int (last (PyStr.split "-" s) "").

(** The prefix [generate_id] looks for: [EXP-] and the date without its
    dashes. *)
Definition date_prefix_of (date : string) : string :=
  "EXP-" ++ PyStr.remove_char "-" date.

(** The integer suffixes of the ids that start with [date_prefix]; an
    id whose suffix is not an integer contributes nothing. *)
Definition matching_suffixes (date_prefix : string) (expenses : list (Expense A))
    : list Z :=
  flat_map (fun exp =>
              if PyStr.startswith (Expense.id exp) date_prefix then
                match id_suffix (Expense.id exp) with
                | Some n => [n]
                | None => []
                end
              else []) expenses.

(** The maximum of a list of integers, [0] when there is none above. *)
Definition max_of (ns : list Z) : Z := fold_right Z.max 0%Z ns.




End Notions.

Section Orders.
Context {X : Type} (lt : X -> X -> bool).

(** [<] is a strict weak order on the elements of [univ]: it is
    asymmetric and its complement is transitive. *)
Definition weak_order_on (univ : list X) : Prop :=
  (forall a b, In a univ -> In b univ -> lt a b = true -> lt b a = false)
  /\ (forall a b c, In a univ -> In b univ -> In c univ ->
        lt a b = false -> lt b c = false -> lt a c = false).

(** [a] is not after [b]. *)
Definition ascending (a b : X) : Prop := lt b a = false.

(** Neither is below the other: the keys tie. *)
Definition ties (x y : X) : bool := negb (lt x y) && negb (lt y x).

(** [output] is [input] sorted, ascending or descending, the elements
    that tie staying in the order they have in [input]. *)
Definition stable_sort_of (descending : bool) (input output : list X) : Prop :=
  Permutation input output
  /\ StronglySorted (fun a b => (if descending then lt a b else lt b a) = false)
                    output
  /\ forall x, In x input -> filter (ties x) output = filter (ties x) input.
End Orders.

Section ListNotions.
Context {A : Type} `{PyNum A}.

(** A filter that was not supplied holds of every record. *)
Definition filter_holds {B : Type} (o : option B) (p : B -> bool) : bool :=
  match o with
  | Some b => p b
  | None => true
  end.

(** The conjunction of the supplied filters of [list_expenses]; a string
    filter is supplied when it is given and not empty. *)
Definition satisfies (month from_date to_date category : option string)
    (min_amount max_amount : option A) (exp : Expense A) : bool :=
  filter_holds (truthy month) (fun m => String.prefix m (Expense.date exp))
  && filter_holds (truthy from_date) (fun d => String.leb d (Expense.date exp))
  && filter_holds (truthy to_date) (fun d => String.leb (Expense.date exp) d)
  && filter_holds (truthy category)
       (fun c => String.eqb (PyStr.lower (Expense.category exp)) (PyStr.lower c))
  && filter_holds min_amount (fun m => num_leb m (Expense.amount exp))
  && filter_holds max_amount (fun m => num_leb (Expense.amount exp) m).

(** [x] before [y] under the key chosen by [sort_by]; any name other
    than [amount] and [category] chooses the date. *)
Definition sort_lt (sort_by : string) (x y : Expense A) : bool :=
  if String.eqb sort_by "amount"
  then num_ltb (Expense.amount x) (Expense.amount y)
  else if String.eqb sort_by "category"
  then String.ltb (Expense.category x) (Expense.category y)
  else String.ltb (Expense.date x) (Expense.date y).

(** The first [limit] entries when a positive limit is given. *)
Definition truncated (limit : option Z) (l : list (Expense A)) : list (Expense A) :=
  match limit with
  | Some n => if Z.ltb 0 n then firstn (Z.to_nat n) l else l
  | None => l
  end.
End ListNotions.

(** The place of a float that is not a NaN in the order of [<]: its
    class and sign, then exponent and mantissa. *)
Definition float_rank (f : spec_float) : Z * Z * Z :=
  match f with
  | S754_zero _ => (0, 0, 0)%Z
  | S754_infinity s => ((if s then -2 else 2), 0, 0)%Z
  | S754_nan => (0, 0, 0)%Z
  | S754_finite s m e =>
      if s then (-1, - e, Z.neg m)%Z else (1, e, Z.pos m)%Z
  end.

Definition rank_lt (r1 r2 : Z * Z * Z) : Prop :=
  let '(a1, b1, c1) := r1 in
  let '(a2, b2, c2) := r2 in
  (a1 < a2 \/ (a1 = a2 /\ (b1 < b2 \/ (b1 = b2 /\ c1 < c2))))%Z.

Section SummaryNotions.
Context {A : Type} `{PyNum A}.

(** The records of one category. *)
Definition in_category (k : string) (l : list (Expense A)) : list (Expense A) :=
  filter (fun exp => String.eqb (Expense.category exp) k) l.


(** What holds of [category_totals] after the records [seen]: its keys
    are distinct, they are the categories seen, and each total is the
    sum of the amounts seen in its category. *)
Definition totals_of (seen : list (Expense A)) (d : list (string * A)) : Prop :=
  NoDup (map fst d)
  /\ (forall k, In k (map fst d) <-> In k (map Expense.category seen))
  /\ (forall k v, In (k, v) d ->
        v = sum (map Expense.amount (in_category k seen))).

(** The records [summary] works on: the selection of [list_expenses]
    for the same four filters, in its default order (by date, ascending)
    and without limit. *)
Definition summarized (l : list (Expense A))
    (month from_date to_date category : option string) : list (Expense A) :=
  PySort.sorted (sort_lt "date") false
    (filter (satisfies month from_date to_date category None None) l).

End SummaryNotions.

Section StorageNotions.
Context {A : Type} `{PyNum A} `{Builtins A}.

(** A record carries the id [expense_id]. *)
Definition has_id (expense_id : string) (exp : Expense A) : bool :=
  String.eqb (Expense.id exp) expense_id.

(** What [update] does to a collection: either the first record with
    the id is replaced by its update, which is returned, the records
    before and after it staying as they are, or no record has the id and
    nothing is returned nor written. *)
Definition updates_first_match (expense_id : string) (updates : Updates A)
    (l : list (Expense A)) (c : string)
    (outcome : result (option (Expense A)) * World A) : Prop :=
  (exists before exp after,
      l = before ++ exp :: after
      /\ forallb (fun x => negb (has_id expense_id x)) before = true
      /\ has_id expense_id exp = true
      /\ outcome
         = (Ok (Some (apply_updates exp updates)),
            {| file := Document (before ++ apply_updates exp updates :: after);
               clock := c |}))
  \/ (forallb (fun x => negb (has_id expense_id x)) l = true
      /\ outcome = (Ok None, {| file := Document l; clock := c |})).


(** [float(amount)] raises: the argument is a string that is not the
    text of a number. *)
Definition non_numeric (amount : amount_arg A) : Prop :=
  match amount with
  | Num _ => False
  | Str s => float_of_str s = None
  end.
End StorageNotions.

(** A string without the character [sep]. *)
Fixpoint free_of (sep : ascii) (s : string) : bool :=
  match s with
  | EmptyString => true
  | String x r => negb (Ascii.eqb x sep) && free_of sep r
  end.

(** The value of a run of decimal digits read after [acc]. *)
Definition dval (acc : Z) (ds : list ascii) : Z :=
  fold_left (fun a c => (10 * a + PyStr.digit_value c)%Z) ds acc.

(** ** Further notions *)

Section MoreNotions.
Context {A : Type}.

(** The ids of the stored records are pairwise distinct; a file that
    holds no collection has nothing to say. *)
Definition unique_ids (f : file_state A) : Prop :=
  match f with
  | Document l => NoDup (map Expense.id l)
  | _ => True
  end.

(** The exception [load_all] raises on a file that cannot be read. *)
Definition load_error (self : ExpenseStorage) (f : file_state A) : option exn :=
  match f with
  | Corrupt _ =>
      Some (ValueError ("Error: Data file is corrupted. Please check "
                        ++ filepath self))
  | Unreadable why =>
      Some (ValueError ("Error: Could not read data file - " ++ why))
  | Missing => None
  | Document _ => None
  end.

(** The messages of the validation layer. *)
Definition validation_messages : list string :=
  [ "Error: date must be in YYYY-MM-DD format";
    "Error: amount must be > 0";
    "Error: amount must be a valid number";
    "Error: category cannot be empty" ].

(** The elements of a list, each once, in the order of first
    appearance. *)
Definition first_seen (ks : list string) : list string :=
  rev (nodup string_dec (rev ks)).

(** The world once the storage has been constructed: a missing file has
    been created, empty. *)
Definition ensured (w : World A) : World A :=
  match file w with
  | Missing => {| file := Document []; clock := clock w |}
  | _ => w
  end.
End MoreNotions.


(** ** models.py: the dict of a record and its display *)

Section Models.
Context {A : Type}.

(** [asdict(self)]: a dict with the seven keys. A dict on these keys is
    written as an [Updates]. *)
Definition to_dict (self : Expense A) : Updates A :=
  {| u_id := Some (Expense.id self);
     u_date := Some (Expense.date self);
     u_category := Some (Expense.category self);
     u_amount := Some (Expense.amount self);
     u_currency := Some (Expense.currency self);
     u_note := Some (Expense.note self);
     u_created_at := Some (Expense.created_at self) |}.

(** One key of [d.update(updates)]. *)
Definition updated {X : Type} (old new : option X) : option X :=
  match new with
  | Some v => Some v
  | None => old
  end.

(** [d.update(updates)] *)
Definition dict_update (d updates : Updates A) : Updates A :=
  {| u_id := updated (u_id d) (u_id updates);
     u_date := updated (u_date d) (u_date updates);
     u_category := updated (u_category d) (u_category updates);
     u_amount := updated (u_amount d) (u_amount updates);
     u_currency := updated (u_currency d) (u_currency updates);
     u_note := updated (u_note d) (u_note updates);
     u_created_at := updated (u_created_at d) (u_created_at updates) |}.

(** [cls] called with the entries of [data]: the four fields without a default must be there
    ([None] is the [TypeError] raised otherwise); the other three
    default to ["BDT"], [""] and [""]. *)
Definition from_dict (data : Updates A) : option (Expense A) :=
  match u_id data, u_date data, u_category data, u_amount data with
  | Some id, Some date, Some category, Some amount =>
      Some (Expense.make id date category amount
              (or_else (u_currency data) "BDT")
              (or_else (u_note data) "")
              (or_else (u_created_at data) ""))
  | _, _, _, _ => None
  end.
End Models.

(** ** Formatting builtins *)

Module PyFormat.

Definition newline : string := String "010"%char EmptyString.

Definition quote : ascii := "034"%char.

(** [s.ljust(w)] *)
Definition ljust (s : string) (w : nat) : string :=
  (s ++ string_of_list_ascii (repeat " "%char (w - String.length s)))%string.

(** [s.rjust(w)], the alignment [>w] of a format. *)
Definition rjust (s : string) (w : nat) : string :=
  (string_of_list_ascii (repeat " "%char (w - String.length s)) ++ s)%string.

(** [c * n] for a one-character [c]. *)
Definition times (c : ascii) (n : nat) : string :=
  string_of_list_ascii (repeat c n).

(** [sep.join(l)] *)
Definition join (sep : string) (l : list string) : string := String.concat sep l.

(** [str(n)] for an integer. *)
Definition str_int (n : Z) : string :=
  ((if Z.ltb n 0 then "-" else "")
   ++ string_of_list_ascii (PyStr.digits (Z.abs n)))%string.

(** [s.replace(c, c + c)] for a one-character [c]. *)
Fixpoint double_char (c : ascii) (s : string) : string :=
  match s with
  | EmptyString => EmptyString
  | String x r =>
      if Ascii.eqb x c then String x (String x (double_char c r))
      else String x (double_char c r)
  end.

(** [max(len(f(x)) for x in l)] on a list that is not empty. *)
Definition max_len {X : Type} (f : X -> string) (l : list X) : nat :=
  fold_right Nat.max 0 (map (fun x => String.length (f x)) l).

(** [format(x, ".2f")] on a binary64 float: the decimal with two
    fractional digits nearest to the exact value (ties to even). *)
Definition format_2f (x : float) : string :=
  match Prim2SF x with
  | S754_nan => "nan"
  | S754_infinity s => if s then "-inf" else "inf"
  | S754_zero s => if s then "-0.00" else "0.00"
  | S754_finite s m e =>
      let n := if Z.leb 0 e then (Z.pos m * 2 ^ e * 100)%Z
               else CPython.half_even (Z.pos m * 100) (2 ^ (- e)) in
      ((if s then "-" else "")
       ++ string_of_list_ascii (PyStr.digits (n / 100))
       ++ "." ++ PyStr.format_0d 2 (n mod 100))%string
  end.

End PyFormat.

(** What the command line asks of an amount: its display with two
    decimals and its truth value. *)
Class Printing (A : Type) := {
  format_2f : A -> string;
  nonzero : A -> bool
}.

#[export] Instance float_printing : Printing float := {|
  format_2f := PyFormat.format_2f;
  nonzero := fun x => negb (PrimFloat.eqb x 0%float)
|}.

(** [Expense.__str__] *)
Definition __str__ {A} `{Printing A} (self : Expense A) : string :=
  (Expense.id self ++ " | " ++ Expense.date self ++ " | "
   ++ Expense.category self ++ " | " ++ format_2f (Expense.amount self) ++ " "
   ++ Expense.currency self ++ " | " ++ Expense.note self)%string.

(** ** The constructors of the storage and of the service *)

Section Constructors.
Context {A : Type}.

(** [ExpenseStorage.__init__] *)
Definition ExpenseStorage_init (filepath : string) : IO A ExpenseStorage :=
  let self := {| filepath := filepath |} in
  _ensure_file_exists ;;; ret self.

(** [ExpenseService.__init__]: [storage or ExpenseStorage()]. *)
Definition ExpenseService_init (storage : option ExpenseStorage)
    : IO A ExpenseService :=
  match storage with
  | Some storage => ret {| storage := storage |}
  | None =>
      storage <- ExpenseStorage_init "data/expenses.json" ;;
      ret {| storage := storage |}
  end.
End Constructors.

(** ** cli.py *)

(** What a command sends to the terminal: a [print] to the standard
    output or to the standard error, or the help of the parser. (The
    records of the logger are not part of the model.) *)
Inductive event :=
| Stdout (text : string)
| Stderr (text : string)
| Help.

(** How a command ends: it returns, it calls [sys.exit], or an exception
    leaves it. *)
Inductive outcome :=
| Returned
| Exit (status : Z)
| Uncaught (e : exn).

Definition Handler (A : Type) : Type :=
  World A -> (list event * outcome) * World A.

(** The namespace [parse_args] returns: no command, or one of the five
    commands with the attributes of its parser. *)
Inductive Args {A : Type} :=
| no_command
| add_args (date : option string) (category : string) (amount : A)
           (note : option string) (currency : string)
| list_args (month from_date to_date category : option string)
            (min max : option A) (sort : string) (desc : bool)
            (limit : option Z) (format : string)
| summary_args (month from_date to_date category : option string)
| delete_args (id : string)
| edit_args (id : string) (date category : option string) (amount : option A)
            (note currency : option string).
Arguments Args A : clear implicits.

(** The truth value of an optional string and of an optional amount. *)
Definition is_true_str (o : option string) : bool :=
  match o with
  | Some s => negb (String.eqb s "")
  | None => false
  end.

Definition is_true_num {A} `{Printing A} (o : option A) : bool :=
  match o with
  | Some a => nonzero a
  | None => false
  end.

Module ExpenseCLI.

Record t := make { service : ExpenseService }.

Section Handlers.
Context {A : Type} `{PyNum A} `{Builtins A} `{Printing A}.
Variable self : t.

Definition format_expense_table (expenses : list (Expense A)) : string :=
  match expenses with
  | [] => "No expenses found."
  | _ :: _ =>
      let headers := ["ID"; "Date"; "Category"; "Amount"; "Note"] in
      let col_widths :=
        [ Nat.max (String.length (nth 0 headers ""))
                  (PyFormat.max_len Expense.id expenses);
          Nat.max (String.length (nth 1 headers "")) 10;
          Nat.max (String.length (nth 2 headers ""))
                  (PyFormat.max_len Expense.category expenses);
          Nat.max (String.length (nth 3 headers "")) 10;
          Nat.max (String.length (nth 4 headers ""))
                  (if existsb (fun exp => negb (String.eqb (Expense.note exp) ""))
                              expenses
                   then PyFormat.max_len Expense.note expenses
                   else 4) ] in
      let header_row :=
        PyFormat.join "  "
          (map (fun i => PyFormat.ljust (nth i headers "") (nth i col_widths 0))
               (seq 0 (List.length headers))) in
      let lines :=
        [header_row; PyFormat.times "-" (String.length header_row)] in
      let lines :=
        lines
        ++ map (fun exp =>
                  let amount_str :=
                    (format_2f (Expense.amount exp) ++ " "
                     ++ Expense.currency exp)%string in
                  PyFormat.join "  "
                    [ PyFormat.ljust (Expense.id exp) (nth 0 col_widths 0);
                      PyFormat.ljust (Expense.date exp) (nth 1 col_widths 0);
                      PyFormat.ljust (Expense.category exp) (nth 2 col_widths 0);
                      PyFormat.ljust amount_str (nth 3 col_widths 0);
                      PyFormat.ljust (Expense.note exp) (nth 4 col_widths 0) ])
               expenses in
      PyFormat.join PyFormat.newline lines
  end.

Definition add (date : option string) (category : string) (amount : A)
    (note : option string) (currency : string) : Handler A :=
  fun w =>
    match add_expense (service self) date category (Num amount)
                      (or_else note "") currency w with
    | (Ok expense, w') =>
        (([Stdout ("Added: " ++ __str__ expense)], Returned), w')
    | (Raise (ValueError e), w') => (([Stderr e], Exit 1), w')
    end.

(** The lines [_print_csv] prints. *)
Definition _print_csv (expenses : list (Expense A)) : list event :=
  match expenses with
  | [] => [Stdout "No expenses found."]
  | _ :: _ =>
      Stdout "ID,Date,Category,Amount,Currency,Note"
      :: map (fun exp =>
                let note_escaped :=
                  PyFormat.double_char PyFormat.quote (Expense.note exp) in
                Stdout (Expense.id exp ++ "," ++ Expense.date exp ++ ","
                        ++ Expense.category exp ++ ","
                        ++ format_2f (Expense.amount exp) ++ ","
                        ++ Expense.currency exp ++ ","
                        ++ String PyFormat.quote
                             (note_escaped ++ String PyFormat.quote "")))
             expenses
  end.

Definition summary (month from_date to_date category : option string)
    : Handler A :=
  fun w =>
    match summary (service self) month from_date to_date category w with
    | (Ok summary_data, w') =>
        let currency := Summary.currency summary_data in
        let head :=
          [ Stdout (PyFormat.newline ++ "Summary " ++ Summary.period summary_data);
            Stdout ("Total expenses: "
                    ++ PyFormat.str_int (Z.of_nat (Summary.count summary_data)));
            Stdout ("Grand total: "
                    ++ format_2f (Summary.grand_total summary_data)
                    ++ " " ++ currency) ] in
        let by_category :=
          match Summary.totals_by_category summary_data with
          | [] => []
          | _ :: _ =>
              let sorted_categories :=
                PySort.sorted (fun x y => num_ltb (snd x) (snd y)) true
                              (Summary.totals_by_category summary_data) in
              let max_category_len := PyFormat.max_len fst sorted_categories in
              Stdout (PyFormat.newline ++ "By category:")
              :: map (fun item =>
                        let '(category, total) := item in
                        Stdout ("  " ++ PyFormat.ljust category max_category_len
                                ++ "  " ++ PyFormat.rjust (format_2f total) 10
                                ++ " " ++ currency))
                     sorted_categories
          end in
        ((head ++ by_category, Returned), w')
    | (Raise (ValueError e), w') => (([Stderr e], Exit 1), w')
    end.

Definition delete (id : string) : Handler A :=
  fun w =>
    match delete_expense (service self) id w with
    | (Ok true, w') => (([Stdout ("Deleted: " ++ id)], Returned), w')
    | (Ok false, w') =>
        (([Stderr ("Error: Expense not found: " ++ id)], Exit 1), w')
    | (Raise (ValueError e), w') => (([Stderr ("Error: " ++ e)], Exit 1), w')
    end.

Definition edit (id : string) (date category : option string)
    (amount : option A) (note currency : option string) : Handler A :=
  fun w =>
    if negb (is_true_str date || is_true_str category || is_true_num amount
             || is_true_str note || is_true_str currency)
    then (([Stderr "Error: At least one field must be provided to edit"],
           Exit 1), w)
    else
      match edit_expense (service self) id date category
                         (option_map Num amount) note currency w with
      | (Ok (Some result), w') =>
          (([Stdout ("Updated: " ++ __str__ result)], Returned), w')
      | (Ok None, w') =>
          (([Stderr ("Error: Expense not found: " ++ id)], Exit 1), w')
      | (Raise (ValueError e), w') => (([Stderr e], Exit 1), w')
      end.

Definition list (month from_date to_date category : option string)
    (min max : option A) (sort : string) (desc : bool) (limit : option Z)
    (format : string) : Handler A :=
  fun w =>
    match list_expenses (service self) month from_date to_date category
                        min max sort desc limit w with
    | (Ok expenses, w') =>
        if String.eqb format "table"
        then (([Stdout (format_expense_table expenses)], Returned), w')
        else if String.eqb format "csv"
        then ((_print_csv expenses, Returned), w')
        else (([], Returned), w')
    | (Raise (ValueError e), w') => (([Stderr e], Exit 1), w')
    end.
End Handlers.
End ExpenseCLI.

Section Main.
Context {A : Type} `{PyNum A} `{Builtins A} `{Printing A}.

Definition main (args : Args A) : Handler A :=
  fun w =>
    match args with
    | no_command => (([Help], Exit 1), w)
    | _ =>
        match ExpenseService_init None w with
        | (Raise e, w') => (([], Uncaught e), w')
        | (Ok service, w') =>
            let cli := ExpenseCLI.make service in
            match args with
            | add_args date category amount note currency =>
                ExpenseCLI.add cli date category amount note currency w'
            | list_args month from_date to_date category min max sort desc
                        limit format =>
                ExpenseCLI.list cli month from_date to_date category min max
                                sort desc limit format w'
            | summary_args month from_date to_date category =>
                ExpenseCLI.summary cli month from_date to_date category w'
            | delete_args id => ExpenseCLI.delete cli id w'
            | edit_args id date category amount note currency =>
                ExpenseCLI.edit cli id date category amount note currency w'
            | no_command => (([Help], Exit 1), w')
            end
        end
    end.
End Main.

(** ** Notions about the command line *)

Definition is_stdout (ev : event) : bool :=
  match ev with
  | Stdout _ => true
  | _ => false
  end.

(** The service [main] constructs. *)
Definition default_service : ExpenseService :=
  {| storage := {| filepath := "data/expenses.json" |} |}.


Section OutputNotions.
Context {A : Type} `{PyNum A} `{Printing A}.

(** The totals by category that [summary] computes for a collection. *)
Definition category_totals (l : list (Expense A))
    (month from_date to_date category : option string) : list (string * A) :=
  fold_left add_to_category (summarized l month from_date to_date category) [].

(** A row of the table fits its columns: the date in ten characters,
    the amount with its currency in ten. *)
Definition fits_columns (exp : Expense A) : Prop :=
  String.length (Expense.date exp) <= 10
  /\ String.length (format_2f (Expense.amount exp) ++ " " ++ Expense.currency exp)
     <= 10.

(** At least one field of [edit] has a true value. *)
Definition some_field_given (date category : option string) (amount : option A)
    (note currency : option string) : bool :=
  is_true_str date || is_true_str category || is_true_num amount
  || is_true_str note || is_true_str currency.
End OutputNotions.

(** ** Data for the examples *)

Definition example_service : ExpenseService :=
  {| storage := {| filepath := "data/expenses.json" |} |}.

Definition example_clock : string := "2024-03-09 10:11:12".

(** A collection not stored in the order of its dates. *)
Definition out_of_order : list (Expense float) :=
  [ Expense.make "EXP-20240201-0001" "2024-02-01" "rent" 500%float "USD" ""
                 "2024-02-01 09:00:00";
    Expense.make "EXP-20240105-0001" "2024-01-05" "food" 12%float "EUR" ""
                 "2024-02-02 09:00:00" ].

(** Three expenses of one day: 10 and 20 for food, 30 for transport. *)
Definition january : list (Expense float) :=
  [ Expense.make "EXP-20240115-0001" "2024-01-15" "food" 10%float "BDT" "lunch"
                 "2024-01-15 13:00:00";
    Expense.make "EXP-20240115-0002" "2024-01-15" "food" 20%float "BDT" ""
                 "2024-01-15 20:00:00";
    Expense.make "EXP-20240115-0003" "2024-01-15" "transport" 30%float "BDT" ""
                 "2024-01-15 21:00:00" ].



(** Two months of expenses, with a category written in capitals, two
    equal amounts, a repeated id and an id that does not end in a
    number. *)
Definition ledger : list (Expense float) :=
  [ Expense.make "EXP-20240120-0001" "2024-01-20" "food" 15%float "BDT" "dinner"
                 "2024-01-20 21:00:00";
    Expense.make "EXP-20240105-0007" "2024-01-05" "Food" 40%float "BDT" ""
                 "2024-01-05 12:00:00";
    Expense.make "EXP-20240105-draft" "2024-01-05" "rent" 900%float "BDT" ""
                 "2024-01-05 12:30:00";
    Expense.make "EXP-20240211-0001" "2024-02-11" "food" 15%float "BDT" ""
                 "2024-02-11 08:00:00";
    Expense.make "EXP-20240105-0007" "2024-01-05" "food" 15%float "BDT" "copy"
                 "2024-01-06 09:00:00" ].

Definition world_of {A : Type} (l : list (Expense A)) : World A :=
  {| file := Document l; clock := example_clock |}.

(** A file that is not JSON. *)
Definition garbled : World float :=
  {| file := Corrupt "{not json"; clock := example_clock |}.

(** One expense of more than a thousand, with a quote in its note. *)
Definition pizza : list (Expense float) :=
  [ Expense.make "EXP-20240301-0001" "2024-03-01" "food" 1250.5%float "BDT"
                 (String "1" (String "2" (String PyFormat.quote " pizza")))
                 "2024-03-01 19:00:00" ].


(** * Properties *)

(** ** Facts about the string builtins *)

Module PyStrFacts.
Import PyStr.

Lemma append_assoc (a b c : string) : ((a ++ b) ++ c = a ++ (b ++ c))%string.
Proof. induction a as [|x a IH]; simpl; [reflexivity | now rewrite IH]. Qed.

Lemma startswith_append (p s : string) : startswith (p ++ s) p = true.
Proof.
  unfold startswith.
  induction p as [|x p IH]; simpl.
  - now destruct s.
  - destruct (ascii_dec x x) as [_|ne]; [exact IH | now elim ne].
Qed.

Lemma split_nonempty (sep : ascii) (s : string) : split sep s <> [].
Proof.
  destruct s as [|x r]; simpl; [discriminate|].
  destruct (Ascii.eqb x sep); [discriminate|].
  destruct (split sep r); discriminate.
Qed.

(** A string without the separator is its own single piece. *)
Lemma split_free (sep : ascii) (s : string) :
  free_of sep s = true -> split sep s = [s].
Proof.
  induction s as [|x r IH]; simpl; [reflexivity|].
  destruct (Ascii.eqb x sep); simpl; [discriminate|].
  intros Hr. now rewrite (IH Hr).
Qed.

Lemma split_append (sep : ascii) (p t : string) :
  split sep (p ++ String sep t) = split sep p ++ split sep t.
Proof.
  induction p as [|x p IH]; simpl.
  - now rewrite Ascii.eqb_refl.
  - destruct (Ascii.eqb x sep).
    + now rewrite IH.
    + rewrite IH.
      destruct (split sep p) as [|piece rest] eqn:E.
      * now elim (split_nonempty sep p).
      * reflexivity.
Qed.

Lemma last_app_nonempty {X} (l1 l2 : list X) (d : X) :
  l2 <> [] -> last (l1 ++ l2) d = last l2 d.
Proof.
  intros Hne. induction l1 as [|a l1 IH]; [reflexivity|].
  simpl. destruct (l1 ++ l2) eqn:E.
  - destruct l1; simpl in E; [now elim Hne | discriminate].
  - exact IH.
Qed.

(** The component after the last separator of [p ++ sep ++ t]. *)
Lemma last_split_append (sep : ascii) (p t : string) :
  free_of sep t = true ->
  last (split sep (p ++ String sep t)) ""%string = t.
Proof.
  intros Hfree.
  rewrite split_append, last_app_nonempty by apply split_nonempty.
  now rewrite split_free.
Qed.

(** *** Digits *)

Lemma dval_snoc (acc : Z) (ds : list ascii) (c : ascii) :
  dval acc (ds ++ [c]) = (10 * dval acc ds + digit_value c)%Z.
Proof. unfold dval. now rewrite fold_left_app. Qed.

Lemma digit_char_value (d : Z) :
  (0 <= d < 10)%Z -> digit_value (digit_char d) = d.
Proof.
  intros Hd. unfold digit_value, digit_char.
  rewrite nat_ascii_embedding by lia. lia.
Qed.

Lemma digit_char_is_digit (d : Z) :
  (0 <= d < 10)%Z -> is_digit (digit_char d) = true.
Proof.
  intros Hd. unfold is_digit, digit_char.
  rewrite nat_ascii_embedding by lia.
  apply andb_true_iff; split; apply Nat.leb_le; lia.
Qed.

Lemma digits_fuel_spec (f : nat) :
  forall n, (0 <= n < 2 ^ Z.of_nat (S f))%Z ->
    dval 0 (digits_fuel f n) = n /\
    Forall (fun c => is_digit c = true) (digits_fuel f n) /\
    digits_fuel f n <> [].
Proof.
  induction f as [|f IH]; intros n Hn.
  - simpl. change (2 ^ Z.of_nat 1)%Z with 2%Z in Hn.
    unfold dval; simpl. rewrite digit_char_value by lia.
    split; [lia | split; [|discriminate]].
    constructor; [apply digit_char_is_digit; lia | constructor].
  - cbn [digits_fuel]. destruct (Z.ltb_spec n 10) as [Hlt|Hge].
    + unfold dval; simpl. rewrite digit_char_value by lia.
      split; [lia | split; [|discriminate]].
      constructor; [apply digit_char_is_digit; lia | constructor].
    + assert (Hq : (0 <= n / 10 < 2 ^ Z.of_nat (S f))%Z).
      { split; [apply Z.div_pos; lia|].
        apply Z.div_lt_upper_bound; [lia|].
        replace (Z.of_nat (S (S f))) with (Z.of_nat (S f) + 1)%Z in Hn by lia.
        rewrite Z.pow_add_r in Hn by lia. lia. }
      destruct (IH _ Hq) as (Hv & Hd & _).
      pose proof (Z.mod_pos_bound n 10 ltac:(lia)) as Hm.
      split; [|split].
      * rewrite dval_snoc, Hv, digit_char_value by lia.
        pose proof (Z.div_mod n 10 ltac:(lia)). lia.
      * apply Forall_app; split; [exact Hd|].
        constructor; [apply digit_char_is_digit; lia | constructor].
      * destruct (digits_fuel f (n / 10)); discriminate.
Qed.

Lemma digits_spec (n : Z) :
  (0 <= n)%Z ->
  dval 0 (digits n) = n /\
  Forall (fun c => is_digit c = true) (digits n) /\
  digits n <> [].
Proof.
  intros Hn. unfold digits. apply digits_fuel_spec.
  destruct (Z.eq_dec n 0) as [->|Hnz].
  - simpl. lia.
  - rewrite Nat2Z.inj_succ, Z2Nat.id by apply Z.log2_nonneg.
    split; [lia|]. apply Z.log2_spec. lia.
Qed.

Lemma int_digits_all_digits (ds : list ascii) :
  Forall (fun c => is_digit c = true) ds ->
  forall acc seen, (seen = true \/ ds <> []) ->
    int_digits acc seen ds = Some (dval acc ds).
Proof.
  induction 1 as [|c ds Hc Hds IH]; intros acc seen Hne.
  - destruct Hne as [->|Hne]; [reflexivity | now elim Hne].
  - simpl. rewrite Hc. apply IH. now left.
Qed.

Lemma dval_zeros (k : nat) (ds : list ascii) :
  dval 0 (repeat "0"%char k ++ ds) = dval 0 ds.
Proof.
  induction k as [|k IH]; [reflexivity|].
  exact IH.
Qed.

Lemma is_digit_not_space (c : ascii) : is_digit c = true -> is_space c = false.
Proof.
  unfold is_digit, is_space. intros H.
  apply andb_true_iff in H as [H1 H2].
  apply Nat.leb_le in H1, H2.
  apply orb_false_iff; split; apply andb_false_iff.
  - right. apply Nat.leb_gt. lia.
  - right. apply Nat.leb_gt. lia.
Qed.

Lemma lstrip_digits (ds : list ascii) :
  Forall (fun c => is_digit c = true) ds -> lstrip_chars ds = ds.
Proof.
  destruct 1 as [|c ds Hc _]; [reflexivity|].
  simpl. now rewrite (is_digit_not_space _ Hc).
Qed.

Lemma strip_digits (ds : list ascii) :
  Forall (fun c => is_digit c = true) ds -> strip_chars ds = ds.
Proof.
  intros Hd. unfold strip_chars.
  rewrite (lstrip_digits _ Hd), lstrip_digits by now apply Forall_rev.
  apply rev_involutive.
Qed.

Lemma int_of_digits (ds : list ascii) :
  Forall (fun c => is_digit c = true) ds -> ds <> [] ->
  int (string_of_list_ascii ds) = Some (dval 0 ds).
Proof.
  intros Hd Hne. unfold int.
  rewrite list_ascii_of_string_of_list_ascii, (strip_digits _ Hd).
  destruct ds as [|c r]; [now elim Hne|].
  assert (Hc : is_digit c = true) by now inversion Hd.
  assert (Hgo : int_digits 0 false (c :: r) = Some (dval 0 (c :: r)))
    by (apply int_digits_all_digits; [exact Hd | now right]).
  destruct c as [[] [] [] [] [] [] [] []];
    first [exact Hgo | vm_compute in Hc; discriminate Hc].
Qed.

Lemma zeros_are_digits (k : nat) :
  Forall (fun c => is_digit c = true) (repeat "0"%char k).
Proof. induction k; simpl; constructor; [reflexivity | assumption]. Qed.

(** [int] reads back what [format_0d] prints. *)
Lemma int_format_0d (w : nat) (n : Z) :
  (0 <= n)%Z -> int (format_0d w n) = Some n.
Proof.
  intros Hn. unfold format_0d.
  destruct (Z.ltb_spec n 0) as [Hneg|_]; [lia|].
  rewrite Z.abs_eq by exact Hn.
  destruct (digits_spec n Hn) as (Hv & Hd & Hne).
  rewrite int_of_digits.
  - now rewrite dval_zeros, Hv.
  - apply Forall_app; split; [apply zeros_are_digits | exact Hd].
  - destruct (repeat "0"%char (w - List.length (digits n))); simpl;
      [exact Hne | discriminate].
Qed.

Lemma free_of_digits (ds : list ascii) :
  Forall (fun c => is_digit c = true) ds ->
  free_of "-" (string_of_list_ascii ds) = true.
Proof.
  induction 1 as [|c ds Hc _ IH]; [reflexivity|].
  simpl. rewrite IH, andb_true_r.
  destruct (Ascii.eqb_spec c "-") as [->|_]; [discriminate Hc | reflexivity].
Qed.

Lemma free_of_format_0d (w : nat) (n : Z) :
  (0 <= n)%Z -> free_of "-" (format_0d w n) = true.
Proof.
  intros Hn. unfold format_0d.
  destruct (Z.ltb_spec n 0) as [Hneg|_]; [lia|].
  rewrite Z.abs_eq by exact Hn.
  apply free_of_digits, Forall_app; split;
    [apply zeros_are_digits | apply (digits_spec n Hn)].
Qed.

End PyStrFacts.

(** ** The monad *)

Section StorageFacts.
Context {A : Type}.
Variable self : ExpenseStorage.

Lemma load_all_document (l : list (Expense A)) (c : string) :
  load_all self {| file := Document l; clock := c |}
  = (Ok l, {| file := Document l; clock := c |}).
Proof. reflexivity. Qed.

Lemma save_all_world (l : list (Expense A)) (w : World A) :
  save_all l w = (Ok tt, {| file := Document l; clock := clock w |}).
Proof. reflexivity. Qed.

Lemma add_document (l : list (Expense A)) (c : string) (e : Expense A) :
  add self e {| file := Document l; clock := c |}
  = (Ok tt, {| file := Document (l ++ [e]); clock := c |}).
Proof. reflexivity. Qed.
End StorageFacts.

(** ** Id generation *)

Section GenerateIdFacts.
Context {A : Type} `{PyNum A} `{Builtins A}.
Variable self : ExpenseService.

Lemma max_of_nonneg (ns : list Z) : (0 <= max_of ns)%Z.
Proof. induction ns as [|n ns IH]; simpl; lia. Qed.



(** The loop of [generate_id] computes the maximum of the suffixes. *)
Lemma fold_next_max_seq (p : string) (l : list (Expense A)) :
  forall m, (0 <= m)%Z ->
    fold_left (next_max_seq p) l m = Z.max m (max_of (matching_suffixes p l)).
Proof.
  induction l as [|e l IH]; intros m Hm; simpl.
  - lia.
  - unfold next_max_seq at 2. fold (id_suffix (Expense.id e)).
    destruct (PyStr.startswith (Expense.id e) p); simpl.
    + destruct (id_suffix (Expense.id e)) as [n|]; simpl.
      * rewrite IH by lia. lia.
      * now apply IH.
    + now apply IH.
Qed.

Lemma generate_id_document (l : list (Expense A)) (c d : string) :
  generate_id self d {| file := Document l; clock := c |}
  = (Ok (date_prefix_of d ++ "-"
         ++ PyStr.format_0d 4 (max_of (matching_suffixes (date_prefix_of d) l) + 1))%string,
     {| file := Document l; clock := c |}).
Proof.
  unfold generate_id, bind. rewrite load_all_document. unfold ret.
  rewrite fold_next_max_seq by lia.
  rewrite Z.max_r by apply max_of_nonneg.
  reflexivity.
Qed.

(** The sequence number of a generated id is read back from it. *)
Lemma id_suffix_generated (p : string) (n : Z) :
  (0 <= n)%Z ->
  id_suffix (p ++ "-" ++ PyStr.format_0d 4 n) = Some n.
Proof.
  intros Hn. unfold id_suffix.
  change ("-" ++ PyStr.format_0d 4 n)%string
    with (String "-" (PyStr.format_0d 4 n)).
  rewrite PyStrFacts.last_split_append
    by now apply PyStrFacts.free_of_format_0d.
  now apply PyStrFacts.int_format_0d.
Qed.



End GenerateIdFacts.

Section GenerateId.
Context {A : Type} `{PyNum A} `{Builtins A}.


End GenerateId.


(** ** Sorting *)

Module PySortFacts.
Import PySort.

Section Insertion.
Context {X : Type} (lt : X -> X -> bool) (univ : list X).
Hypothesis Hwo : weak_order_on lt univ.

Lemma lt_le_trans (a b c : X) :
  In a univ -> In b univ -> In c univ ->
  lt a b = true -> lt c b = false -> lt a c = true.
Proof.
  intros Ha Hb Hc Hab Hcb.
  destruct (lt a c) eqn:Hac; [reflexivity|].
  destruct Hwo as [_ Htr].
  rewrite (Htr a c b Ha Hc Hb Hac Hcb) in Hab. discriminate.
Qed.

Lemma insort_perm (x : X) (l : list X) : Permutation (l ++ [x]) (insort lt x l).
Proof.
  induction l as [|y r IH]; simpl.
  - apply Permutation_refl.
  - destruct (lt x y).
    + apply Permutation_sym, (Permutation_cons_append (y :: r) x).
    + now apply perm_skip.
Qed.

Lemma insort_in (x y : X) (l : list X) :
  In y (insort lt x l) <-> y = x \/ In y l.
Proof.
  split.
  - intros Hy. apply (Permutation_in _ (Permutation_sym (insort_perm x l))) in Hy.
    apply in_app_or in Hy as [Hy|[Hy|[]]]; [now right | now left].
  - intros Hy. apply (Permutation_in _ (insort_perm x l)).
    apply in_or_app. destruct Hy as [->|Hy]; [right; now left | now left].
Qed.

Lemma insort_sorted (x : X) (l : list X) :
  incl (x :: l) univ ->
  StronglySorted (ascending lt) l -> StronglySorted (ascending lt) (insort lt x l).
Proof.
  intros Hin Hs. induction Hs as [|y r Hs IH Hy]; simpl.
  - repeat constructor.
  - assert (Hx : In x univ) by (apply Hin; now left).
    assert (Hyu : In y univ) by (apply Hin; right; now left).
    destruct (lt x y) eqn:Hxy.
    + constructor; [now constructor|].
      destruct Hwo as [Has Htr].
      constructor; [unfold ascending; now apply Has|].
      rewrite Forall_forall in Hy |- *. intros z Hz. unfold ascending.
      apply (Htr z y x); [apply Hin; right; now right | assumption | assumption
                         | now apply Hy | now apply Has].
    + constructor.
      * apply IH. intros z [<-|Hz]; apply Hin; [now left | right; now right].
      * rewrite Forall_forall in Hy |- *. intros z Hz.
        apply insort_in in Hz as [->|Hz]; [exact Hxy | now apply Hy].
Qed.

(** An element inserted before [y] does not tie with anything from [y]
    on. *)
Lemma ties_above (z x w : X) :
  In z univ -> In x univ -> In w univ ->
  ties lt z x = true -> lt x w = true -> ties lt z w = false.
Proof.
  unfold ties. intros Hz Hx Hw Hzx Hxw.
  apply andb_true_iff in Hzx as [_ Hxz]. apply negb_true_iff in Hxz.
  destruct (lt z w) eqn:Hzw; [reflexivity|].
  destruct Hwo as [_ Htr].
  rewrite (Htr x z w Hx Hz Hw Hxz Hzw) in Hxw. discriminate.
Qed.

Lemma insort_stable (z x : X) (l : list X) :
  In z univ -> incl (x :: l) univ -> StronglySorted (ascending lt) l ->
  filter (ties lt z) (insort lt x l) = filter (ties lt z) (l ++ [x]).
Proof.
  intros Hz Hin Hs. induction Hs as [|y r Hs IH Hy]; [reflexivity|].
  assert (Hx : In x univ) by (apply Hin; now left).
  assert (Hyu : In y univ) by (apply Hin; right; now left).
  cbn [insort]. destruct (lt x y) eqn:Hxy.
  - change (x :: y :: r) with ([x] ++ (y :: r)). rewrite !filter_app.
    destruct (ties lt z x) eqn:Hzx.
    + assert (Hnone : forall w, In w (y :: r) -> ties lt z w = false).
      { intros w Hw.
        assert (Hwu : In w univ) by (apply Hin; now right).
        apply (ties_above z x w Hz Hx Hwu Hzx).
        destruct Hw as [<-|Hw]; [exact Hxy|].
        rewrite Forall_forall in Hy.
        apply (lt_le_trans x y w Hx Hyu Hwu Hxy). now apply Hy. }
      assert (Hnil : filter (ties lt z) (y :: r) = []).
      { clear - Hnone. induction (y :: r) as [|w t IHt]; [reflexivity|].
        simpl. rewrite (Hnone w) by now left.
        apply IHt. intros v Hv. apply Hnone. now right. }
      rewrite Hnil. now rewrite app_nil_r.
    + assert (Hnil : filter (ties lt z) [x] = []) by (simpl; now rewrite Hzx).
      rewrite Hnil. now rewrite app_nil_r.
  - cbn [app filter]. rewrite IH; [reflexivity|].
    intros v [<-|Hv]; apply Hin; [now left | right; now right].
Qed.

Lemma sort_from (l : list X) :
  forall acc, incl (acc ++ l) univ -> StronglySorted (ascending lt) acc ->
    let out := fold_left (fun acc x => insort lt x acc) l acc in
    Permutation (acc ++ l) out
    /\ StronglySorted (ascending lt) out
    /\ forall z, In z univ ->
         filter (ties lt z) out = filter (ties lt z) (acc ++ l).
Proof.
  induction l as [|x l IH]; intros acc Hin Hs; cbn zeta.
  - simpl. rewrite app_nil_r. repeat split; auto.
  - assert (Hxacc : incl (x :: acc) univ).
    { intros v [<-|Hv]; apply Hin, in_or_app; [right; now left | now left]. }
    destruct (IH (insort lt x acc)) as (Hp & Hso & Hst).
    + intros v Hv. apply in_app_or in Hv as [Hv|Hv].
      * apply insort_in in Hv as [->|Hv]; apply Hxacc; [now left | now right].
      * apply Hin, in_or_app. right. now right.
    + now apply insort_sorted.
    + simpl. split; [|split].
      * eapply Permutation_trans; [|exact Hp].
        change (x :: l) with ([x] ++ l). rewrite app_assoc.
        apply Permutation_app_tail, insort_perm.
      * exact Hso.
      * intros z Hz. rewrite (Hst z Hz), !filter_app.
        rewrite (insort_stable z x acc Hz Hxacc Hs), filter_app.
        change (x :: l) with ([x] ++ l).
        now rewrite filter_app, <- app_assoc.
Qed.

Lemma StronglySorted_snoc (R : X -> X -> Prop) (l : list X) (x : X) :
  StronglySorted R l -> Forall (fun y => R y x) l -> StronglySorted R (l ++ [x]).
Proof.
  induction 1 as [|y r Hs IH Hy]; intros Hall; simpl.
  - repeat constructor.
  - inversion Hall as [|? ? Hyx Hr]; subst. constructor; [now apply IH|].
    apply Forall_app; split; [exact Hy | now constructor].
Qed.

Lemma StronglySorted_rev (R : X -> X -> Prop) (l : list X) :
  StronglySorted R l -> StronglySorted (fun a b => R b a) (rev l).
Proof.
  induction 1 as [|y r Hs IH Hy]; simpl; [constructor|].
  apply StronglySorted_snoc; [exact IH | now apply Forall_rev].
Qed.

(** [sorted] on a list that [<] orders is the stable sort. *)
Lemma sorted_stable (reverse : bool) (l : list X) :
  incl l univ -> stable_sort_of lt reverse l (sorted lt reverse l).
Proof.
  intros Hin. unfold sorted, sort. destruct reverse.
  - destruct (sort_from (rev l) []) as (Hp & Hso & Hst).
    + intros v Hv. apply Hin. now apply in_rev.
    + constructor.
    + simpl in Hp, Hst. split; [|split].
      * eapply Permutation_trans; [apply Permutation_rev|].
        eapply Permutation_trans; [exact Hp | apply Permutation_rev].
      * apply (StronglySorted_rev _ _ Hso).
      * intros x Hx. rewrite filter_rev, (Hst x (Hin x Hx)), filter_rev.
        apply rev_involutive.
  - destruct (sort_from l []) as (Hp & Hso & Hst); [exact Hin | constructor |].
    simpl in Hp, Hst. split; [exact Hp | split; [exact Hso|]].
    intros x Hx. apply Hst, Hin, Hx.
Qed.
End Insertion.

End PySortFacts.

(** ** The orders on keys *)

Section OrderFacts.


Lemma weak_order_on_key {X K : Type} (key : X -> K) (lt : K -> K -> bool)
    (l : list X) :
  weak_order_on lt (map key l) ->
  weak_order_on (fun x y => lt (key x) (key y)) l.
Proof.
  intros [Has Htr]. split.
  - intros a b Ha Hb. apply Has; now apply in_map.
  - intros a b c Ha Hb Hc. apply Htr; now apply in_map.
Qed.

Lemma ascii_compare_refl (a : ascii) : Ascii.compare a a = Eq.
Proof. apply N.compare_refl. Qed.

(** The complement of [<] on strings is transitive. *)
Lemma string_compare_not_lt_trans (a : string) :
  forall b c, String.compare a b <> Lt -> String.compare b c <> Lt ->
              String.compare a c <> Lt.
Proof.
  induction a as [|x a IH]; intros [|y b] [|z c]; simpl; try congruence.
  unfold Ascii.compare.
  destruct (N.compare_spec (N_of_ascii x) (N_of_ascii y)) as [Hxy|Hxy|Hxy];
    destruct (N.compare_spec (N_of_ascii y) (N_of_ascii z)) as [Hyz|Hyz|Hyz];
    destruct (N.compare_spec (N_of_ascii x) (N_of_ascii z)) as [Hxz|Hxz|Hxz];
    try congruence; try lia.
  apply IH.
Qed.

Lemma string_ltb_weak_order (l : list string) : weak_order_on String.ltb l.
Proof.
  unfold String.ltb. split.
  - intros a b _ _. rewrite (String.compare_antisym a b).
    destruct (String.compare b a); simpl; congruence.
  - intros a b c _ _ _ Hab Hbc.
    pose proof (string_compare_not_lt_trans a b c) as Htr.
    destruct (String.compare a b); destruct (String.compare b c);
      destruct (String.compare a c); try reflexivity; try discriminate;
      exfalso; apply Htr; congruence.
Qed.

Lemma int_ltb_weak_order (l : list Z) : weak_order_on Z.ltb l.
Proof.
  split.
  - intros a b _ _ Hab. apply Z.ltb_lt in Hab. apply Z.ltb_ge. lia.
  - intros a b c _ _ _ Hab Hbc. apply Z.ltb_ge in Hab, Hbc. apply Z.ltb_ge. lia.
Qed.

Lemma SFltb_rank (f1 f2 : spec_float) :
  f1 <> S754_nan -> f2 <> S754_nan ->
  (SFltb f1 f2 = true <-> rank_lt (float_rank f1) (float_rank f2)).
Proof.
  intros H1 H2. unfold SFltb, rank_lt.
  destruct f1 as [s1|s1| |s1 m1 e1], f2 as [s2|s2| |s2 m2 e2];
    try congruence; try destruct s1; try destruct s2; cbn;
    try (destruct (Z.compare_spec e1 e2) as [He|He|He]; cbn;
         try (change (Pos.compare_cont Eq m1 m2) with (Pos.compare m1 m2);
              destruct (Pos.compare_spec m1 m2) as [Hm|Hm|Hm]; cbn));
    (split; intros Hlt; first [discriminate Hlt | reflexivity | lia]).
Qed.

Lemma not_nan_spec (x : float) : is_nan x = false -> Prim2SF x <> S754_nan.
Proof.
  unfold is_nan. rewrite FloatAxioms.eqb_spec. intros Hx Hnan.
  rewrite Hnan in Hx. discriminate.
Qed.

Lemma float_ltb_rank (x y : float) :
  is_nan x = false -> is_nan y = false ->
  (PrimFloat.ltb x y = true
   <-> rank_lt (float_rank (Prim2SF x)) (float_rank (Prim2SF y))).
Proof.
  intros Hx Hy. rewrite ltb_spec.
  apply SFltb_rank; now apply not_nan_spec.
Qed.

Lemma rank_lt_asym (r1 r2 : Z * Z * Z) : rank_lt r1 r2 -> ~ rank_lt r2 r1.
Proof. destruct r1 as [[a1 b1] c1], r2 as [[a2 b2] c2]. simpl. lia. Qed.

Lemma rank_not_lt_trans (r1 r2 r3 : Z * Z * Z) :
  ~ rank_lt r1 r2 -> ~ rank_lt r2 r3 -> ~ rank_lt r1 r3.
Proof.
  destruct r1 as [[a1 b1] c1], r2 as [[a2 b2] c2], r3 as [[a3 b3] c3].
  simpl. lia.
Qed.

(** On floats none of which is a NaN, [<] is a strict weak order. *)
Lemma float_ltb_weak_order (l : list float) :
  Forall (fun x => is_nan x = false) l -> weak_order_on PrimFloat.ltb l.
Proof.
  rewrite Forall_forall. intros Hl. split.
  - intros a b Ha Hb Hab.
    apply (float_ltb_rank a b (Hl a Ha) (Hl b Hb)) in Hab.
    apply not_true_is_false. intros Hba.
    apply (float_ltb_rank b a (Hl b Hb) (Hl a Ha)) in Hba.
    now apply (rank_lt_asym _ _ Hab).
  - intros a b c Ha Hb Hc Hab Hbc.
    apply not_true_is_false. intros Hac.
    apply (float_ltb_rank a c (Hl a Ha) (Hl c Hc)) in Hac.
    revert Hac. apply (rank_not_lt_trans _ (float_rank (Prim2SF b))).
    + intros Hr. apply (float_ltb_rank a b (Hl a Ha) (Hl b Hb)) in Hr. congruence.
    + intros Hr. apply (float_ltb_rank b c (Hl b Hb) (Hl c Hc)) in Hr. congruence.
Qed.
End OrderFacts.

(** ** Listing *)

Section ListFacts.
Context {A : Type} `{PyNum A}.

Lemma filter_filter {X : Type} (f g : X -> bool) (l : list X) :
  filter g (filter f l) = filter (fun x => f x && g x) l.
Proof.
  induction l as [|x l IH]; [reflexivity|].
  simpl. destruct (f x); simpl; [destruct (g x)|]; now rewrite IH.
Qed.

Lemma filter_always {X : Type} (l : list X) : filter (fun _ => true) l = l.
Proof. induction l as [|x l IH]; [reflexivity | simpl; now rewrite IH]. Qed.

(** One step of [_apply_filters]: filter when the argument is given. *)
Lemma filter_step {B : Type} (o : option B) (p : B -> Expense A -> bool)
    (l : list (Expense A)) :
  match o with Some b => filter (p b) l | None => l end
  = filter (fun exp => filter_holds o (fun b => p b exp)) l.
Proof. destruct o; simpl; [reflexivity | now rewrite filter_always]. Qed.

(** [_apply_filters] selects the records that satisfy every supplied
    filter, in the order of the collection. *)
Lemma apply_filters_spec (l : list (Expense A))
    (month from_date to_date category : option string)
    (min_amount max_amount : option A) :
  _apply_filters l month from_date to_date category min_amount max_amount
  = filter (satisfies month from_date to_date category min_amount max_amount) l.
Proof.
  unfold _apply_filters, satisfies, PyStr.startswith. cbv zeta.
  rewrite (filter_step (truthy month)
             (fun m exp => String.prefix m (Expense.date exp))).
  rewrite (filter_step (truthy from_date)
             (fun d exp => String.leb d (Expense.date exp))).
  rewrite (filter_step (truthy to_date)
             (fun d exp => String.leb (Expense.date exp) d)).
  rewrite (filter_step (truthy category)
             (fun c exp => String.eqb (PyStr.lower (Expense.category exp))
                                      (PyStr.lower c))).
  rewrite (filter_step min_amount (fun m exp => num_leb m (Expense.amount exp))).
  rewrite (filter_step max_amount (fun m exp => num_leb (Expense.amount exp) m)).
  rewrite !filter_filter.
  apply filter_ext. intros exp. now rewrite !andb_assoc.
Qed.

Lemma sort_expenses_spec (l : list (Expense A)) (sort_by : string)
    (descending : bool) :
  _sort_expenses l sort_by descending
  = PySort.sorted (sort_lt sort_by) descending l.
Proof.
  unfold _sort_expenses, sort_lt.
  destruct (String.eqb sort_by "amount"); [reflexivity|].
  destruct (String.eqb sort_by "category"); reflexivity.
Qed.

(** The key order is a strict weak order: always for the two string
    keys, and for amounts when their [<] is one. *)
Lemma sort_lt_weak_order (sort_by : string) (l : list (Expense A)) :
  (sort_by = "amount"%string -> weak_order_on num_ltb (map Expense.amount l)) ->
  weak_order_on (sort_lt sort_by) l.
Proof.
  intros Hamt. unfold sort_lt.
  destruct (String.eqb_spec sort_by "amount") as [Heq|_].
  - apply (weak_order_on_key Expense.amount num_ltb), Hamt, Heq.
  - destruct (String.eqb sort_by "category").
    + apply (weak_order_on_key Expense.category String.ltb), string_ltb_weak_order.
    + apply (weak_order_on_key Expense.date String.ltb), string_ltb_weak_order.
Qed.

Lemma list_expenses_document (self : ExpenseService) (l : list (Expense A))
    (c : string) (month from_date to_date category : option string)
    (min_amount max_amount : option A) (sort_by : string) (descending : bool)
    (limit : option Z) :
  list_expenses self month from_date to_date category min_amount max_amount
                sort_by descending limit {| file := Document l; clock := c |}
  = (Ok (truncated limit
           (PySort.sorted (sort_lt sort_by) descending
              (filter (satisfies month from_date to_date category
                                 min_amount max_amount) l))),
     {| file := Document l; clock := c |}).
Proof.
  unfold list_expenses, bind. rewrite load_all_document. unfold ret.
  rewrite apply_filters_spec, sort_expenses_spec.
  unfold truncated. destruct limit as [n|]; [destruct (Z.ltb 0 n)|]; reflexivity.
Qed.

End ListFacts.

(** ** Dicts *)

Section DictFacts.
Context {V : Type}.

Lemma dict_mem_keys (k : string) (d : list (string * V)) :
  dict_mem k d = true <-> In k (map fst d).
Proof.
  unfold dict_mem. rewrite existsb_exists, in_map_iff. split.
  - intros (kv & Hin & Hk). exists kv. split; [now apply String.eqb_eq | exact Hin].
  - intros (kv & Hk & Hin). exists kv. split; [exact Hin | now apply String.eqb_eq].
Qed.

(** Setting a key that is not there appends it. *)
Lemma dict_set_absent (k : string) (v : V) (d : list (string * V)) :
  dict_mem k d = false -> dict_set k v d = d ++ [(k, v)].
Proof.
  induction d as [|[k' v'] r IH]; [reflexivity|].
  unfold dict_mem in *. simpl. destruct (String.eqb k' k); simpl; [discriminate|].
  intros Hr. now rewrite IH.
Qed.

Lemma dict_set_keys (k : string) (v : V) (d : list (string * V)) :
  dict_mem k d = true -> map fst (dict_set k v d) = map fst d.
Proof.
  induction d as [|[k' v'] r IH]; [discriminate|].
  unfold dict_mem in *. simpl. destruct (String.eqb k' k); simpl; [reflexivity|].
  intros Hr. now rewrite IH.
Qed.

(** The entries after [d[k] = v], when the keys of [d] are distinct. *)
Lemma dict_set_entries (k : string) (v : V) (d : list (string * V)) :
  NoDup (map fst d) -> dict_mem k d = true ->
  forall k' v', In (k', v') (dict_set k v d) ->
    (k' = k /\ v' = v) \/ (k' <> k /\ In (k', v') d).
Proof.
  induction d as [|[k0 v0] r IH]; [discriminate|].
  intros Hnd Hmem k' v'. inversion Hnd as [|? ? Hk0 Hr]; subst.
  unfold dict_mem in Hmem. simpl in *.
  destruct (String.eqb_spec k0 k) as [->|Hne]; simpl.
  - intros [Heq|Hin].
    + inversion Heq; subst. now left.
    + right. split; [|now right].
      intros ->. apply Hk0. change k with (fst (k, v')). now apply in_map.
  - intros [Heq|Hin].
    + inversion Heq; subst. right. split; [exact Hne | now left].
    + destruct (IH Hr Hmem k' v' Hin) as [Hl|[Hn Hi]]; [now left|].
      right. split; [exact Hn | now right].
Qed.

Lemma dict_get_entry (k : string) (v dflt : V) (d : list (string * V)) :
  NoDup (map fst d) -> In (k, v) d -> dict_get k dflt d = v.
Proof.
  induction d as [|[k0 v0] r IH]; [contradiction|].
  intros Hnd Hin. inversion Hnd as [|? ? Hk0 Hr]; subst. simpl in *.
  destruct (String.eqb_spec k0 k) as [->|Hne].
  - destruct Hin as [Heq|Hin]; [now inversion Heq|].
    exfalso. apply Hk0. change k with (fst (k, v)). now apply in_map.
  - destruct Hin as [Heq|Hin]; [inversion Heq; congruence|].
    now apply IH.
Qed.

Lemma dict_get_absent (k : string) (dflt : V) (d : list (string * V)) :
  dict_mem k d = false -> dict_get k dflt d = dflt.
Proof.
  induction d as [|[k0 v0] r IH]; [reflexivity|].
  unfold dict_mem in *. simpl. destruct (String.eqb k0 k); simpl; [discriminate|].
  exact IH.
Qed.

Lemma dict_get_snoc (k : string) (v dflt : V) (d : list (string * V)) :
  dict_mem k d = false -> dict_get k dflt (d ++ [(k, v)]) = v.
Proof.
  induction d as [|[k0 v0] r IH]; simpl.
  - now rewrite String.eqb_refl.
  - unfold dict_mem in *. simpl.
    destruct (String.eqb k0 k); simpl; [discriminate | exact IH].
Qed.

Lemma dict_set_snoc (k : string) (v v0 : V) (d : list (string * V)) :
  dict_mem k d = false -> dict_set k v (d ++ [(k, v0)]) = d ++ [(k, v)].
Proof.
  induction d as [|[k0 v1] r IH]; simpl.
  - now rewrite String.eqb_refl.
  - unfold dict_mem in *. simpl.
    destruct (String.eqb k0 k); simpl; [discriminate|].
    intros Hr. now rewrite IH.
Qed.
End DictFacts.

(** ** Aggregation *)

Section TotalsFacts.
Context {A : Type} `{PyNum A}.

Lemma sum_snoc (xs : list A) (x : A) : sum (xs ++ [x]) = num_add (sum xs) x.
Proof. unfold sum. now rewrite fold_left_app. Qed.

Lemma in_category_app (k : string) (l1 l2 : list (Expense A)) :
  in_category k (l1 ++ l2) = in_category k l1 ++ in_category k l2.
Proof. apply filter_app. Qed.

Lemma in_category_none (k : string) (l : list (Expense A)) :
  ~ In k (map Expense.category l) -> in_category k l = [].
Proof.
  induction l as [|e l IH]; [reflexivity|].
  simpl. intros Hk. destruct (String.eqb_spec (Expense.category e) k) as [Heq|_].
  - elim Hk. now left.
  - apply IH. intros Hin. apply Hk. now right.
Qed.

Lemma add_to_category_absent (d : list (string * A)) (e : Expense A) :
  dict_mem (Expense.category e) d = false ->
  add_to_category d e
  = d ++ [(Expense.category e, num_add num_zero (Expense.amount e))].
Proof.
  intros Hk. unfold add_to_category. rewrite Hk. cbn [negb].
  rewrite (dict_set_absent _ num_zero d Hk).
  now rewrite dict_get_snoc, dict_set_snoc.
Qed.

Lemma add_to_category_present (d : list (string * A)) (e : Expense A) :
  dict_mem (Expense.category e) d = true ->
  add_to_category d e
  = dict_set (Expense.category e)
             (num_add (dict_get (Expense.category e) num_zero d) (Expense.amount e))
             d.
Proof. intros Hk. unfold add_to_category. now rewrite Hk. Qed.

Lemma totals_of_step (seen : list (Expense A)) (d : list (string * A))
    (e : Expense A) :
  totals_of seen d -> totals_of (seen ++ [e]) (add_to_category d e).
Proof.
  intros (Hnd & Hkeys & Hvals).
  destruct (dict_mem (Expense.category e) d) eqn:Hmem.
  - rewrite (add_to_category_present d e Hmem).
    assert (Hin : In (Expense.category e) (map fst d))
      by now apply dict_mem_keys.
    split; [|split].
    + now rewrite dict_set_keys.
    + intros k. rewrite dict_set_keys by exact Hmem.
      rewrite Hkeys, map_app, in_app_iff. simpl. split; [now left|].
      intros [Hk|[<-|[]]]; [exact Hk | now apply Hkeys].
    + intros k v Hkv.
      apply (dict_set_entries _ _ d Hnd Hmem) in Hkv as [[-> ->]|[Hne Hkv]].
      * apply in_map_iff in Hin as ([k0 v0] & Hk0 & Hin0). simpl in Hk0. subst k0.
        rewrite (dict_get_entry _ v0 _ d Hnd Hin0), (Hvals _ _ Hin0).
        rewrite in_category_app, map_app. cbn [in_category filter].
        rewrite String.eqb_refl. cbn [map]. now rewrite sum_snoc.
      * rewrite (Hvals _ _ Hkv), in_category_app. cbn [in_category filter].
        destruct (String.eqb_spec (Expense.category e) k) as [Heq|_];
          [now elim Hne | now rewrite app_nil_r].
  - rewrite (add_to_category_absent d e Hmem).
    assert (Hnot : ~ In (Expense.category e) (map fst d)).
    { intros Hin. apply dict_mem_keys in Hin. congruence. }
    split; [|split].
    + rewrite map_app. simpl.
      apply (Permutation_NoDup (Permutation_cons_append (map fst d) _)).
      now constructor.
    + intros k. rewrite !map_app, !in_app_iff. simpl. now rewrite Hkeys.
    + intros k v Hkv. apply in_app_or in Hkv as [Hkv|[Heq|[]]].
      * rewrite (Hvals _ _ Hkv), in_category_app. cbn [in_category filter].
        destruct (String.eqb_spec (Expense.category e) k) as [Heq|_];
          [|now rewrite app_nil_r].
        elim Hnot. rewrite Heq. change k with (fst (k, v)). now apply in_map.
      * inversion Heq; subst k v.
        rewrite in_category_app, in_category_none by now rewrite <- Hkeys.
        cbn [in_category filter]. now rewrite String.eqb_refl.
Qed.

Lemma totals_of_fold (es : list (Expense A)) :
  forall seen d, totals_of seen d ->
    totals_of (seen ++ es) (fold_left add_to_category es d).
Proof.
  induction es as [|e es IH]; intros seen d Hd; simpl.
  - now rewrite app_nil_r.
  - change (e :: es) with ([e] ++ es). rewrite app_assoc.
    apply IH, totals_of_step, Hd.
Qed.

Lemma totals_of_all (es : list (Expense A)) :
  totals_of es (fold_left add_to_category es []).
Proof.
  apply (totals_of_fold es [] []).
  split; [constructor | split; [tauto | contradiction]].
Qed.

Lemma summarized_sorted (l : list (Expense A))
    (month from_date to_date category : option string) :
  stable_sort_of (sort_lt "date") false
    (filter (satisfies month from_date to_date category None None) l)
    (summarized l month from_date to_date category).
Proof.
  apply (PySortFacts.sorted_stable (sort_lt "date")
           (filter (satisfies month from_date to_date category None None) l)).
  - apply sort_lt_weak_order. discriminate.
  - apply incl_refl.
Qed.
End TotalsFacts.

Section SummaryFacts.
Context {A : Type} `{PyNum A}.

(** What [summary] returns, from the records it works on. *)
Lemma summary_document (self : ExpenseService) (l : list (Expense A))
    (c : string) (month from_date to_date category : option string) :
  summary self month from_date to_date category
          {| file := Document l; clock := c |}
  = (Ok (match summarized l month from_date to_date category with
         | [] =>
             Summary.make 0 num_zero [] "BDT"
               (_get_period_description month from_date to_date)
         | first :: rest =>
             Summary.make (List.length (first :: rest))
               (sum (map Expense.amount (first :: rest)))
               (fold_left add_to_category (first :: rest) [])
               (Expense.currency first)
               (_get_period_description month from_date to_date)
         end),
     {| file := Document l; clock := c |}).
Proof.
  unfold summary, bind. rewrite list_expenses_document.
  unfold truncated, summarized.
  destruct (PySort.sorted _ _ _); reflexivity.
Qed.

(** The period description, by the arguments supplied. *)
Lemma period_description_cases (month from_date to_date : option string) :
  _get_period_description month from_date to_date
  = match truthy month with
    | Some m => ("(" ++ m ++ ")")%string
    | None =>
        match truthy from_date, truthy to_date with
        | Some f, Some t => ("(" ++ f ++ " to " ++ t ++ ")")%string
        | Some f, None => ("(from " ++ f ++ ")")%string
        | None, Some t => ("(to " ++ t ++ ")")%string
        | None, None => "(all time)"%string
        end
    end.
Proof.
  unfold _get_period_description.
  destruct (truthy month), (truthy from_date), (truthy to_date); reflexivity.
Qed.

(** C4. [summary] returns a count equal to the number of records that
    match the filters and a grand total equal to the sum of their
    amounts (added in the order [summary] goes through them, by date),
    each category total being the sum of the amounts of the matching
    records of that category; when no record matches it returns count 0,
    grand total 0, no category totals, currency [BDT]; the period is
    described from the month, or else from the from and to dates
    supplied. *)
Theorem summary_count_and_totals :
  forall (self : ExpenseService) (l : list (Expense A)) (c : string)
         (month from_date to_date category : option string),
    let matching :=
      filter (satisfies month from_date to_date category None None) l in
    let by_date := summarized l month from_date to_date category in
    exists s,
      summary self month from_date to_date category
              {| file := Document l; clock := c |}
      = (Ok s, {| file := Document l; clock := c |})
      /\ Permutation matching by_date
      /\ Summary.count s = List.length matching
      /\ Summary.grand_total s = sum (map Expense.amount by_date)
      /\ (forall k v, In (k, v) (Summary.totals_by_category s) ->
            v = sum (map Expense.amount (in_category k by_date)))
      /\ (forall k, In k (map fst (Summary.totals_by_category s)) <->
            In k (map Expense.category matching))
      /\ Summary.period s
         = match truthy month with
           | Some m => ("(" ++ m ++ ")")%string
           | None =>
               match truthy from_date, truthy to_date with
               | Some f, Some t => ("(" ++ f ++ " to " ++ t ++ ")")%string
               | Some f, None => ("(from " ++ f ++ ")")%string
               | None, Some t => ("(to " ++ t ++ ")")%string
               | None, None => "(all time)"%string
               end
           end
      /\ (matching = [] ->
          s = Summary.make 0 num_zero [] "BDT"
                (_get_period_description month from_date to_date)).
Proof.
  intros self l c month from_date to_date category matching by_date.
  destruct (summarized_sorted l month from_date to_date category)
    as (Hperm & _). fold matching by_date in Hperm.
  eexists. split; [apply summary_document|].
  fold by_date. split; [exact Hperm|].
  rewrite (Permutation_length Hperm).
  destruct by_date as [|first rest] eqn:Hby; cbn [Summary.count Summary.grand_total
    Summary.totals_by_category Summary.period].
  - refine (conj eq_refl (conj eq_refl (conj _ (conj _ (conj _ _))))).
    + intros k v [].
    + intros k. split; [intros []|].
      intros Hk. apply in_map_iff in Hk as (e & _ & He).
      now apply (Permutation_in _ Hperm) in He.
    + apply period_description_cases.
    + reflexivity.
  - destruct (totals_of_all (first :: rest)) as (_ & Hkeys & Hvals).
    refine (conj eq_refl (conj eq_refl (conj Hvals (conj _ (conj _ _))))).
    + intros k. rewrite Hkeys. split; intros Hk;
        apply in_map_iff in Hk as (e & <- & He); apply in_map.
      * apply (Permutation_in _ (Permutation_sym Hperm) He).
      * apply (Permutation_in _ Hperm He).
    + apply period_description_cases.
    + intros Hnil. rewrite Hnil in Hperm.
      apply Permutation_nil in Hperm. discriminate.
Qed.
End SummaryFacts.

Section SummarySelection.
Context {A : Type} `{PyNum A}.

Lemma string_compare_refl (a : string) : String.compare a a = Eq.
Proof.
  pose proof (String.compare_antisym a a) as Ha.
  destruct (String.compare a a); simpl in Ha; congruence.
Qed.

Lemma string_ltb_irrefl (a : string) : String.ltb a a = false.
Proof. unfold String.ltb. now rewrite string_compare_refl. Qed.

(** Two records tie under the key [date] when their dates are equal. *)
Lemma ties_date (x y : Expense A) :
  ties (sort_lt "date") x y = String.eqb (Expense.date y) (Expense.date x).
Proof.
  unfold ties, sort_lt. cbn [String.eqb Ascii.eqb Bool.eqb andb].
  unfold String.ltb.
  rewrite (String.compare_antisym (Expense.date x) (Expense.date y)).
  destruct (String.eqb_spec (Expense.date y) (Expense.date x)) as [Heq|Hne].
  - rewrite Heq, string_compare_refl. reflexivity.
  - destruct (String.compare (Expense.date y) (Expense.date x)) eqn:Hc;
      try reflexivity.
    apply String.compare_eq_iff in Hc. contradiction.
Qed.

(** The head of a stable sort by date: of earliest date, and the first
    of its date in the input. *)
Lemma earliest_first (input : list (Expense A)) (first : Expense A)
    (rest : list (Expense A)) :
  stable_sort_of (sort_lt "date") false input (first :: rest) ->
  In first input
  /\ (forall e, In e input ->
        String.ltb (Expense.date e) (Expense.date first) = false)
  /\ hd_error (filter (fun e => String.eqb (Expense.date e) (Expense.date first))
                      input) = Some first.
Proof.
  intros (Hperm & Hsorted & Hstable).
  assert (Hin : In first input)
    by (apply (Permutation_in _ (Permutation_sym Hperm)); now left).
  split; [exact Hin | split].
  - intros e He. apply (Permutation_in _ Hperm) in He as [<-|He].
    + apply string_ltb_irrefl.
    + apply StronglySorted_inv in Hsorted as [_ Hall].
      rewrite Forall_forall in Hall. exact (Hall e He).
  - rewrite <- (filter_ext _ _ (ties_date first)), <- (Hstable first Hin).
    cbn [filter]. rewrite ties_date, String.eqb_refl. reflexivity.
Qed.

(** C2, as the code has it. [summary] works on the records selected by
    the same four filters as [list_expenses], in the default order of
    [list_expenses] (sorted by date, ascending, records of one date in
    collection order) and without limit: count, grand total and category
    totals are computed over that list, and the currency label is the
    currency of its first record: of the matching records with the
    earliest date, the first in collection order. *)
Theorem summary_over_date_sorted_selection :
  forall (self : ExpenseService) (l : list (Expense A)) (c : string)
         (month from_date to_date category : option string),
    let matching :=
      filter (satisfies month from_date to_date category None None) l in
    exists sel s,
      list_expenses self month from_date to_date category None None
                    "date" false None {| file := Document l; clock := c |}
      = (Ok sel, {| file := Document l; clock := c |})
      /\ summary self month from_date to_date category
                 {| file := Document l; clock := c |}
         = (Ok s, {| file := Document l; clock := c |})
      /\ stable_sort_of (sort_lt "date") false matching sel
      /\ Summary.count s = List.length sel
      /\ Summary.grand_total s = sum (map Expense.amount sel)
      /\ Summary.totals_by_category s = fold_left add_to_category sel []
      /\ Summary.currency s
         = match sel with
           | [] => "BDT"%string
           | first :: _ => Expense.currency first
           end
      /\ (forall first rest, sel = first :: rest ->
            In first matching
            /\ (forall e, In e matching ->
                  String.ltb (Expense.date e) (Expense.date first) = false)
            /\ hd_error (filter (fun e => String.eqb (Expense.date e)
                                                     (Expense.date first))
                                matching) = Some first).
Proof.
  intros self l c month from_date to_date category matching.
  exists (summarized l month from_date to_date category). eexists.
  split; [now rewrite list_expenses_document|].
  split; [apply summary_document|].
  pose proof (summarized_sorted l month from_date to_date category) as Hst.
  fold matching in Hst.
  split; [exact Hst|].
  destruct (summarized l month from_date to_date category) as [|first rest];
    (refine (conj eq_refl (conj eq_refl (conj eq_refl (conj eq_refl _))))).
  - discriminate.
  - intros first' rest' Heq. inversion Heq; subst first' rest'.
    now apply (earliest_first matching first rest).
Qed.
End SummarySelection.

(** On [out_of_order], with no filter, the first matching record in
    collection order is in USD, and the currency label of [summary] is
    EUR. *)
Lemma summary_currency_not_of_first_stored :
  let w := world_of out_of_order in
  option_map Expense.currency
    (hd_error (filter (satisfies None None None None None None) out_of_order))
  = Some "USD"%string
  /\ exists s, summary example_service None None None None w = (Ok s, w)
               /\ Summary.currency s = "EUR"%string.
Proof.
  split; [reflexivity|].
  eexists. split; [vm_compute; reflexivity | reflexivity].
Qed.

Section SummaryAlgebra.
Context {A : Type} `{PyNum A}.









End SummaryAlgebra.

(** ** Storage: deletion, update and loading *)

Section DeleteUpdateFacts.
Context {A : Type}.
Variable self : ExpenseStorage.

Lemma filter_shorter {X : Type} (f : X -> bool) (l : list X) :
  Nat.ltb (List.length (filter f l)) (List.length l) = negb (forallb f l).
Proof.
  destruct (forallb f l) eqn:Hall; simpl.
  - rewrite (forallb_filter_id f l Hall). apply Nat.ltb_irrefl.
  - apply Nat.ltb_lt.
    pose proof (filter_length_le f l) as Hle.
    destruct (Nat.eq_dec (List.length (filter f l)) (List.length l)) as [Heq|Hne];
      [|lia].
    apply filter_length_forallb in Heq. congruence.
Qed.

Lemma forallb_negb_existsb {X : Type} (f : X -> bool) (l : list X) :
  negb (forallb (fun x => negb (f x)) l) = existsb f l.
Proof.
  induction l as [|x l IH]; [reflexivity|].
  simpl. rewrite negb_andb, negb_involutive, IH. reflexivity.
Qed.

(** What [delete] returns and writes. *)
Lemma delete_document (l : list (Expense A)) (c : string) (expense_id : string) :
  delete self expense_id {| file := Document l; clock := c |}
  = (Ok (existsb (has_id expense_id) l),
     if existsb (has_id expense_id) l
     then {| file := Document (filter (fun exp => negb (has_id expense_id exp)) l);
             clock := c |}
     else {| file := Document l; clock := c |}).
Proof.
  unfold delete, bind. rewrite load_all_document.
  change (fun exp : Expense A => negb (String.eqb (Expense.id exp) expense_id))
    with (fun exp : Expense A => negb (has_id expense_id exp)).
  rewrite filter_shorter, forallb_negb_existsb.
  destruct (existsb (has_id expense_id) l); reflexivity.
Qed.

Lemma set_item_middle (before after : list (Expense A)) (old new : Expense A) :
  set_item (before ++ old :: after) (List.length before) new
  = before ++ new :: after.
Proof. induction before as [|x before IH]; simpl; [reflexivity | now rewrite IH]. Qed.

Lemma nth_error_middle (before after : list (Expense A)) (x : Expense A) :
  nth_error (before ++ x :: after) (List.length before) = Some x.
Proof. induction before as [|y before IH]; simpl; [reflexivity | exact IH]. Qed.

(** Where the loop of [update] stops. *)
Lemma first_match_spec (expense_id : string) (l : list (Expense A)) :
  forall i,
    (exists before exp after,
        l = before ++ exp :: after
        /\ forallb (fun x => negb (has_id expense_id x)) before = true
        /\ has_id expense_id exp = true
        /\ first_match expense_id i l = Some (i + List.length before, exp))
    \/ (forallb (fun x => negb (has_id expense_id x)) l = true
        /\ first_match expense_id i l = None).
Proof.
  induction l as [|x l IH]; intros i.
  - right. split; reflexivity.
  - cbn [first_match]. fold (has_id expense_id x).
    destruct (has_id expense_id x) eqn:Hx.
    + left. exists [], x, l. simpl. rewrite Nat.add_0_r. auto.
    + destruct (IH (S i)) as [(before & exp & after & Hl & Hb & He & Hf)|[Hall Hf]].
      * left. exists (x :: before), exp, after.
        split; [simpl; now rewrite Hl|].
        split; [simpl; now rewrite Hx, Hb|].
        split; [exact He|].
        rewrite Hf. simpl. do 2 f_equal. lia.
      * right. split; [simpl; now rewrite Hx, Hall | exact Hf].
Qed.

Lemma update_document (l : list (Expense A)) (c : string) (expense_id : string)
    (updates : Updates A) :
  updates_first_match expense_id updates l c
    (update self expense_id updates {| file := Document l; clock := c |}).
Proof.
  unfold update, bind. rewrite load_all_document.
  destruct (first_match_spec expense_id l 0)
    as [(before & exp & after & Hl & Hb & He & Hf)|[Hall Hf]]; rewrite Hf.
  - left. exists before, exp, after. repeat split; try assumption.
    simpl. subst l. rewrite set_item_middle. unfold save_all, write_file, ret.
    cbn [clock]. now rewrite nth_error_middle.
  - right. split; [exact Hall | reflexivity].
Qed.
End DeleteUpdateFacts.

Section StorageClaims.
Context {A : Type} `{PyNum A} `{Builtins A}.

(** C5. On a stored collection, [delete] (and [delete_expense], which
    passes it on) returns true exactly when a record with the id was
    present, and then the collection written is the one without the
    records of that id; when no record has the id it returns false, as
    a value and not as an exception, writes nothing and leaves the file
    as it was. *)
Theorem delete_reports_removal :
  forall (self : ExpenseService) (l : list (Expense A)) (c : string)
         (expense_id : string),
    let w := {| file := Document l; clock := c |} in
    let found := existsb (has_id expense_id) l in
    let kept := filter (fun exp => negb (has_id expense_id exp)) l in
    delete (storage self) expense_id w
    = (Ok found, if found then {| file := Document kept; clock := c |} else w)
    /\ delete_expense self expense_id w = delete (storage self) expense_id w
    /\ (found = true <-> exists exp, In exp l /\ Expense.id exp = expense_id)
    /\ (forall exp, In exp kept <-> In exp l /\ Expense.id exp <> expense_id).
Proof.
  intros self l c expense_id w found kept.
  split; [apply delete_document|].
  split.
  { unfold delete_expense, bind, w. rewrite delete_document.
    destruct (existsb (has_id expense_id) l); reflexivity. }
  split.
  { unfold found. rewrite existsb_exists. unfold has_id.
    split; intros (exp & Hin & Hid); exists exp; split; try assumption;
      now apply String.eqb_eq. }
  intros exp. unfold kept. rewrite filter_In. unfold has_id.
  rewrite negb_true_iff, String.eqb_neq. reflexivity.
Qed.

(** C10. [delete] removes every record with the given id: the
    collection written by a delete that found the id is the stored one
    without all the records of that id, so that no record of it has the
    id, the records with other ids being all still there, in order.
    [update], in contrast, replaces only the first record with the id and
    leaves a later one with the same id as it is. *)
Theorem delete_removes_every_match :
  forall (self : ExpenseStorage) (l : list (Expense A)) (c : string)
         (expense_id : string) (updates : Updates A),
    let w := {| file := Document l; clock := c |} in
    let found := existsb (has_id expense_id) l in
    let kept := filter (fun exp => negb (has_id expense_id exp)) l in
    delete self expense_id w
    = (Ok found, if found then {| file := Document kept; clock := c |} else w)
    /\ existsb (has_id expense_id) kept = false
    /\ Forall (fun exp => Expense.id exp <> expense_id) kept
    /\ filter (fun exp => negb (has_id expense_id exp)) kept
       = filter (fun exp => negb (has_id expense_id exp)) l
    /\ updates_first_match expense_id updates l c (update self expense_id updates w).
Proof.
  intros self l c expense_id updates w found kept.
  assert (Hkept : forall exp, In exp kept -> has_id expense_id exp = false).
  { intros exp Hin. unfold kept in Hin. apply filter_In in Hin as [_ Hid].
    now apply negb_true_iff in Hid. }
  split; [apply delete_document|].
  split.
  { destruct (existsb (has_id expense_id) kept) eqn:Hex; [|reflexivity].
    apply existsb_exists in Hex as (exp & Hin & Hid).
    rewrite (Hkept exp Hin) in Hid. discriminate. }
  split.
  { apply Forall_forall. intros exp Hin.
    apply String.eqb_neq. exact (Hkept exp Hin). }
  split.
  { unfold kept. rewrite filter_filter. apply filter_ext. intros exp.
    apply andb_diag. }
  apply update_document.
Qed.


(** The outcome of one optional argument of [edit_expense]: a
    validation error, with the world as it was, or the formatted value,
    which is absent when the argument is. *)
Lemma edit_field_outcome {X Y : Type} (arg : option X) (fmt : X -> IO A Y)
    (w : World A) :
  (forall x, snd (fmt x w) = w) ->
  (exists msg, edit_field arg fmt w = (Raise (ValueError msg), w))
  \/ (exists r, edit_field arg fmt w = (Ok r, w) /\ (arg = None -> r = None)).
Proof.
  intros Hpure. destruct arg as [x|]; simpl.
  - unfold bind. specialize (Hpure x).
    destruct (fmt x w) as [[y|[msg]] w'] eqn:E; simpl in Hpure; subst w'.
    + right. exists (Some y). split; [reflexivity | discriminate].
    + left. now exists msg.
  - right. exists None. split; reflexivity.
Qed.

Lemma format_date_pure (d : option string) (w : World A) :
  snd (format_date d w) = w.
Proof.
  unfold format_date, today, now, bind, ret, raise.
  destruct d as [d|]; [|reflexivity].
  destruct (_ || _); [reflexivity|]. destruct (negb _); reflexivity.
Qed.

(** What [edit_expense] passes to [update]. *)
Lemma edit_expense_updates (self : ExpenseService) (expense_id : string)
    (date category : option string) (amount : option (amount_arg A))
    (note currency : option string) (w : World A) :
  (exists msg,
      edit_expense self expense_id date category amount note currency w
      = (Raise (ValueError msg), w))
  \/ (exists u,
        u_id u = None /\ u_created_at u = None
        /\ (date = None -> u_date u = None)
        /\ (category = None -> u_category u = None)
        /\ (amount = None -> u_amount u = None)
        /\ u_note u = option_map PyStr.strip note
        /\ u_currency u = currency
        /\ edit_expense self expense_id date category amount note currency w
           = update (storage self) expense_id u w).
Proof.
  unfold edit_expense.
  destruct (edit_field_outcome date (fun d => format_date (Some d)) w
              (fun d => format_date_pure (Some d) w))
    as [[msg Hd]|(d' & Hd & Hdn)].
  { left. exists msg. unfold bind at 1. now rewrite Hd. }
  destruct (edit_field_outcome category (fun k => lift (format_category k)) w
              (fun k => eq_refl))
    as [[msg Hk]|(k' & Hk & Hkn)].
  { left. exists msg. unfold bind at 1. rewrite Hd.
    unfold bind at 1. now rewrite Hk. }
  destruct (edit_field_outcome amount (fun a => lift (format_amount a)) w
              (fun a => eq_refl))
    as [[msg Ha]|(a' & Ha & Han)].
  { left. exists msg. unfold bind at 1. rewrite Hd.
    unfold bind at 1. rewrite Hk. unfold bind at 1. now rewrite Ha. }
  right.
  exists {| u_id := None; u_date := d'; u_category := k'; u_amount := a';
            u_currency := currency; u_note := option_map PyStr.strip note;
            u_created_at := None |}.
  refine (conj eq_refl (conj eq_refl (conj Hdn (conj Hkn (conj Han
            (conj eq_refl (conj eq_refl _))))))).
  unfold bind at 1. rewrite Hd. unfold bind at 1. rewrite Hk.
  unfold bind at 1. rewrite Ha.
  unfold bind, ret. destruct (update _ _ _ w) as [[r|e] w']; reflexivity.
Qed.

End StorageClaims.

(** ** Loading *)

Section LoadFacts.
Context {A : Type}.

Lemma prefix_refl (p : string) : String.prefix p p = true.
Proof.
  induction p as [|x p IH]; [reflexivity|].
  simpl. destruct (ascii_dec x x) as [_|ne]; [exact IH | now elim ne].
Qed.

(** A text contains what it ends with. *)
Lemma contains_suffix (p q : string) : PyStr.contains p (q ++ p) = true.
Proof.
  induction q as [|x q IH].
  - cbn [append]. destruct p as [|a p]; [reflexivity|].
    cbn [PyStr.contains]. now rewrite (prefix_refl (String a p)).
  - cbn [append PyStr.contains]. rewrite IH. apply orb_true_r.
Qed.

(** C7. When the file does not hold JSON, [load_all] raises the error
    [Error: Data file is corrupted. Please check <filepath>], whose
    message contains the file path, returns no list at all and leaves the
    file as it is; when there is no file, it writes the empty document
    and returns the empty list. *)
Theorem load_all_corrupt_or_missing :
  forall (self : ExpenseStorage) (text c : string),
    load_all (A := A) self {| file := Corrupt text; clock := c |}
    = (Raise (ValueError ("Error: Data file is corrupted. Please check "
                          ++ filepath self)),
       {| file := Corrupt text; clock := c |})
    /\ PyStr.contains (filepath self)
         ("Error: Data file is corrupted. Please check " ++ filepath self)
       = true
    /\ (forall l : list (Expense A),
          fst (load_all self {| file := Corrupt text; clock := c |}) <> Ok l)
    /\ load_all (A := A) self {| file := Missing; clock := c |}
       = (Ok [], {| file := Document []; clock := c |}).
Proof.
  intros self text c.
  split; [reflexivity|].
  split; [apply contains_suffix|].
  split; [discriminate | reflexivity].
Qed.
End LoadFacts.

(** ** Validation of amounts *)

Section AmountFacts.
Context {A : Type} `{PyNum A} `{Builtins A}.

Lemma format_amount_non_numeric (amount : amount_arg A) :
  non_numeric amount ->
  format_amount amount = Raise (ValueError "Error: amount must be a valid number").
Proof.
  destruct amount as [a|s]; simpl; [contradiction|].
  intros Hs. unfold format_amount, format_amount_try, py_float. rewrite Hs.
  reflexivity.
Qed.

Lemma format_amount_numeric (amount : amount_arg A) (a : A) :
  py_float amount = Ok a ->
  format_amount amount
  = if num_leb a num_zero
    then Raise (ValueError "Error: amount must be > 0")
    else Ok (round2 a).
Proof.
  intros Ha. unfold format_amount, format_amount_try, validate_amount.
  rewrite Ha, negb_involutive.
  destruct (num_leb a num_zero); reflexivity.
Qed.

Lemma py_float_cases (amount : amount_arg A) :
  non_numeric amount \/ exists a, py_float amount = Ok a.
Proof.
  destruct amount as [a|s]; simpl.
  - right. now exists a.
  - destruct (float_of_str s) as [a|]; [right; now exists a | now left].
Qed.

Lemma py_float_numeric (amount : amount_arg A) (a : A) :
  py_float amount = Ok a -> ~ non_numeric amount.
Proof.
  destruct amount as [b|s]; simpl; [tauto|].
  destruct (float_of_str s); [discriminate 2 | discriminate 1].
Qed.

(** The outcomes of [format_amount], for any type of numbers. *)
Lemma format_amount_outcomes (amount : amount_arg A) :
  ((exists msg, format_amount amount = Raise (ValueError msg))
   <-> (non_numeric amount
        \/ exists a, py_float amount = Ok a /\ num_leb a num_zero = true))
  /\ (forall a, py_float amount = Ok a ->
        format_amount amount
        = if num_leb a num_zero
          then Raise (ValueError "Error: amount must be > 0")
          else Ok (round2 a))
  /\ (non_numeric amount ->
      format_amount amount
      = Raise (ValueError "Error: amount must be a valid number")).
Proof.
  split; [|split; [apply format_amount_numeric | apply format_amount_non_numeric]].
  split.
  - intros [msg Hraise].
    destruct (py_float_cases amount) as [Hnon|[a Ha]]; [now left | right].
    exists a. split; [exact Ha|].
    rewrite (format_amount_numeric amount a Ha) in Hraise.
    destruct (num_leb a num_zero); [reflexivity | discriminate].
  - intros [Hnon|(a & Ha & Hle)].
    + eexists. now apply format_amount_non_numeric.
    + eexists. rewrite (format_amount_numeric amount a Ha), Hle. reflexivity.
Qed.
End AmountFacts.

Lemma float_ltb_leb (x y : float) :
  PrimFloat.ltb x y = true -> PrimFloat.leb x y = true.
Proof.
  rewrite ltb_spec, leb_spec. unfold SFltb, SFleb.
  destruct (SFcompare (Prim2SF x) (Prim2SF y)) as [[| |]|]; congruence.
Qed.

(** C8. On floats, whatever [float] and [round] compute, [format_amount]
    raises a [ValueError] exactly when its argument is not numeric
    ([float] raises on it) or its value is [<= 0]: the message is
    [Error: amount must be a valid number] in the first case and
    [Error: amount must be > 0] in the second; so 0 and every negative
    value are refused. Otherwise it returns the value rounded by
    [round(x, 2)], the rounding of the language; so 0.01 is accepted. *)
Theorem format_amount_rejects_non_positive :
  forall (builtins : Builtins float) (amount : amount_arg float),
    ((exists msg, format_amount amount = Raise (ValueError msg))
     <-> (non_numeric amount
          \/ exists a, py_float amount = Ok a /\ PrimFloat.leb a 0 = true))
    /\ (forall a, py_float amount = Ok a ->
          format_amount amount
          = if PrimFloat.leb a 0
            then Raise (ValueError "Error: amount must be > 0")
            else Ok (round2 a))
    /\ (non_numeric amount ->
        format_amount amount
        = Raise (ValueError "Error: amount must be a valid number"))
    /\ format_amount (Num 0%float)
       = Raise (ValueError "Error: amount must be > 0")
    /\ (forall a, PrimFloat.ltb a 0 = true ->
          format_amount (Num a) = Raise (ValueError "Error: amount must be > 0"))
    /\ format_amount (Num 0.01%float) = Ok (round2 0.01%float).
Proof.
  intros builtins amount.
  destruct (format_amount_outcomes amount) as (Hiff & Hnum & Hnon).
  split; [exact Hiff|]. split; [exact Hnum|]. split; [exact Hnon|].
  split; [reflexivity|]. split; [|reflexivity].
  intros a Ha. rewrite (format_amount_numeric (Num a) a eq_refl).
  change (@num_leb float float_num a num_zero) with (PrimFloat.leb a 0).
  now rewrite (float_ltb_leb a 0 Ha).
Qed.

(** ** The properties on the example data *)

(** An id whose suffix is not a number is skipped, an id of another
    date is not looked at. *)
Example generate_id_ledger :
  fst (generate_id example_service "2024-01-05" (world_of ledger))
  = Ok "EXP-20240105-0008"%string.
Proof. vm_compute. reflexivity. Qed.


(** Three expenses of 10, 20 and 30, two for food and one for
    transport, in January 2024. *)
Example summary_january :
  fst (summary example_service (Some "2024-01"%string) None None None
               (world_of january))
  = Ok (Summary.make 3 60%float
          [("food"%string, 30%float); ("transport"%string, 30%float)]
          "BDT" "(2024-01)").
Proof. vm_compute. reflexivity. Qed.

(** No expense in January 2025; the month takes the place of the from
    date in the description. *)
Example summary_empty :
  fst (summary example_service (Some "2025-01"%string)
               (Some "2025-01-01"%string) None None (world_of january))
  = Ok (Summary.make 0 0%float [] "BDT" "(2025-01)").
Proof. vm_compute. reflexivity. Qed.



(** Deleting a repeated id removes both records; a missing id leaves
    the file as it is. *)
Example delete_ledger :
  delete (storage example_service) "EXP-20240105-0007" (world_of ledger)
  = (Ok true,
     world_of (filter (fun exp => negb (has_id "EXP-20240105-0007" exp)) ledger))
  /\ map Expense.id
       (filter (fun exp => negb (has_id "EXP-20240105-0007" exp)) ledger)
     = ["EXP-20240120-0001"; "EXP-20240105-draft"; "EXP-20240211-0001"]%string
  /\ delete (storage example_service) "EXP-20240105-0099" (world_of ledger)
     = (Ok false, world_of ledger).
Proof. repeat split; vm_compute; reflexivity. Qed.

(** Editing the repeated id changes the first record with it only, and
    of it only the fields given. *)
Example edit_ledger :
  exists e w,
    edit_expense example_service "EXP-20240105-0007" None
      (Some " Groceries "%string) (Some (Str "41.005")) None None
      (world_of ledger)
    = (Ok (Some e), w)
    /\ e = Expense.make "EXP-20240105-0007" "2024-01-05" "groceries"
                        41.01%float "BDT" "" "2024-01-05 12:00:00"
    /\ match file w with
       | Document l =>
           map (fun x => (Expense.id x, Expense.category x)) l
           = [("EXP-20240120-0001", "food"); ("EXP-20240105-0007", "groceries");
              ("EXP-20240105-draft", "rent"); ("EXP-20240211-0001", "food");
              ("EXP-20240105-0007", "food")]%string
       | _ => False
       end.
Proof.
  do 2 eexists. split; [vm_compute; reflexivity|].
  split; vm_compute; reflexivity.
Qed.

(** Zero and negative amounts are refused, a cent is accepted, text
    that is not a number is refused, and rounding is that of
    [round(x, 2)] on the binary value. *)
Example format_amount_floats :
  format_amount (Num 0%float) = Raise (ValueError "Error: amount must be > 0")
  /\ format_amount (Num (-3)%float) = Raise (ValueError "Error: amount must be > 0")
  /\ format_amount (Num 0.01%float) = Ok 0.01%float
  /\ format_amount (A := float) (Str "ten")
     = Raise (ValueError "Error: amount must be a valid number")
  /\ format_amount (Str " 12.50 ") = Ok 12.5%float
  /\ format_amount (Num 10.005%float) = Ok 10.01%float
  /\ format_amount (Num 2.675%float) = Ok 2.67%float.
Proof. repeat split; vm_compute; reflexivity. Qed.

Example format_category_Food :
  format_category "  Food " = Ok "food"%string.
Proof. reflexivity. Qed.

Example lower_Food : PyStr.lower "Food" = "food"%string.
Proof. reflexivity. Qed.

Example split_id :
  PyStr.split "-" "EXP-20240115-0007" = ["EXP"; "20240115"; "0007"]%string.
Proof. reflexivity. Qed.

Example int_literals :
  PyStr.int "0007" = Some 7%Z
  /\ PyStr.int " +1_000 " = Some 1000%Z
  /\ PyStr.int "12a" = None
  /\ PyStr.int "" = None
  /\ PyStr.int "1__0" = None.
Proof. repeat split. Qed.

Example format_0d_examples :
  PyStr.format_0d 4 7 = "0007"%string /\ PyStr.format_0d 4 12345 = "12345"%string.
Proof. split; reflexivity. Qed.

Example strptime_examples :
  CPython.strptime_ymd "2024-02-29" = true
  /\ CPython.strptime_ymd "2023-02-29" = false
  /\ CPython.strptime_ymd "2024-13-01" = false
  /\ CPython.strptime_ymd "20240101" = false.
Proof. repeat split. Qed.

Lemma summary_over_date_sorted_selection_witness :
  exists sel s first rest,
    list_expenses example_service None None None None None None "date" false
                  None (world_of out_of_order)
    = (Ok sel, world_of out_of_order)
    /\ sel = first :: rest
    /\ Expense.date first = "2024-01-05"%string
    /\ summary example_service None None None None (world_of out_of_order)
       = (Ok s, world_of out_of_order)
    /\ Summary.currency s = Expense.currency first
    /\ hd_error (filter (fun e => String.eqb (Expense.date e) (Expense.date first))
                        (filter (satisfies None None None None None None)
                                out_of_order))
       = Some first.
Proof.
  destruct (summary_over_date_sorted_selection example_service out_of_order
              example_clock None None None None)
    as (sel & s & Hlist & Hsum & _ & _ & _ & _ & Hcur & Hfirst).
  assert (Hval :
    list_expenses example_service None None None None None None "date" false
                  None (world_of out_of_order)
    = (Ok (rev out_of_order), world_of out_of_order))
    by (vm_compute; reflexivity).
  unfold world_of in Hval. rewrite Hlist in Hval.
  inversion Hval as [Hsel]. clear Hval.
  exists sel, s, (Expense.make "EXP-20240105-0001" "2024-01-05" "food" 12%float
                               "EUR" "" "2024-02-02 09:00:00"),
         [Expense.make "EXP-20240201-0001" "2024-02-01" "rent" 500%float "USD" ""
                       "2024-02-01 09:00:00"].
  split; [exact Hlist|]. split; [exact Hsel|]. split; [reflexivity|].
  split; [exact Hsum|]. rewrite Hsel in Hcur. split; [exact Hcur|].
  exact (proj2 (proj2 (Hfirst _ _ Hsel))).
Defined.

Lemma summary_count_and_totals_witness :
  filter (satisfies (Some "2025-01"%string) None None None None None) january = []
  /\ exists s,
       summary example_service (Some "2025-01"%string) None None None
               (world_of january)
       = (Ok s, world_of january)
       /\ s = Summary.make 0 0%float [] "BDT" "(2025-01)".
Proof.
  split; [reflexivity|].
  destruct (summary_count_and_totals example_service january example_clock
              (Some "2025-01"%string) None None None)
    as (s & Hs & _ & _ & _ & _ & _ & _ & Hempty).
  exists s. split; [exact Hs | exact (Hempty eq_refl)].
Defined.


(** * Further properties *)

(** ** Fresh ids and the uniqueness of ids *)

Section FreshIds.
Context {A : Type} `{PyNum A} `{Builtins A}.

Lemma max_of_ge (n : Z) (ns : list Z) : In n ns -> (n <= max_of ns)%Z.
Proof.
  induction ns as [|m ns IH]; [contradiction|].
  simpl. intros [->|Hin]; [lia|]. specialize (IH Hin). lia.
Qed.

(** An id made of the prefix and a number above every suffix found is
    the id of no stored record. *)
Lemma next_id_fresh (p : string) (l : list (Expense A)) :
  ~ In (p ++ "-" ++ PyStr.format_0d 4 (max_of (matching_suffixes p l) + 1))%string
       (map Expense.id l).
Proof.
  intros Hin. apply in_map_iff in Hin as (e & Hid & He).
  pose proof (max_of_nonneg (matching_suffixes p l)) as Hm.
  assert (Hsuf : In (max_of (matching_suffixes p l) + 1)%Z (matching_suffixes p l)).
  { unfold matching_suffixes at 2. apply in_flat_map. exists e. split; [exact He|].
    rewrite Hid, PyStrFacts.startswith_append, id_suffix_generated by lia.
    now left. }
  apply max_of_ge in Hsuf. lia.
Qed.

End FreshIds.

Section AddOutcome.
Context {A : Type} `{PyNum A} `{Builtins A}.

(** What [format_date] returns, without touching the world. *)
Lemma format_date_cases (date : option string) (w : World A) :
  format_date date w
  = (Raise (ValueError "Error: date must be in YYYY-MM-DD format"), w)
  \/ exists d,
       format_date date w = (Ok d, w)
       /\ (d = substring 0 10 (clock w)
           \/ (date = Some d /\ validate_date d = true)).
Proof.
  unfold format_date, today, now, bind, ret, raise.
  destruct date as [d|]; [|right; eexists; split; [reflexivity | now left]].
  destruct (_ || _); [right; eexists; split; [reflexivity | now left]|].
  destruct (validate_date d) eqn:Hv; simpl.
  - right. exists d. split; [reflexivity | right; now split].
  - now left.
Qed.

Lemma format_amount_cases (amount : amount_arg A) :
  format_amount amount = Raise (ValueError "Error: amount must be > 0")
  \/ format_amount amount = Raise (ValueError "Error: amount must be a valid number")
  \/ exists a, format_amount amount = Ok a.
Proof.
  destruct (py_float_cases amount) as [Hnon|[a Ha]].
  - right. left. now apply format_amount_non_numeric.
  - rewrite (format_amount_numeric amount a Ha).
    destruct (num_leb a num_zero); [now left | right; right; now eexists].
Qed.

Lemma lower_nonempty (s : string) : s <> ""%string -> PyStr.lower s <> ""%string.
Proof. destruct s; [congruence | discriminate]. Qed.

(** [add_expense], step by step. *)
Lemma add_expense_steps (self : ExpenseService) (date : option string)
    (category : string) (amount : amount_arg A) (note currency : string)
    (w : World A) :
  add_expense self date category amount note currency w
  = match format_date date w with
    | (Raise x, w1) => (Raise x, w1)
    | (Ok d, w1) =>
        match format_amount amount with
        | Raise x => (Raise x, w1)
        | Ok a =>
            match format_category category with
            | Raise x => (Raise x, w1)
            | Ok k =>
                match generate_id self d w1 with
                | (Raise x, w2) => (Raise x, w2)
                | (Ok i, w2) =>
                    let e := Expense.make i d k a currency (PyStr.strip note)
                                          (clock w2) in
                    match add (storage self) e w2 with
                    | (Raise x, w3) => (Raise x, w3)
                    | (Ok _, w3) => (Ok e, w3)
                    end
                end
            end
        end
    end.
Proof.
  unfold add_expense, bind, lift, now, ret.
  destruct (format_date date w) as [[d|x1] w1]; [|reflexivity].
  destruct (format_amount amount); [|reflexivity].
  destruct (format_category category); [|reflexivity].
  destruct (generate_id self d w1) as [[i|x2] w2]; [|reflexivity].
  destruct (add _ _ w2) as [[u|x3] w3]; reflexivity.
Qed.

(** The two outcomes of [add_expense] on a stored collection. *)
Lemma add_expense_cases (self : ExpenseService) (l : list (Expense A))
    (c : string) (date : option string) (category : string)
    (amount : amount_arg A) (note currency : string) :
  let w := {| file := Document l; clock := c |} in
  (exists msg,
      In msg validation_messages
      /\ add_expense self date category amount note currency w
         = (Raise (ValueError msg), w))
  \/ (exists e,
        add_expense self date category amount note currency w
        = (Ok e, {| file := Document (l ++ [e]); clock := c |})
        /\ (Expense.date e = substring 0 10 c
            \/ (date = Some (Expense.date e)
                /\ validate_date (Expense.date e) = true))
        /\ format_amount amount = Ok (Expense.amount e)
        /\ Expense.category e = PyStr.lower (PyStr.strip category)
        /\ Expense.category e <> ""%string
        /\ Expense.currency e = currency
        /\ Expense.note e = PyStr.strip note
        /\ Expense.created_at e = c
        /\ Expense.id e
           = (date_prefix_of (Expense.date e) ++ "-"
              ++ PyStr.format_0d 4
                   (max_of (matching_suffixes (date_prefix_of (Expense.date e)) l)
                    + 1))%string
        /\ ~ In (Expense.id e) (map Expense.id l)).
Proof.
  intros w. rewrite add_expense_steps.
  destruct (format_date_cases date w) as [Hd|(d & Hd & Hdate)]; rewrite Hd.
  { left. eexists. split; [left; reflexivity | reflexivity]. }
  destruct (format_amount_cases amount) as [Ha|[Ha|[a Ha]]]; rewrite Ha.
  { left. eexists. split; [right; left; reflexivity | reflexivity]. }
  { left. eexists. split; [right; right; left; reflexivity | reflexivity]. }
  unfold format_category.
  destruct (validate_category category) eqn:Hc; simpl negb; cbv iota.
  2:{ left. eexists. split; [right; right; right; left; reflexivity|].
      reflexivity. }
  right. unfold w. rewrite generate_id_document, add_document. cbn [clock].
  eexists. split; [reflexivity|]. cbn [Expense.date Expense.amount
    Expense.category Expense.currency Expense.note Expense.created_at Expense.id].
  split; [exact Hdate|]. split; [reflexivity|]. split; [reflexivity|].
  split.
  { apply lower_nonempty. unfold validate_category in Hc.
    apply negb_true_iff, orb_false_iff in Hc as [_ Hs].
    now apply String.eqb_neq in Hs. }
  repeat (split; [reflexivity|]).
  apply next_id_fresh.
Qed.

End AddOutcome.

Section UniqueIds.
Context {A : Type} `{PyNum A} `{Builtins A}.

Lemma NoDup_map_filter {X Y : Type} (g : X -> Y) (f : X -> bool) (l : list X) :
  NoDup (map g l) -> NoDup (map g (filter f l)).
Proof.
  induction l as [|x l IH]; [trivial|].
  simpl. intros Hnd. inversion Hnd as [|? ? Hx Hl]; subst.
  destruct (f x); simpl; [|now apply IH].
  constructor; [|now apply IH].
  intros Hin. apply Hx. apply in_map_iff in Hin as (y & Hy & Hyin).
  apply in_map_iff. exists y. split; [exact Hy|].
  now apply filter_In in Hyin.
Qed.

Lemma delete_expense_document (self : ExpenseService) (l : list (Expense A))
    (c : string) (expense_id : string) :
  delete_expense self expense_id {| file := Document l; clock := c |}
  = (Ok (existsb (has_id expense_id) l),
     if existsb (has_id expense_id) l
     then {| file := Document (filter (fun exp => negb (has_id expense_id exp)) l);
             clock := c |}
     else {| file := Document l; clock := c |}).
Proof.
  unfold delete_expense, bind. rewrite delete_document.
  destruct (existsb (has_id expense_id) l); reflexivity.
Qed.

(** The ids after an update that gives no id. *)
Lemma update_keeps_ids (self : ExpenseStorage) (l : list (Expense A)) (c : string)
    (expense_id : string) (u : Updates A) :
  u_id u = None ->
  exists r l',
    update self expense_id u {| file := Document l; clock := c |}
    = (Ok r, {| file := Document l'; clock := c |})
    /\ map Expense.id l' = map Expense.id l.
Proof.
  intros Hid.
  destruct (update_document self l c expense_id u)
    as [(before & exp & after & Hl & _ & _ & Hrun)|[_ Hrun]]; rewrite Hrun.
  - do 2 eexists. split; [reflexivity|].
    subst l. rewrite !map_app. cbn [map]. unfold apply_updates at 1.
    cbn [Expense.id]. now rewrite Hid.
  - do 2 eexists. split; reflexivity.
Qed.

(** X3. When the ids of the stored records are pairwise distinct, they
    still are after [add_expense], after [delete_expense] and after
    [edit_expense], whatever the arguments and whether the call succeeds
    or not. *)
Theorem unique_ids_preserved :
  forall (self : ExpenseService) (l : list (Expense A)) (c : string)
         (date : option string) (category : string) (amount : amount_arg A)
         (note currency : string) (expense_id : string)
         (new_date new_category : option string)
         (new_amount : option (amount_arg A)) (new_note new_currency : option string),
    NoDup (map Expense.id l) ->
    let w := {| file := Document l; clock := c |} in
    unique_ids (file (snd (add_expense self date category amount note currency w)))
    /\ unique_ids (file (snd (delete_expense self expense_id w)))
    /\ unique_ids (file (snd (edit_expense self expense_id new_date new_category
                                           new_amount new_note new_currency w))).
Proof.
  intros self l c date category amount note currency expense_id
         new_date new_category new_amount new_note new_currency Hnd w.
  split; [|split].
  - destruct (add_expense_cases self l c date category amount note currency)
      as [(msg & _ & Hrun)|(e & Hrun & Hrest)]; fold w in Hrun; rewrite Hrun.
    + exact Hnd.
    + simpl. rewrite map_app. cbn [map].
      apply (Permutation_NoDup (Permutation_cons_append _ _)).
      constructor; [|exact Hnd].
      now repeat (destruct Hrest as [_ Hrest]).
  - unfold w. rewrite delete_expense_document.
    destruct (existsb (has_id expense_id) l); simpl; [|exact Hnd].
    now apply NoDup_map_filter.
  - destruct (edit_expense_updates self expense_id new_date new_category
                new_amount new_note new_currency w)
      as [(msg & Hrun)|(u & Hid & _ & _ & _ & _ & _ & _ & Hrun)]; rewrite Hrun.
    + exact Hnd.
    + destruct (update_keeps_ids (storage self) l c expense_id u Hid)
        as (r & l' & Hup & Hids).
      fold w in Hup. rewrite Hup. simpl. now rewrite Hids.
Qed.

(** X4. [delete_expense] undoes [add_expense]: on a stored collection,
    deleting the id of the record that [add_expense] has just returned
    reports a removal and puts the file back as it was before the
    addition. *)
Theorem delete_undoes_add :
  forall (self : ExpenseService) (l : list (Expense A)) (c : string)
         (date : option string) (category : string) (amount : amount_arg A)
         (note currency : string) (e : Expense A) (w1 : World A),
    let w := {| file := Document l; clock := c |} in
    add_expense self date category amount note currency w = (Ok e, w1) ->
    delete_expense self (Expense.id e) w1 = (Ok true, w).
Proof.
  intros self l c date category amount note currency e w1 w Hadd.
  destruct (add_expense_cases self l c date category amount note currency)
    as [(msg & _ & Hrun)|(e' & Hrun & Hrest)]; fold w in Hrun;
    rewrite Hrun in Hadd; [discriminate|].
  inversion Hadd; subst e' w1. clear Hadd Hrun.
  assert (Hfresh : ~ In (Expense.id e) (map Expense.id l))
    by now repeat (destruct Hrest as [_ Hrest]).
  rewrite delete_expense_document.
  assert (Hkeep : forallb (fun exp => negb (has_id (Expense.id e) exp)) l = true).
  { apply forallb_forall. intros x Hx. apply negb_true_iff.
    unfold has_id. apply String.eqb_neq. intros Heq.
    apply Hfresh. rewrite <- Heq. now apply in_map. }
  assert (He : has_id (Expense.id e) e = true)
    by (unfold has_id; apply String.eqb_refl).
  rewrite existsb_app, filter_app. cbn [existsb filter]. rewrite He.
  cbn [negb orb]. rewrite orb_true_r, app_nil_r.
  now rewrite (forallb_filter_id _ l Hkeep).
Qed.

(** X5. Deleting an id a second time finds nothing: whatever the first
    [delete_expense] did to a stored collection, the second one returns
    false and leaves the file as the first one left it. *)
Theorem delete_twice :
  forall (self : ExpenseService) (l : list (Expense A)) (c : string)
         (expense_id : string),
    let w1 := snd (delete_expense self expense_id
                                  {| file := Document l; clock := c |}) in
    delete_expense self expense_id w1 = (Ok false, w1).
Proof.
  intros self l c expense_id. cbv zeta.
  rewrite delete_expense_document.
  destruct (existsb (has_id expense_id) l) eqn:Hfound; cbn [snd];
    rewrite delete_expense_document.
  - assert (Hnone : existsb (has_id expense_id)
                      (filter (fun exp => negb (has_id expense_id exp)) l) = false).
    { destruct (existsb _ (filter _ l)) eqn:Hex; [|reflexivity].
      apply existsb_exists in Hex as (x & Hx & Hid).
      apply filter_In in Hx as [_ Hx]. rewrite Hid in Hx. discriminate. }
    now rewrite Hnone.
  - now rewrite Hfound.
Qed.
End UniqueIds.

Lemma unique_ids_preserved_witness :
  NoDup (map Expense.id january)
  /\ unique_ids (file (snd (add_expense example_service (Some "2024-01-15"%string)
                              "Food" (Num 12.5%float) "" "BDT" (world_of january))))
  /\ unique_ids (file (snd (delete_expense example_service "EXP-20240115-0002"
                              (world_of january))))
  /\ unique_ids (file (snd (edit_expense example_service "EXP-20240115-0002"
                              None (Some "Fuel"%string) None None None
                              (world_of january)))).
Proof.
  assert (Hnd : NoDup (map Expense.id january)).
  { repeat (constructor; [simpl; intuition discriminate|]). constructor. }
  split; [exact Hnd|].
  exact (unique_ids_preserved example_service january example_clock
           (Some "2024-01-15"%string) "Food" (Num 12.5%float) "" "BDT"
           "EXP-20240115-0002" None (Some "Fuel"%string) None None None Hnd).
Defined.

Lemma delete_undoes_add_witness :
  exists e w1,
    add_expense example_service (Some "2024-01-15"%string) "Food"
                (Num 12.5%float) "" "BDT" (world_of january)
    = (Ok e, w1)
    /\ Expense.id e = "EXP-20240115-0004"%string
    /\ delete_expense example_service (Expense.id e) w1
       = (Ok true, world_of january).
Proof.
  destruct (add_expense example_service (Some "2024-01-15"%string) "Food"
              (Num 12.5%float) "" "BDT" (world_of january))
    as [[e|x] w1] eqn:Hadd.
  - exists e, w1. split; [reflexivity|]. split.
    + vm_compute in Hadd. now inversion Hadd.
    + exact (delete_undoes_add example_service january example_clock
               (Some "2024-01-15"%string) "Food" (Num 12.5%float) "" "BDT"
               e w1 Hadd).
  - exfalso. vm_compute in Hadd. discriminate Hadd.
Defined.

(** ** Files that are missing or cannot be read *)

Section BrokenFiles.
Context {A : Type} `{PyNum A} `{Builtins A}.

Lemma load_all_broken (self : ExpenseStorage) (w : World A) (x : exn) :
  load_error self (file w) = Some x -> load_all self w = (Raise x, w).
Proof.
  destruct w as [f c]. unfold load_all, bind, read_file, raise. cbn [file].
  destruct f; simpl; intros Hx; inversion Hx; reflexivity.
Qed.

(** X6. A file that cannot be read, because it is not JSON or for any
    other reason, is never written: every operation of the storage and
    of the service that loads the collection raises the error of
    [load_all] and leaves the world as it is, and [add_expense] and
    [edit_expense], which validate first, raise as well and write
    nothing. *)
Theorem unreadable_file_is_never_written :
  forall (self : ExpenseService) (w : World A) (x : exn)
         (e : Expense A) (expense_id : string) (u : Updates A)
         (date month from_date to_date category : option string)
         (min_amount max_amount : option A) (sort_by d cat note currency : string)
         (descending : bool) (limit : option Z) (amount : amount_arg A)
         (new_category : option string) (new_amount : option (amount_arg A))
         (new_note new_currency : option string),
    load_error (storage self) (file w) = Some x ->
    load_all (storage self) w = (Raise x, w)
    /\ add (storage self) e w = (Raise x, w)
    /\ delete (storage self) expense_id w = (Raise x, w)
    /\ update (storage self) expense_id u w = (Raise x, w)
    /\ generate_id self d w = (Raise x, w)
    /\ list_expenses self month from_date to_date category min_amount max_amount
                     sort_by descending limit w
       = (Raise x, w)
    /\ summary self month from_date to_date category w = (Raise x, w)
    /\ delete_expense self expense_id w = (Raise x, w)
    /\ (exists y, add_expense self date cat amount note currency w = (Raise y, w))
    /\ (exists y, edit_expense self expense_id date new_category new_amount
                               new_note new_currency w = (Raise y, w)).
Proof.
  intros self w x e expense_id u date month from_date to_date category
         min_amount max_amount sort_by d cat note currency descending limit
         amount new_category new_amount new_note new_currency Hx.
  pose proof (load_all_broken (storage self) w x Hx) as Hload.
  split; [exact Hload|].
  split; [unfold add, bind; now rewrite Hload|].
  split; [unfold delete, bind; now rewrite Hload|].
  split; [unfold update, bind; now rewrite Hload|].
  split; [unfold generate_id, bind; now rewrite Hload|].
  assert (Hlist : forall m f t k mn mx sb ds lm,
             list_expenses self m f t k mn mx sb ds lm w = (Raise x, w))
    by (intros; unfold list_expenses, bind; now rewrite Hload).
  split; [apply Hlist|].
  split; [unfold summary, bind; now rewrite Hlist|].
  split; [unfold delete_expense, delete, bind; now rewrite Hload|].
  split.
  - rewrite add_expense_steps.
    destruct (format_date_cases date w) as [Hd|(d' & Hd & _)]; rewrite Hd;
      [now eexists|].
    destruct (format_amount amount); [|now eexists].
    destruct (format_category cat); [|now eexists].
    unfold generate_id, bind. rewrite Hload. now eexists.
  - destruct (edit_expense_updates self expense_id date new_category new_amount
                new_note new_currency w)
      as [(msg & Hrun)|(u' & _ & _ & _ & _ & _ & _ & _ & Hrun)]; rewrite Hrun.
    + now eexists.
    + unfold update, bind. rewrite Hload. now eexists.
Qed.

(** X7. A missing file is an empty collection, and is created: every
    operation that loads the collection returns, on a world without the
    file, what it returns on the world with the empty document, and
    leaves the world it leaves there; so after it the file exists. *)
Theorem missing_file_is_empty_collection :
  forall (self : ExpenseService) (c : string)
         (e : Expense A) (expense_id : string) (u : Updates A)
         (month from_date to_date category : option string)
         (min_amount max_amount : option A) (sort_by d : string)
         (descending : bool) (limit : option Z),
    let missing := {| file := Missing; clock := c |} in
    let empty := {| file := Document (@nil (Expense A)); clock := c |} in
    load_all (storage self) missing = (Ok [], empty)
    /\ add (storage self) e missing = add (storage self) e empty
    /\ delete (storage self) expense_id missing = (Ok false, empty)
    /\ update (storage self) expense_id u missing = (Ok None, empty)
    /\ generate_id self d missing = generate_id self d empty
    /\ list_expenses self month from_date to_date category min_amount max_amount
                     sort_by descending limit missing
       = (Ok [], empty)
    /\ summary self month from_date to_date category missing
       = (Ok (Summary.make 0 num_zero [] "BDT"
                (_get_period_description month from_date to_date)),
          empty)
    /\ delete_expense self expense_id missing = (Ok false, empty).
Proof.
  intros self c e expense_id u month from_date to_date category
         min_amount max_amount sort_by d descending limit missing empty.
  assert (Hlist : forall mn mx sb ds lm,
             list_expenses self month from_date to_date category mn mx
                           sb ds lm missing = (Ok [], empty)).
  { intros mn mx sb ds lm. unfold list_expenses, bind. simpl.
    rewrite apply_filters_spec, sort_expenses_spec. simpl.
    destruct ds; simpl; destruct lm as [n|]; simpl;
      try destruct (Z.ltb 0 n); try rewrite firstn_nil; reflexivity. }
  repeat split; try reflexivity.
  - apply Hlist.
  - unfold summary, bind. now rewrite Hlist.
Qed.
End BrokenFiles.

Lemma unreadable_file_is_never_written_witness :
  load_error (storage example_service) (file garbled)
  = Some (ValueError
            "Error: Data file is corrupted. Please check data/expenses.json")
  /\ delete_expense example_service "EXP-20240115-0001" garbled
     = (Raise (ValueError
                 "Error: Data file is corrupted. Please check data/expenses.json"),
        garbled)
  /\ exists y,
       add_expense example_service None "food" (Num 5%float) "" "BDT" garbled
       = (Raise y, garbled).
Proof.
  pose proof (unreadable_file_is_never_written example_service garbled
    (ValueError "Error: Data file is corrupted. Please check data/expenses.json")
    (Expense.make "" "" "" 0%float "" "" "") "EXP-20240115-0001"
    {| u_id := None; u_date := None; u_category := None; u_amount := None;
       u_currency := None; u_note := None; u_created_at := None |}
    None None None None None None None "date" "2024-01-15" "food" "" "BDT"
    false None (Num 5%float) None None None None eq_refl)
    as (_ & _ & _ & _ & _ & _ & _ & Hdel & Hadd & _).
  split; [reflexivity|]. split; [exact Hdel | exact Hadd].
Defined.

(** ** The order of the categories of a summary *)

Section CategoryOrder.
Context {A : Type} `{PyNum A}.

Lemma first_seen_snoc (ks : list string) (k : string) :
  first_seen (ks ++ [k])
  = if in_dec string_dec k ks then first_seen ks else first_seen ks ++ [k].
Proof.
  unfold first_seen. rewrite rev_app_distr. cbn [rev app nodup].
  destruct (in_dec string_dec k (rev ks)) as [Hin|Hout];
    destruct (in_dec string_dec k ks) as [Hin'|Hout']; try reflexivity.
  - exfalso. apply Hout'. now apply in_rev.
  - exfalso. apply Hout. now apply in_rev in Hin'.
Qed.

Lemma first_seen_in (ks : list string) (k : string) :
  In k (first_seen ks) <-> In k ks.
Proof.
  unfold first_seen. rewrite <- in_rev, nodup_In, <- in_rev. reflexivity.
Qed.

Lemma first_seen_nodup (ks : list string) : NoDup (first_seen ks).
Proof. unfold first_seen. apply NoDup_rev, NoDup_nodup. Qed.

Lemma keys_step (seen : list (Expense A)) (d : list (string * A)) (e : Expense A) :
  map fst d = first_seen (map Expense.category seen) ->
  map fst (add_to_category d e)
  = first_seen (map Expense.category (seen ++ [e])).
Proof.
  intros Hd. rewrite map_app. cbn [map]. rewrite first_seen_snoc.
  destruct (dict_mem (Expense.category e) d) eqn:Hmem.
  - rewrite (add_to_category_present d e Hmem), (dict_set_keys _ _ d Hmem).
    apply dict_mem_keys in Hmem. rewrite Hd in Hmem.
    apply (proj1 (first_seen_in _ _)) in Hmem.
    destruct (in_dec string_dec _ _) as [_|Hout]; [exact Hd | now elim Hout].
  - rewrite (add_to_category_absent d e Hmem), map_app. cbn [map fst].
    destruct (in_dec string_dec _ _) as [Hin|_]; [|now rewrite Hd].
    apply (proj2 (first_seen_in _ _)) in Hin. rewrite <- Hd in Hin.
    apply dict_mem_keys in Hin. congruence.
Qed.

Lemma keys_fold (es : list (Expense A)) :
  forall seen d,
    map fst d = first_seen (map Expense.category seen) ->
    map fst (fold_left add_to_category es d)
    = first_seen (map Expense.category (seen ++ es)).
Proof.
  induction es as [|e es IH]; intros seen d Hd; simpl.
  - now rewrite app_nil_r.
  - change (e :: es) with ([e] ++ es). rewrite app_assoc.
    apply IH, keys_step, Hd.
Qed.

(** X8. The categories of a summary come in the order in which they
    first appear among the selected records taken by date (records of
    one date in the order of the collection), each category once. *)
Theorem summary_categories_by_first_appearance :
  forall (self : ExpenseService) (l : list (Expense A)) (c : string)
         (month from_date to_date category : option string),
    exists s,
      summary self month from_date to_date category
              {| file := Document l; clock := c |}
      = (Ok s, {| file := Document l; clock := c |})
      /\ map fst (Summary.totals_by_category s)
         = first_seen (map Expense.category
                         (summarized l month from_date to_date category))
      /\ NoDup (map fst (Summary.totals_by_category s)).
Proof.
  intros self l c month from_date to_date category.
  eexists. split; [apply summary_document|].
  assert (Hkeys : forall es : list (Expense A),
             map fst (fold_left add_to_category es [])
             = first_seen (map Expense.category es))
    by (intros es; apply (keys_fold es [] []); reflexivity).
  destruct (summarized l month from_date to_date category) as [|first rest];
    cbn [Summary.totals_by_category].
  - split; [reflexivity | constructor].
  - rewrite Hkeys. split; [reflexivity | apply first_seen_nodup].
Qed.
End CategoryOrder.

(** ** The limit of a listing *)

Section Limit.
Context {A : Type} `{PyNum A} `{Builtins A}.

Lemma sort_perm_from {X : Type} (lt : X -> X -> bool) (l : list X) :
  forall acc,
    Permutation (acc ++ l) (fold_left (fun acc x => PySort.insort lt x acc) l acc).
Proof.
  induction l as [|x l IH]; intros acc; simpl.
  - now rewrite app_nil_r.
  - change (x :: l) with ([x] ++ l). rewrite app_assoc.
    eapply Permutation_trans; [|apply IH].
    apply Permutation_app_tail, PySortFacts.insort_perm.
Qed.

(** Sorting rearranges, whatever [<] is. *)
Lemma sorted_perm {X : Type} (lt : X -> X -> bool) (reverse : bool) (l : list X) :
  Permutation l (PySort.sorted lt reverse l).
Proof.
  unfold PySort.sorted, PySort.sort. destruct reverse.
  - eapply Permutation_trans; [apply Permutation_rev|].
    eapply Permutation_trans; [apply (sort_perm_from lt (rev l) [])|].
    apply Permutation_rev.
  - apply (sort_perm_from lt l []).
Qed.

(** X9. A limit only cuts the listing short: with a positive limit the
    result is the beginning of the listing without limit, of as many
    records as the limit says or as many as there are, whichever is
    less; a limit that is absent, zero or negative changes nothing.
    This holds for every sort key and every order of the amounts. *)
Theorem list_expenses_limit :
  forall (self : ExpenseService) (l : list (Expense A)) (c : string)
         (month from_date to_date category : option string)
         (min_amount max_amount : option A) (sort_by : string)
         (descending : bool) (limit : option Z),
    let w := {| file := Document l; clock := c |} in
    let matching :=
      filter (satisfies month from_date to_date category min_amount max_amount) l in
    exists full limited,
      list_expenses self month from_date to_date category min_amount max_amount
                    sort_by descending None w = (Ok full, w)
      /\ list_expenses self month from_date to_date category min_amount max_amount
                       sort_by descending limit w = (Ok limited, w)
      /\ List.length full = List.length matching
      /\ (exists rest, full = limited ++ rest)
      /\ List.length limited
         = match limit with
           | Some n => if Z.ltb 0 n
                       then Nat.min (Z.to_nat n) (List.length matching)
                       else List.length matching
           | None => List.length matching
           end.
Proof.
  intros self l c month from_date to_date category min_amount max_amount
         sort_by descending limit w matching.
  unfold w. rewrite !list_expenses_document. fold matching.
  set (full := PySort.sorted (sort_lt sort_by) descending matching).
  assert (Hlen : List.length full = List.length matching)
    by (symmetry; apply Permutation_length, sorted_perm).
  exists full, (truncated limit full).
  split; [reflexivity|]. split; [reflexivity|]. split; [exact Hlen|].
  unfold truncated. destruct limit as [n|]; [destruct (Z.ltb 0 n)|].
  - split.
    + exists (skipn (Z.to_nat n) full). symmetry. apply firstn_skipn.
    + now rewrite length_firstn, Hlen.
  - split; [exists []; now rewrite app_nil_r | exact Hlen].
  - split; [exists []; now rewrite app_nil_r | exact Hlen].
Qed.

(** X10. A record that was added is listed: after [add_expense] has
    returned a record, the listing without filters is a rearrangement of
    the records stored before and the new one, and the summary without
    filters counts one record more than were stored. *)
Theorem added_expense_is_listed :
  forall (self : ExpenseService) (l : list (Expense A)) (c : string)
         (date : option string) (category : string) (amount : amount_arg A)
         (note currency sort_by : string) (descending : bool)
         (e : Expense A) (w1 : World A),
    add_expense self date category amount note currency
                {| file := Document l; clock := c |}
    = (Ok e, w1) ->
    exists listed s,
      list_expenses self None None None None None None sort_by descending None w1
      = (Ok listed, w1)
      /\ Permutation (e :: l) listed
      /\ summary self None None None None w1 = (Ok s, w1)
      /\ Summary.count s = S (List.length l).
Proof.
  intros self l c date category amount note currency sort_by descending e w1 Hadd.
  destruct (add_expense_cases self l c date category amount note currency)
    as [(msg & _ & Hrun)|(e' & Hrun & _)]; cbv zeta in Hrun;
    rewrite Hrun in Hadd; [discriminate|].
  inversion Hadd; subst e' w1; clear Hadd.
  assert (Hall : forall l' : list (Expense A),
             filter (satisfies None None None None None None) l' = l')
    by (intros l'; apply filter_always).
  eexists. eexists.
  split; [apply list_expenses_document|].
  unfold truncated. rewrite Hall.
  split.
  { eapply Permutation_trans; [|apply sorted_perm].
    apply Permutation_cons_append. }
  split; [apply summary_document|].
  unfold summarized. rewrite Hall.
  pose proof (Permutation_length
                (sorted_perm (sort_lt "date") false (l ++ [e]))) as Hlen.
  rewrite length_app in Hlen. cbn [List.length] in Hlen.
  destruct (PySort.sorted (sort_lt "date") false (l ++ [e])) as [|first rest];
    cbn [Summary.count]; cbn [List.length] in *; lia.
Qed.
End Limit.

Lemma added_expense_is_listed_witness :
  exists e w1 listed s,
    add_expense example_service (Some "2024-01-15"%string) "Food"
                (Num 12.5%float) "" "BDT" (world_of january)
    = (Ok e, w1)
    /\ list_expenses example_service None None None None None None
                     "amount" true None w1
       = (Ok listed, w1)
    /\ Permutation (e :: january) listed
    /\ summary example_service None None None None w1 = (Ok s, w1)
    /\ Summary.count s = 4.
Proof.
  destruct (add_expense example_service (Some "2024-01-15"%string) "Food"
              (Num 12.5%float) "" "BDT" (world_of january))
    as [[e|x] w1] eqn:Hadd.
  - destruct (added_expense_is_listed example_service january example_clock
                (Some "2024-01-15"%string) "Food" (Num 12.5%float) "" "BDT"
                "amount" true e w1 Hadd)
      as (listed & s & Hlist & Hperm & Hsum & Hcount).
    exists e, w1, listed, s.
    split; [reflexivity|]. split; [exact Hlist|]. split; [exact Hperm|].
    split; [exact Hsum | exact Hcount].
  - exfalso. vm_compute in Hadd. discriminate Hadd.
Defined.

(** ** The normal form of a category *)

Section CategoryNormalForm.
Context {A : Type} `{PyNum A} `{Builtins A}.













End CategoryNormalForm.


(** ** Records and their dicts *)

Section ModelFacts.
Context {A : Type}.

(** X12. The dict of a record gives the record back; updating it with
    some fields and reading it gives the record with these fields set,
    which is how [update] changes a record; a dict updated with the dict
    of a record reads as that record; the fields [currency], [note] and
    [created_at] may be missing and default to BDT and the empty string,
    and a dict can be read exactly when it has the other four. *)
Theorem from_dict_to_dict :
  forall (e : Expense A) (d : Updates A),
    from_dict (to_dict e) = Some e
    /\ from_dict (dict_update (to_dict e) d) = Some (apply_updates e d)
    /\ from_dict (dict_update d (to_dict e)) = Some e
    /\ (from_dict d = None <->
        u_id d = None \/ u_date d = None \/ u_category d = None
        \/ u_amount d = None)
    /\ (forall r, from_dict d = Some r ->
          to_dict r
          = dict_update
              {| u_id := None; u_date := None; u_category := None;
                 u_amount := None; u_currency := Some "BDT"%string;
                 u_note := Some ""%string; u_created_at := Some ""%string |}
              d).
Proof.
  intros [i dt k a cu n ca] [ui ud uk ua uc un uca].
  split; [reflexivity|]. split.
  { unfold from_dict, dict_update, to_dict, apply_updates, updated, or_else.
    cbn. destruct ui, ud, uk, ua, uc, un, uca; reflexivity. }
  split; [reflexivity|]. split.
  - unfold from_dict. cbn.
    destruct ui, ud, uk, ua; split; intros Hn; try discriminate; try tauto;
      destruct Hn as [Hn|[Hn|[Hn|Hn]]]; discriminate.
  - intros r. unfold from_dict. cbn.
    destruct ui, ud, uk, ua; intros Hr; inversion Hr; subst r.
    destruct uc, un, uca; reflexivity.
Qed.
End ModelFacts.

(** ** The command line *)

Section CommandLine.
Context {A : Type} `{PyNum A} `{Builtins A} `{Printing A}.

Lemma service_init (w : World A) :
  ExpenseService_init None w = (Ok default_service, ensured w).
Proof. destruct w as [[| | |l] c]; reflexivity. Qed.

Lemma ensured_present (w : World A) : file (ensured w) <> Missing.
Proof. destruct w as [[| | |l] c]; discriminate. Qed.

Lemma ensured_clock (w : World A) : clock (ensured w) = clock w.
Proof. destruct w as [[| | |l] c]; reflexivity. Qed.

(** A file that is there is a collection or cannot be read. *)
Lemma present_cases (w : World A) (self : ExpenseStorage) :
  file w <> Missing ->
  (exists msg, load_error self (file w) = Some (ValueError msg))
  \/ (exists l, file w = Document l).
Proof.
  destruct w as [[| | |l] c]; intros Hp; [now elim Hp| | |].
  - left. now eexists.
  - left. now eexists.
  - right. now exists l.
Qed.

Lemma add_expense_present (self : ExpenseService) (date : option string)
    (category : string) (amount : amount_arg A) (note currency : string)
    (w : World A) :
  file w <> Missing ->
  (exists msg,
      add_expense self date category amount note currency w
      = (Raise (ValueError msg), w)
      /\ (In msg validation_messages
          \/ load_error (storage self) (file w) = Some (ValueError msg)))
  \/ (exists e l,
        add_expense self date category amount note currency w
        = (Ok e, {| file := Document (l ++ [e]); clock := clock w |})).
Proof.
  intros Hp.
  destruct (present_cases w (storage self) Hp) as [[msg Hx]|[l Hw]].
  - left. rewrite add_expense_steps.
    destruct (format_date_cases date w) as [Hd|(d' & Hd & _)]; rewrite Hd.
    { eexists. split; [reflexivity | left; simpl; tauto]. }
    destruct (format_amount_cases amount) as [Ha|[Ha|[a Ha]]]; rewrite Ha.
    { eexists. split; [reflexivity | left; simpl; tauto]. }
    { eexists. split; [reflexivity | left; simpl; tauto]. }
    unfold format_category.
    destruct (validate_category category); cbn [negb].
    2:{ eexists. split; [reflexivity | left; simpl; tauto]. }
    unfold generate_id, bind. rewrite (load_all_broken _ w _ Hx).
    exists msg. split; [reflexivity | now right].
  - destruct w as [f c]. cbn [file clock] in *. subst f.
    destruct (add_expense_cases self l c date category amount note
                currency) as [(msg & Hin & Hrun)|(e & Hrun & _)];
      cbv zeta in Hrun; rewrite Hrun.
    + left. exists msg. split; [reflexivity | now left].
    + right. now exists e, l.
Qed.

Lemma list_expenses_present (self : ExpenseService)
    (month from_date to_date category : option string)
    (min_amount max_amount : option A) (sort_by : string) (descending : bool)
    (limit : option Z) (w : World A) :
  file w <> Missing ->
  (exists msg,
      list_expenses self month from_date to_date category min_amount max_amount
                    sort_by descending limit w
      = (Raise (ValueError msg), w)
      /\ load_error (storage self) (file w) = Some (ValueError msg))
  \/ (exists r,
        list_expenses self month from_date to_date category min_amount
                      max_amount sort_by descending limit w
        = (Ok r, w)).
Proof.
  intros Hp.
  destruct (present_cases w (storage self) Hp) as [[msg Hx]|[l Hw]].
  - left. exists msg. split; [|exact Hx].
    unfold list_expenses, bind. now rewrite (load_all_broken _ w _ Hx).
  - right. destruct w as [f c]. cbn [file] in Hw. subst f.
    rewrite list_expenses_document. now eexists.
Qed.

Lemma summary_present (self : ExpenseService)
    (month from_date to_date category : option string) (w : World A) :
  file w <> Missing ->
  (exists msg,
      summary self month from_date to_date category w
      = (Raise (ValueError msg), w)
      /\ load_error (storage self) (file w) = Some (ValueError msg))
  \/ (exists s,
        summary self month from_date to_date category w = (Ok s, w)).
Proof.
  intros Hp.
  destruct (present_cases w (storage self) Hp) as [[msg Hx]|[l Hw]].
  - left. exists msg. split; [|exact Hx].
    unfold summary, list_expenses, bind. now rewrite (load_all_broken _ w _ Hx).
  - right. destruct w as [f c]. cbn [file] in Hw. subst f.
    rewrite summary_document. now eexists.
Qed.

Lemma delete_expense_present (self : ExpenseService) (expense_id : string)
    (w : World A) :
  file w <> Missing ->
  (exists msg,
      delete_expense self expense_id w = (Raise (ValueError msg), w)
      /\ load_error (storage self) (file w) = Some (ValueError msg))
  \/ delete_expense self expense_id w = (Ok false, w)
  \/ (exists l,
        delete_expense self expense_id w
        = (Ok true, {| file := Document l; clock := clock w |})).
Proof.
  intros Hp.
  destruct (present_cases w (storage self) Hp) as [[msg Hx]|[l Hw]].
  - left. exists msg. split; [|exact Hx].
    unfold delete_expense, delete, bind. now rewrite (load_all_broken _ w _ Hx).
  - right. destruct w as [f c]. cbn [file clock] in *. subst f.
    rewrite delete_expense_document.
    destruct (existsb (has_id expense_id) l); [right; now eexists | now left].
Qed.

Lemma edit_expense_present (self : ExpenseService) (expense_id : string)
    (date category : option string) (amount : option (amount_arg A))
    (note currency : option string) (w : World A) :
  file w <> Missing ->
  (exists msg,
      edit_expense self expense_id date category amount note currency w
      = (Raise (ValueError msg), w))
  \/ edit_expense self expense_id date category amount note currency w
     = (Ok None, w)
  \/ (exists r l,
        edit_expense self expense_id date category amount note currency w
        = (Ok (Some r), {| file := Document l; clock := clock w |})).
Proof.
  intros Hp.
  destruct (edit_expense_updates self expense_id date category amount note
              currency w) as [(msg & Hrun)|(u & _ & _ & _ & _ & _ & _ & _ & Hrun)];
    rewrite Hrun; [left; now exists msg|].
  destruct (present_cases w (storage self) Hp) as [[msg Hx]|[l Hw]].
  - left. exists msg. unfold update, bind. now rewrite (load_all_broken _ w _ Hx).
  - right. destruct w as [f c]. cbn [file clock] in *. subst f.
    destruct (update_document (storage self) l c expense_id u)
      as [(before & exp & after & _ & _ & _ & Hup)|[_ Hup]]; rewrite Hup.
    + right. now do 2 eexists.
    + now left.
Qed.

Lemma all_stdout {X : Type} (g : X -> event) (l : list X) :
  (forall x, is_stdout (g x) = true) -> forallb is_stdout (map g l) = true.
Proof.
  intros Hg. induction l as [|x l IH]; [reflexivity|].
  simpl. now rewrite Hg, IH.
Qed.

(** X13. How a run of the program ends, for every command and every
    state of the file. It returns or exits with status 1, and the clock
    is not touched. (What is printed is what [print] writes.) When it
    returns, nothing was printed to the standard error and the file
    holds a collection. When it exits with status 1,
    either no command was given, the help is all that was printed and the
    file was not touched, not even created; or one line was printed to
    the standard error, nothing to the standard output, and the file is
    as it was found, except that a missing file has been created, empty.
    [list] and [summary] leave the file as it was found in every case. *)
Theorem main_exit_discipline :
  forall (args : Args A) (w : World A),
    exists events out w',
      main args w = ((events, out), w')
      /\ clock w' = clock w
      /\ match args with
         | list_args _ _ _ _ _ _ _ _ _ _ => w' = ensured w
         | summary_args _ _ _ _ => w' = ensured w
         | _ => True
         end
      /\ ((out = Returned
           /\ forallb is_stdout events = true
           /\ exists l, file w' = Document l)
          \/ (out = Exit 1 /\ args = no_command /\ events = [Help] /\ w' = w)
          \/ (out = Exit 1 /\ args <> no_command
              /\ (exists msg, events = [Stderr msg])
              /\ w' = ensured w)).
Proof.
  intros args w.
  pose proof (ensured_present w) as Hp. pose proof (ensured_clock w) as Hc.
  destruct args as [|date category amount note currency
                    |month from_date to_date category mn mx sort desc limit format
                    |month from_date to_date category
                    |id
                    |id date category amount note currency];
    unfold main; try rewrite service_init; cbv zeta.
  - do 3 eexists. split; [reflexivity|]. split; [reflexivity|].
    split; [exact I|]. right. left. now repeat split.
  - unfold ExpenseCLI.add. cbn [ExpenseCLI.service].
    destruct (add_expense_present default_service date category (Num amount)
                (or_else note "") currency (ensured w) Hp)
      as [(msg & Hrun & _)|(e & l & Hrun)]; rewrite Hrun.
    + do 3 eexists. split; [reflexivity|]. split; [exact Hc|]. split; [easy|].
      right. right. repeat split; [discriminate | now eexists].
    + do 3 eexists. split; [reflexivity|]. split; [exact Hc|]. split; [easy|].
      left. repeat split. now eexists.
  - unfold ExpenseCLI.list. cbn [ExpenseCLI.service].
    destruct (list_expenses_present default_service month from_date to_date
                category mn mx sort desc limit (ensured w) Hp)
      as [(msg & Hrun & _)|(r & Hrun)]; rewrite Hrun.
    + do 3 eexists. split; [reflexivity|]. split; [exact Hc|]. split; [easy|].
      right. right. repeat split; [discriminate | now eexists].
    + assert (Hdoc : exists l, file (ensured w) = Document l).
      { destruct (present_cases (ensured w) (storage default_service) Hp)
          as [[msg Hx]|Hw]; [|exact Hw].
        unfold list_expenses, bind in Hrun.
        rewrite (load_all_broken _ _ _ Hx) in Hrun. discriminate. }
      destruct (String.eqb format "table"); [|destruct (String.eqb format "csv")];
        do 3 eexists; (split; [reflexivity|]); (split; [exact Hc|]); (split; [reflexivity|]); left;
        (split; [reflexivity|]); (split; [|exact Hdoc]); try reflexivity.
      unfold ExpenseCLI._print_csv. destruct r as [|e r]; [reflexivity|].
      cbn [forallb is_stdout andb]. now apply all_stdout.
  - unfold ExpenseCLI.summary. cbn [ExpenseCLI.service].
    destruct (summary_present default_service month from_date to_date
                category (ensured w) Hp)
      as [(msg & Hrun & _)|(s & Hrun)]; rewrite Hrun.
    + do 3 eexists. split; [reflexivity|]. split; [exact Hc|]. split; [easy|].
      right. right. repeat split; [discriminate | now eexists].
    + assert (Hdoc : exists l, file (ensured w) = Document l).
      { destruct (present_cases (ensured w) (storage default_service) Hp)
          as [[msg Hx]|Hw]; [|exact Hw].
        unfold summary, list_expenses, bind in Hrun.
        rewrite (load_all_broken _ _ _ Hx) in Hrun. discriminate. }
      do 3 eexists. split; [reflexivity|]. split; [exact Hc|]. split; [easy|]. left.
      split; [reflexivity|]. split; [|exact Hdoc].
      cbn [app forallb is_stdout andb].
      destruct (Summary.totals_by_category s) as [|kv r]; [reflexivity|].
      cbn [forallb is_stdout andb]. apply all_stdout. now intros [k v].
  - unfold ExpenseCLI.delete. cbn [ExpenseCLI.service].
    destruct (delete_expense_present default_service id (ensured w) Hp)
      as [(msg & Hrun & _)|[Hrun|(l & Hrun)]]; rewrite Hrun.
    + do 3 eexists. split; [reflexivity|]. split; [exact Hc|]. split; [easy|].
      right. right. repeat split; [discriminate | now eexists].
    + do 3 eexists. split; [reflexivity|]. split; [exact Hc|]. split; [easy|].
      right. right. repeat split; [discriminate | now eexists].
    + do 3 eexists. split; [reflexivity|]. split; [exact Hc|]. split; [easy|].
      left. repeat split. now eexists.
  - unfold ExpenseCLI.edit. cbn [ExpenseCLI.service].
    destruct (negb _).
    { do 3 eexists. split; [reflexivity|]. split; [exact Hc|]. split; [easy|].
      right. right. repeat split; [discriminate | now eexists]. }
    destruct (edit_expense_present default_service id date category
                (option_map Num amount) note currency (ensured w) Hp)
      as [(msg & Hrun)|[Hrun|(r & l & Hrun)]]; rewrite Hrun.
    + do 3 eexists. split; [reflexivity|]. split; [exact Hc|]. split; [easy|].
      right. right. repeat split; [discriminate | now eexists].
    + do 3 eexists. split; [reflexivity|]. split; [exact Hc|]. split; [easy|].
      right. right. repeat split; [discriminate | now eexists].
    + do 3 eexists. split; [reflexivity|]. split; [exact Hc|]. split; [easy|].
      left. repeat split. now eexists.
Qed.
End CommandLine.

(** ** What the commands print *)

Section Output.
Context {A : Type} `{PyNum A} `{Builtins A} `{Printing A}.

Lemma length_append (a b : string) :
  String.length (a ++ b) = String.length a + String.length b.
Proof. induction a as [|x a IH]; simpl; [reflexivity | now rewrite IH]. Qed.

Lemma length_of_list (cs : list ascii) :
  String.length (string_of_list_ascii cs) = List.length cs.
Proof. induction cs as [|x cs IH]; simpl; [reflexivity | now rewrite IH]. Qed.

Lemma length_ljust (s : string) (w : nat) :
  String.length (PyFormat.ljust s w) = Nat.max (String.length s) w.
Proof.
  unfold PyFormat.ljust. rewrite length_append, length_of_list, repeat_length. lia.
Qed.

Lemma length_row (a b c d e : string) :
  String.length (PyFormat.join "  " [a; b; c; d; e])
  = String.length a + String.length b + String.length c + String.length d
    + String.length e + 8.
Proof.
  unfold PyFormat.join. cbn [String.concat]. rewrite !length_append.
  cbn [String.length]. lia.
Qed.

Lemma max_len_ge {X : Type} (f : X -> string) (l : list X) (x : X) :
  In x l -> String.length (f x) <= PyFormat.max_len f l.
Proof.
  unfold PyFormat.max_len. induction l as [|y l IH]; [contradiction|].
  intros [->|Hin]; simpl; [lia|]. specialize (IH Hin). lia.
Qed.

Lemma no_note_empty (l : list (Expense A)) (x : Expense A) :
  existsb (fun exp => negb (String.eqb (Expense.note exp) "")) l = false ->
  In x l -> String.length (Expense.note x) = 0.
Proof.
  intros Hno Hin.
  destruct (String.eqb_spec (Expense.note x) "") as [->|Hne]; [reflexivity|].
  assert (Hex : existsb (fun exp => negb (String.eqb (Expense.note exp) "")) l = true).
  { apply existsb_exists. exists x. split; [exact Hin|].
    now apply negb_true_iff, String.eqb_neq. }
  congruence.
Qed.

(** X14. The table of a listing is aligned when every row fits its
    columns (a date of at most ten characters, an amount with its
    currency of at most ten): it is a header, a rule of dashes as long
    as the header, and one row for each record, in the order of the
    listing and starting with the id of its record, and every row is as
    long as the header, which has at least 42 characters. *)
Theorem format_expense_table_aligned :
  forall expenses : list (Expense A),
    expenses <> [] ->
    Forall fits_columns expenses ->
    exists header rows,
      ExpenseCLI.format_expense_table expenses
      = PyFormat.join PyFormat.newline
          (header :: PyFormat.times "-" (String.length header) :: rows)
      /\ 42 <= String.length header
      /\ Forall (fun row => String.length row = String.length header) rows
      /\ Forall2 (fun exp row => String.prefix (Expense.id exp) row = true)
                 expenses rows.
Proof.
  intros expenses Hne Hfit.
  destruct expenses as [|e0 es]; [congruence|]. clear Hne.
  set (expenses := e0 :: es) in *.
  unfold ExpenseCLI.format_expense_table. fold expenses.
  cbv zeta. cbn [nth seq map List.length app].
  change (String.length "ID") with 2. change (String.length "Date") with 4.
  change (String.length "Category") with 8. change (String.length "Amount") with 6.
  change (String.length "Note") with 4.
  set (w0 := Nat.max 2 (PyFormat.max_len Expense.id expenses)).
  set (w2 := Nat.max 8 (PyFormat.max_len Expense.category expenses)).
  set (w4 := Nat.max 4 (if existsb _ expenses then _ else 4)).
  assert (Hw0 : forall exp, In exp expenses -> String.length (Expense.id exp) <= w0).
  { intros exp Hin. pose proof (max_len_ge Expense.id expenses exp Hin). lia. }
  assert (Hw2 : forall exp, In exp expenses ->
                 String.length (Expense.category exp) <= w2).
  { intros exp Hin. pose proof (max_len_ge Expense.category expenses exp Hin). lia. }
  assert (Hw4 : forall exp, In exp expenses -> String.length (Expense.note exp) <= w4).
  { intros exp Hin. unfold w4.
    destruct (existsb _ expenses) eqn:Hany.
    - pose proof (max_len_ge Expense.note expenses exp Hin). lia.
    - rewrite (no_note_empty expenses exp Hany Hin). lia. }
  unfold expenses at 1.
  do 2 eexists. split; [reflexivity|].
  rewrite length_row, !length_ljust. cbn [String.length].
  split; [lia|]. split.
  - apply Forall_map, Forall_forall. intros exp Hin.
    rewrite length_row, !length_ljust.
    specialize (Hw0 exp Hin). specialize (Hw2 exp Hin). specialize (Hw4 exp Hin).
    rewrite Forall_forall in Hfit. destruct (Hfit exp Hin) as [Hd Ha].
    change (Nat.max 4 10) with 10. change (Nat.max 6 10) with 10. lia.
  - clearbody expenses w0 w2 w4. clear. induction expenses as [|exp l IH]; simpl.
    + constructor.
    + constructor; [|exact IH].
      unfold PyFormat.join, PyFormat.ljust. cbn [String.concat].
      rewrite PyStrFacts.append_assoc.
      apply (PyStrFacts.startswith_append (Expense.id exp)).
Qed.
End Output.

Lemma format_expense_table_aligned_witness :
  Forall fits_columns january
  /\ exists header rows,
       ExpenseCLI.format_expense_table january
       = PyFormat.join PyFormat.newline
           (header :: PyFormat.times "-" (String.length header) :: rows)
       /\ 42 <= String.length header
       /\ Forall (fun row => String.length row = String.length header) rows
       /\ Forall2 (fun exp row => String.prefix (Expense.id exp) row = true)
                  january rows.
Proof.
  assert (Hfit : Forall fits_columns january)
    by (repeat constructor; vm_compute; lia).
  split; [exact Hfit|].
  apply (format_expense_table_aligned january); [discriminate | exact Hfit].
Defined.

Section Commands.
Context {A : Type} `{PyNum A} `{Builtins A} `{Printing A}.

Lemma edit_field_messages {X Y : Type} (arg : option X) (fmt : X -> IO A Y)
    (w : World A) :
  (forall x,
      (exists msg, In msg validation_messages
                   /\ fmt x w = (Raise (ValueError msg), w))
      \/ (exists y, fmt x w = (Ok y, w))) ->
  (exists msg, In msg validation_messages
               /\ edit_field arg fmt w = (Raise (ValueError msg), w))
  \/ (exists r, edit_field arg fmt w = (Ok r, w)).
Proof.
  intros Hfmt. destruct arg as [x|]; simpl; [|right; now eexists].
  unfold bind. destruct (Hfmt x) as [(msg & Hin & Hrun)|(y & Hrun)]; rewrite Hrun.
  - left. now exists msg.
  - right. now eexists.
Qed.

(** [edit_expense] fails on validation, with one of its messages, or
    calls [update] with updates that give no id. *)
Lemma edit_expense_cases (self : ExpenseService) (expense_id : string)
    (date category : option string) (amount : option (amount_arg A))
    (note currency : option string) (w : World A) :
  (exists msg,
      In msg validation_messages
      /\ edit_expense self expense_id date category amount note currency w
         = (Raise (ValueError msg), w))
  \/ (exists u,
        u_id u = None /\ u_created_at u = None
        /\ edit_expense self expense_id date category amount note currency w
           = update (storage self) expense_id u w).
Proof.
  unfold edit_expense.
  destruct (edit_field_messages date (fun d => format_date (Some d)) w)
    as [(msg & Hin & Hd)|(d' & Hd)].
  { intros d. destruct (format_date_cases (Some d) w) as [Hr|(d' & Hr & _)].
    - left. eexists. split; [|exact Hr]. simpl. tauto.
    - right. now exists d'. }
  { left. exists msg. split; [exact Hin|]. unfold bind at 1. now rewrite Hd. }
  destruct (edit_field_messages category (fun k => lift (format_category k)) w)
    as [(msg & Hin & Hk)|(k' & Hk)].
  { intros k. unfold lift, format_category.
    destruct (validate_category k); cbn [negb].
    - right. now eexists.
    - left. eexists. split; [|reflexivity]. simpl. tauto. }
  { left. exists msg. split; [exact Hin|]. unfold bind at 1. rewrite Hd.
    unfold bind at 1. now rewrite Hk. }
  destruct (edit_field_messages amount (fun a => lift (format_amount a)) w)
    as [(msg & Hin & Ha)|(a' & Ha)].
  { intros a. unfold lift.
    destruct (format_amount_cases a) as [Hr|[Hr|[a' Hr]]]; rewrite Hr.
    - left. eexists. split; [|reflexivity]. simpl. tauto.
    - left. eexists. split; [|reflexivity]. simpl. tauto.
    - right. now eexists. }
  { left. exists msg. split; [exact Hin|]. unfold bind at 1. rewrite Hd.
    unfold bind at 1. rewrite Hk. unfold bind at 1. now rewrite Ha. }
  right.
  exists {| u_id := None; u_date := d'; u_category := k'; u_amount := a';
            u_currency := currency; u_note := option_map PyStr.strip note;
            u_created_at := None |}.
  split; [reflexivity|]. split; [reflexivity|].
  unfold bind at 1. rewrite Hd. unfold bind at 1. rewrite Hk.
  unfold bind at 1. rewrite Ha.
  unfold bind, ret. destruct (update _ _ _ w) as [[r|e] w']; reflexivity.
Qed.

(** X15. On a file that cannot be read every command exits with status
    1, with one line printed to the standard error, and leaves the file
    as it is. [list] and [summary] print the error of [load_all]; [delete]
    prints it behind one more [Error: ]; [add] and [edit] print it
    unless a validation error, or the refusal of [edit] to run without a
    field, comes first. *)
Theorem commands_on_unreadable_file :
  forall (args : Args A) (w : World A) (x : string),
    load_error (storage default_service) (file w) = Some (ValueError x) ->
    args <> no_command ->
    exists msg,
      main args w = (([Stderr msg], Exit 1), w)
      /\ match args with
         | no_command => False
         | list_args _ _ _ _ _ _ _ _ _ _ => msg = x
         | summary_args _ _ _ _ => msg = x
         | delete_args _ => msg = ("Error: " ++ x)%string
         | add_args _ _ _ _ _ => msg = x \/ In msg validation_messages
         | edit_args _ _ _ _ _ _ =>
             msg = x \/ In msg validation_messages
             \/ msg = "Error: At least one field must be provided to edit"%string
         end.
Proof.
  intros args w x Hx Hcmd.
  assert (Hw : ensured w = w).
  { destruct w as [[| | |l] c]; try reflexivity. discriminate Hx. }
  assert (Hp : file w <> Missing).
  { intros Hm. rewrite Hm in Hx. discriminate Hx. }
  pose proof (load_all_broken (storage default_service) w _ Hx) as Hload.
  destruct args as [|date category amount note currency
                    |month from_date to_date category mn mx sort desc limit format
                    |month from_date to_date category
                    |id
                    |id date category amount note currency];
    [now elim Hcmd| | | | |];
    unfold main; rewrite service_init, Hw; cbv zeta.
  - unfold ExpenseCLI.add. cbn [ExpenseCLI.service].
    destruct (add_expense_present default_service date category (Num amount)
                (or_else note "") currency w Hp)
      as [(msg & Hrun & Hmsg)|(e & l & Hrun)]; rewrite Hrun.
    + exists msg. split; [reflexivity|].
      destruct Hmsg as [Hin|Hl]; [now right | left; congruence].
    + exfalso. rewrite add_expense_steps in Hrun.
      destruct (format_date_cases date w) as [Hd|(d' & Hd & _)];
        rewrite Hd in Hrun; [discriminate|].
      destruct (format_amount (Num amount)); [|discriminate].
      destruct (format_category category); [|discriminate].
      unfold generate_id, bind in Hrun. rewrite Hload in Hrun. discriminate.
  - unfold ExpenseCLI.list, list_expenses, bind. cbn [ExpenseCLI.service].
    rewrite Hload. now exists x.
  - unfold ExpenseCLI.summary, summary, list_expenses, bind.
    cbn [ExpenseCLI.service]. rewrite Hload. now exists x.
  - unfold ExpenseCLI.delete, delete_expense, delete, bind.
    cbn [ExpenseCLI.service]. rewrite Hload. now eexists.
  - unfold ExpenseCLI.edit. cbn [ExpenseCLI.service].
    destruct (negb _); [eexists; split; [reflexivity | tauto]|].
    destruct (edit_expense_cases default_service id date category
                (option_map Num amount) note currency w)
      as [(msg & Hin & Hrun)|(u & _ & _ & Hrun)]; rewrite Hrun.
    + exists msg. split; [reflexivity | tauto].
    + unfold update, bind. rewrite Hload. exists x. split; [reflexivity | tauto].
Qed.

(** X16. What [edit] does on the command line, on a stored collection.
    When no field has a true value (each is absent, the empty string or
    the amount 0) it refuses, whatever the id. Otherwise a validation
    error is printed, or the message that no record has the id, and in
    these three cases the status is 1 and nothing is written. Otherwise
    the first record with the id is replaced by the record that is
    printed, which has the same id and creation time. *)
Theorem cli_edit_outcomes :
  forall (self : ExpenseCLI.t) (l : list (Expense A)) (c : string)
         (id : string) (date category : option string) (amount : option A)
         (note currency : option string),
    let w := {| file := Document l; clock := c |} in
    let given := some_field_given date category amount note currency in
    let run := ExpenseCLI.edit self id date category amount note currency w in
    (given = false
     /\ run = (([Stderr "Error: At least one field must be provided to edit"],
                Exit 1), w))
    \/ (given = true
        /\ exists msg,
             In msg validation_messages /\ run = (([Stderr msg], Exit 1), w))
    \/ (given = true
        /\ existsb (has_id id) l = false
        /\ run = (([Stderr ("Error: Expense not found: " ++ id)], Exit 1), w))
    \/ (given = true
        /\ exists before old after r,
             l = before ++ old :: after
             /\ existsb (has_id id) before = false
             /\ Expense.id old = id
             /\ Expense.id r = id
             /\ Expense.created_at r = Expense.created_at old
             /\ run = (([Stdout ("Updated: " ++ __str__ r)], Returned),
                       {| file := Document (before ++ r :: after); clock := c |})).
Proof.
  intros self l c id date category amount note currency w given run.
  unfold run, ExpenseCLI.edit.
  change (is_true_str date || is_true_str category || is_true_num amount
          || is_true_str note || is_true_str currency) with given.
  destruct given; cbn [negb]; [right | left; now split].
  destruct (edit_expense_cases (ExpenseCLI.service self) id date category
              (option_map Num amount) note currency w)
    as [(msg & Hin & Hrun)|(u & Hid & Hca & Hrun)]; rewrite Hrun.
  { left. split; [reflexivity|]. now exists msg. }
  right.
  destruct (update_document (storage (ExpenseCLI.service self)) l c id u)
    as [(before & old & after & Hl & Hb & Ho & Hup)|[Hall Hup]];
    fold w in Hup; rewrite Hup.
  - right. split; [reflexivity|].
    exists before, old, after, (apply_updates old u).
    split; [exact Hl|]. split.
    { rewrite <- forallb_negb_existsb, Hb. reflexivity. }
    apply String.eqb_eq in Ho.
    split; [exact Ho|]. unfold apply_updates at 1 2.
    cbn [Expense.id Expense.created_at]. rewrite Hid, Hca.
    split; [exact Ho|]. split; reflexivity.
  - left. split; [reflexivity|]. split; [|reflexivity].
    rewrite <- forallb_negb_existsb, Hall. reflexivity.
Qed.



(** X18. What [summary] prints for a stored collection whose totals are
    ordered by [<]: the period, the number of records and the grand
    total, and, when a record was selected, the heading of the
    categories and one line for each category, by total from the
    greatest to the least, categories of equal total in the order of the
    summary. Nothing is written. *)
Theorem cli_summary_by_category :
  forall (self : ExpenseCLI.t) (l : list (Expense A)) (c : string)
         (month from_date to_date category : option string),
    let w := {| file := Document l; clock := c |} in
    let totals := category_totals l month from_date to_date category in
    weak_order_on num_ltb (map snd totals) ->
    exists s items lines,
      summary (ExpenseCLI.service self) month from_date to_date category w
      = (Ok s, w)
      /\ Summary.totals_by_category s = totals
      /\ ExpenseCLI.summary self month from_date to_date category w
         = (([ Stdout (PyFormat.newline ++ "Summary " ++ Summary.period s);
               Stdout ("Total expenses: "
                       ++ PyFormat.str_int (Z.of_nat (Summary.count s)));
               Stdout ("Grand total: " ++ format_2f (Summary.grand_total s)
                       ++ " " ++ Summary.currency s) ]
             ++ lines, Returned), w)
      /\ stable_sort_of (fun x y => num_ltb (snd x) (snd y)) true totals items
      /\ match items with
         | [] => lines = [] /\ Summary.count s = 0
         | _ :: _ =>
             lines
             = Stdout (PyFormat.newline ++ "By category:")
               :: map (fun item =>
                         Stdout ("  "
                                 ++ PyFormat.ljust (fst item)
                                      (PyFormat.max_len fst items)
                                 ++ "  "
                                 ++ PyFormat.rjust (format_2f (snd item)) 10
                                 ++ " " ++ Summary.currency s))
                      items
         end.
Proof.
  intros self l c month from_date to_date category w totals Hord.
  assert (Hst : stable_sort_of (fun x y => num_ltb (snd x) (snd y)) true totals
                  (PySort.sorted (fun x y => num_ltb (snd x) (snd y)) true totals)).
  { apply (PySortFacts.sorted_stable _ totals); [|apply incl_refl].
    now apply (weak_order_on_key snd num_ltb). }
  unfold ExpenseCLI.summary, w. rewrite summary_document.
  unfold totals, category_totals in *.
  destruct (summarized l month from_date to_date category) as [|first rest] eqn:Hsel.
  - do 3 eexists. split; [reflexivity|]. split; [reflexivity|].
    split; [reflexivity|]. split; [exact Hst|]. cbn. now split.
  - set (es := first :: rest) in *.
    cbn [Summary.totals_by_category Summary.period Summary.count
         Summary.grand_total Summary.currency].
    destruct (fold_left add_to_category es []) as [|kv d] eqn:Hd.
    { exfalso. destruct (totals_of_all es) as (_ & Hkeys & _).
      rewrite Hd in Hkeys. apply (proj2 (Hkeys (Expense.category first))).
      now left. }
    do 3 eexists. split; [reflexivity|]. split; [reflexivity|].
    split; [reflexivity|]. split; [exact Hst|].
    destruct Hst as (Hperm & _).
    destruct (PySort.sorted _ true (kv :: d)) as [|it its] eqn:Hs.
    { apply Permutation_sym, Permutation_nil in Hperm. discriminate. }
    f_equal. apply map_ext. now intros [k v].
Qed.
End Commands.

Lemma commands_on_unreadable_file_witness :
  load_error (storage default_service) (file garbled)
  = Some (ValueError
            "Error: Data file is corrupted. Please check data/expenses.json")
  /\ main (delete_args "EXP-20240115-0001") garbled
     = (([Stderr "Error: Error: Data file is corrupted. Please check data/expenses.json"],
         Exit 1), garbled)
  /\ main (list_args None None None None None None "date" false None "table")
          garbled
     = (([Stderr "Error: Data file is corrupted. Please check data/expenses.json"],
         Exit 1), garbled).
Proof.
  split; [reflexivity|]. split.
  - destruct (commands_on_unreadable_file (delete_args "EXP-20240115-0001")
                garbled _ eq_refl ltac:(discriminate)) as (msg & Hrun & Hmsg).
    rewrite Hrun. now rewrite Hmsg.
  - destruct (commands_on_unreadable_file
                (list_args None None None None None None "date" false None
                           "table")
                garbled _ eq_refl ltac:(discriminate)) as (msg & Hrun & Hmsg).
    rewrite Hrun. now rewrite Hmsg.
Defined.


Lemma cli_summary_by_category_witness :
  weak_order_on num_ltb
    (map snd (category_totals ledger None None None None))
  /\ exists s items lines,
       summary example_service None None None None (world_of ledger)
       = (Ok s, world_of ledger)
       /\ Summary.totals_by_category s
          = category_totals ledger None None None None
       /\ ExpenseCLI.summary (ExpenseCLI.make example_service)
                             None None None None (world_of ledger)
          = (([ Stdout (PyFormat.newline ++ "Summary " ++ Summary.period s);
                Stdout ("Total expenses: "
                        ++ PyFormat.str_int (Z.of_nat (Summary.count s)));
                Stdout ("Grand total: " ++ format_2f (Summary.grand_total s)
                        ++ " " ++ Summary.currency s) ]
              ++ lines, Returned), world_of ledger)
       /\ stable_sort_of (fun x y => num_ltb (snd x) (snd y)) true
            (category_totals ledger None None None None) items.
Proof.
  assert (Hord : weak_order_on num_ltb
                   (map snd (category_totals ledger None None None None))).
  { apply float_ltb_weak_order. vm_compute. repeat constructor. }
  split; [exact Hord|].
  destruct (cli_summary_by_category (ExpenseCLI.make example_service) ledger
              example_clock None None None None Hord)
    as (s & items & lines & Hs & Ht & Hrun & Hst & _).
  exists s, items, lines.
  split; [exact Hs|]. split; [exact Ht|]. split; [exact Hrun | exact Hst].
Defined.

(** ** The command line on the examples *)

(** Two decimals, the exact value rounded half to even. *)
Example format_2f_examples :
  map PyFormat.format_2f
      [12.5%float; 2.675%float; 0.125%float; 999.995%float; (-0.001)%float;
       0%float; infinity; nan]
  = ["12.50"; "2.67"; "0.12"; "1000.00"; "-0.00"; "0.00"; "inf"; "nan"]%string.
Proof. vm_compute. reflexivity. Qed.

(** The first command on a machine without a data file creates it. *)
Example add_on_missing_file :
  main (add_args None " Food" 12.345%float (Some " lunch "%string) "BDT")
       {| file := Missing; clock := example_clock |}
  = (([Stdout "Added: EXP-20240309-0001 | 2024-03-09 | food | 12.35 BDT | lunch"],
      Returned),
     {| file := Document [ Expense.make "EXP-20240309-0001" "2024-03-09" "food"
                             12.35%float "BDT" "lunch" example_clock ];
        clock := example_clock |}).
Proof. vm_compute. reflexivity. Qed.

(** An amount of a thousand or more does not fit the amount column:
    its row is longer than the header. *)
Example table_of_pizza :
  map String.length
      (PyStr.split "010"%char (ExpenseCLI.format_expense_table pizza))
  = [62; 62; 63].
Proof. vm_compute. reflexivity. Qed.

(** An edit that only gives the amount 0 or an empty note is refused
    before validation. *)
Example edit_with_amount_zero :
  main (edit_args "EXP-20240115-0002" None None (Some 0%float)
                  (Some ""%string) None)
       (world_of january)
  = (([Stderr "Error: At least one field must be provided to edit"], Exit 1),
     world_of january).
Proof. vm_compute. reflexivity. Qed.

(** The summary of the ledger: rent before the two spellings of food. *)
Example summary_of_ledger :
  fst (fst (main (summary_args None None None None) (world_of ledger)))
  = [ Stdout (PyFormat.newline ++ "Summary (all time)");
      Stdout "Total expenses: 5";
      Stdout "Grand total: 985.00 BDT";
      Stdout (PyFormat.newline ++ "By category:");
      Stdout "  rent      900.00 BDT";
      Stdout "  food       45.00 BDT";
      Stdout "  Food       40.00 BDT" ].
Proof. vm_compute. reflexivity. Qed.

(** ** Amounts and dates at the edges of validation *)

Section Edges.

(** X19. An amount below half a cent passes validation and is stored as
    zero: for a positive float [m * 2^e] with [200 * m < 2^(-e)], that
    is, a value under 0.005, [format_amount] returns 0.0, an amount that
    [validate_amount] itself rejects. *)
Theorem format_amount_rounds_to_zero :
  forall (x : float) (m : positive) (e : Z),
    Prim2SF x = S754_finite false m e ->
    (200 * Z.pos m < 2 ^ (- e))%Z ->
    validate_amount x = true
    /\ format_amount (Num x) = Ok 0%float
    /\ validate_amount 0%float = false.
Proof.
  intros x m e Hx Hsmall.
  assert (He : (e < 0)%Z).
  { destruct (Z.ltb_spec e 0) as [Hlt|Hge]; [exact Hlt | exfalso].
    assert (Hle : (2 ^ (- e) <= 1)%Z).
    { destruct (Z.eq_dec e 0) as [->|Hne]; [simpl; lia|].
      rewrite Z.pow_neg_r; lia. }
    lia. }
  assert (Hv : validate_amount x = true).
  { unfold validate_amount. cbn [num_leb num_zero float_num].
    rewrite leb_spec, Hx. reflexivity. }
  split; [exact Hv|]. split; [|reflexivity].
  unfold format_amount, format_amount_try, py_float. rewrite Hv. cbn [negb].
  cbn [round2 float_builtins]. unfold CPython.round2. rewrite Hx.
  destruct (Z.leb_spec 0 e) as [Hge|_]; [lia|].
  unfold CPython.half_even.
  rewrite Z.div_small, Z.mod_small by lia.
  destruct (Z.ltb_spec (2 ^ (- e)) (2 * (Z.pos m * 100))) as [Hlt|_]; [lia|].
  destruct (Z.eqb_spec (2 ^ (- e)) (2 * (Z.pos m * 100))) as [Heq|_]; [lia|].
  reflexivity.
Qed.

Lemma length_list_ascii (s : string) :
  List.length (list_ascii_of_string s) = String.length s.
Proof. induction s as [|c s IH]; simpl; [reflexivity | now rewrite IH]. Qed.

(** The characters of a string: those of its pieces and one separator
    between two pieces. *)
Lemma split_length (sep : ascii) (s : string) :
  list_sum (map (fun p => S (String.length p)) (PyStr.split sep s))
  = S (String.length s).
Proof.
  induction s as [|x r IH]; [reflexivity|].
  cbn [PyStr.split]. destruct (Ascii.eqb x sep).
  - cbn [map list_sum String.length]. change (list_sum ?l) with (list_sum l).
    simpl. now rewrite IH.
  - destruct (PyStr.split sep r) as [|piece rest]; simpl in *; lia.
Qed.

Lemma year_of_length (s : string) (y : Z) :
  CPython.year_of s = Some y -> String.length s = 4.
Proof.
  unfold CPython.year_of. rewrite length_list_ascii.
  destruct (Nat.eqb_spec (String.length s) 4) as [Hl|_]; [easy | discriminate].
Qed.

Lemma month_of_length (s : string) (m : Z) :
  CPython.month_of s = Some m -> 1 <= String.length s <= 2.
Proof.
  unfold CPython.month_of. rewrite length_list_ascii.
  destruct (forallb _ _); [|discriminate]. cbn [andb].
  destruct (Nat.eqb_spec (String.length s) 1) as [->|_]; [lia|].
  destruct (Nat.eqb_spec (String.length s) 2) as [->|_]; [lia | discriminate].
Qed.

(** The day may be written with a space before one digit. *)
Lemma day_of_length (s : string) (d : Z) :
  CPython.day_of s = Some d -> 1 <= String.length s <= 2.
Proof.
  unfold CPython.day_of. rewrite <- length_list_ascii.
  destruct (list_ascii_of_string s) as [|a [|b [|c r]]].
  - cbn. discriminate.
  - cbn [List.length]. lia.
  - cbn [List.length]. lia.
  - destruct a as [[] [] [] [] [] [] [] []];
      cbn [List.length Nat.eqb orb]; rewrite andb_false_r; cbn [andb];
      discriminate.
Qed.

(** X20. A date that [validate_date] accepts has between eight and ten
    characters: a year of four digits and a month and a day of one or
    two, with two dashes. So the dates [format_date] lets through fit
    the date column of the table. *)
Theorem validate_date_length :
  forall d : string,
    validate_date d = true -> 8 <= String.length d <= 10.
Proof.
  intros d. unfold validate_date. cbn [strptime_ymd float_builtins].
  unfold CPython.strptime_ymd.
  pose proof (split_length "-" d) as Hlen.
  destruct (PyStr.split "-" d) as [|y [|m [|dd [|extra rest]]]];
    try discriminate.
  destruct (CPython.year_of y) as [yv|] eqn:Hy; [|discriminate].
  destruct (CPython.month_of m) as [mv|] eqn:Hm; [|discriminate].
  destruct (CPython.day_of dd) as [dv|] eqn:Hd; [|discriminate].
  intros _.
  apply year_of_length in Hy. apply month_of_length in Hm.
  apply day_of_length in Hd. simpl in Hlen. lia.
Qed.
End Edges.

Lemma format_amount_rounds_to_zero_witness :
  validate_amount 0.001%float = true
  /\ format_amount (Num 0.001%float) = Ok 0%float
  /\ validate_amount 0%float = false.
Proof.
  eapply (format_amount_rounds_to_zero 0.001%float);
    vm_compute; reflexivity.
Defined.

Lemma validate_date_length_witness :
  validate_date "2024-1-5" = true
  /\ 8 <= String.length "2024-1-5" <= 10.
Proof.
  assert (Hv : validate_date "2024-1-5" = true) by reflexivity.
  split; [exact Hv | exact (validate_date_length "2024-1-5" Hv)].
Defined.
